(** * The typed schema of the data analyst: [utils/schema.py]

    A shallow embedding of the pydantic models of [utils/schema.py] and of
    the parts of pandas they rest on, followed by the properties the
    specification states about them.

    Conventions.
    - A Python [str] is a list of Unicode code points ([str] below), so that
      [len] counts characters, not bytes.
    - A call that may raise returns a [result]: [Ok v] or [Raise e].
    - A pydantic constructor takes one argument per field.  A keyword that
      the caller leaves out is [None]; arguments are taken at the type the
      field is annotated with (pydantic's coercion of foreign types is not
      modelled). *)

From Stdlib Require Import List ZArith NArith String Ascii Bool Lia.
From Stdlib Require Import Permutation DecimalString.
From Stdlib Require Import Floats.SpecFloat.
Import ListNotations.

Set Implicit Arguments.

(** ** Python strings *)

Definition char := N.
Definition str := list char.

(** A literal of the source, as code points. *)
Definition py (s : string) : str :=
  List.map N_of_ascii (list_ascii_of_string s).

Definition str_eq_dec : forall a b : str, {a = b} + {a <> b} :=
  list_eq_dec N.eq_dec.

Definition str_eqb (a b : str) : bool :=
  if str_eq_dec a b then true else false.

(** [c.isspace()], the characters [str.strip()] removes. *)
Definition isspace (c : char) : bool :=
  ((9 <=? c) && (c <=? 13) || (28 <=? c) && (c <=? 32)
   || (c =? 133) || (c =? 160) || (c =? 5760)
   || (8192 <=? c) && (c <=? 8202)
   || (c =? 8232) || (c =? 8233) || (c =? 8239) || (c =? 8287)
   || (c =? 12288))%N.

Fixpoint lstrip (s : str) : str :=
  match s with
  | [] => []
  | c :: s' => if isspace c then lstrip s' else s
  end.

Definition rstrip (s : str) : str := rev (lstrip (rev s)).

Definition strip (s : str) : str := rstrip (lstrip s).

(** [len(s)] *)
Definition len {A} (l : list A) : Z := Z.of_nat (List.length l).

(** ** Exceptions and results *)

Inductive exn :=
| ValueError (msg : string)
| TypeError (msg : string)
| AttributeError (msg : string)
| OverflowError (msg : string)
| ValidationError (errors : list string).

Inductive result (A : Type) :=
| Ok (a : A)
| Raise (e : exn).

Arguments Ok {A} a.
Arguments Raise {A} e.

Definition is_ok {A} (r : result A) : bool :=
  match r with Ok _ => true | Raise _ => false end.

Definition bind {A B} (r : result A) (k : A -> result B) : result B :=
  match r with
  | Ok a => k a
  | Raise e => Raise e
  end.

Notation "x <- r ;; k" := (bind r (fun x => k))
  (at level 61, r at next level, right associativity).

(** What pydantic reports for a field.  A validator that raises
    [ValueError] contributes one line to the [ValidationError] of the model;
    any other exception leaves the constructor as it is. *)
Definition field_errors {A} (r : result A) : list string :=
  match r with
  | Ok _ => []
  | Raise (ValueError m) => [m]
  | Raise (ValidationError ms) => ms
  | Raise _ => []
  end.

(** A [ValueError] raised by a validator comes out of the constructor as a
    [ValidationError]. *)
Definition as_validation_error (e : exn) : exn :=
  match e with
  | ValueError m => ValidationError [m]
  | _ => e
  end.

(** A required field: the keyword must be there. *)
Definition required {A} (arg : option A) : result A :=
  match arg with
  | Some a => Ok a
  | None => Raise (ValueError "Field required")
  end.

(** [[f(x) for x in l]]: the first exception ends it. *)
Fixpoint traverse {A B} (f : A -> result B) (l : list A) : result (list B) :=
  match l with
  | [] => Ok []
  | a :: l' => b <- f a ;; bs <- traverse f l' ;; Ok (b :: bs)
  end.

(** ** Python dicts

    A [dict] keeps its keys in insertion order and holds a key once. *)

Section Dict.
Variables K V : Type.
Variable K_eq_dec : forall a b : K, {a = b} + {a <> b}.

Definition dict := list (K * V).

Definition keys (d : dict) : list K := List.map fst d.

Fixpoint dict_get (k : K) (d : dict) : option V :=
  match d with
  | [] => None
  | (k', v) :: d' => if K_eq_dec k k' then Some v else dict_get k d'
  end.

(** [d[k] = v]: a new key goes last, a known key keeps its place. *)
Fixpoint dict_set (k : K) (v : V) (d : dict) : dict :=
  match d with
  | [] => [(k, v)]
  | (k', v') :: d' =>
      if K_eq_dec k k' then (k, v) :: d' else (k', v') :: dict_set k v d'
  end.

(** [dict(items)] and the dict comprehension. *)
Definition dict_of_items (items : list (K * V)) : dict :=
  fold_left (fun d kv => dict_set (fst kv) (snd kv) d) items [].

(** [a == b]: the same keys with equal values, whatever the order. *)
Definition dict_eqb (veqb : V -> V -> bool) (a b : dict) : bool :=
  (List.length a =? List.length b)%nat
  && forallb (fun kv =>
                match dict_get (fst kv) b with
                | Some v' => veqb (snd kv) v'
                | None => false
                end) a.
End Dict.

(** ** [DictionaryGeneration]: the validator of the generated dictionary *)

Module DictionaryGeneration.

Record t := mk { columns : list str; descriptions : list str }.

(** [len(set(v))] *)
Definition set_size (v : list str) : nat :=
  List.length (nodup str_eq_dec v).

(** The [for col in v] loop of [validate_columns]. *)
Fixpoint each_column (v : list str) : result unit :=
  match v with
  | [] => Ok tt
  | col :: v' =>
      match col with
      | [] => Raise (ValueError "Each column name must be a non-empty string")
      | _ => each_column v'
      end
  end.

Definition validate_columns (v : list str) : result (list str) :=
  match v with
  | [] => Raise (ValueError "Columns list cannot be empty")
  | _ =>
      if negb (List.length v =? set_size v)%nat
      then Raise (ValueError "Duplicate column names are not allowed")
      else _ <- each_column v ;; Ok v
  end.

(** The [for desc in v] loop of [validate_descriptions]. *)
Fixpoint each_description (v : list str) : result unit :=
  match v with
  | [] => Ok tt
  | desc :: v' =>
      match desc with
      | [] => Raise (ValueError "Each description must be a non-empty string")
      | _ =>
          if (len (strip desc) <? 10)%Z
          then Raise (ValueError "Descriptions must be at least 10 characters long")
          else each_description v'
      end
  end.

(** [values.data] holds the fields validated so far: [columns] is in it
    only when its own validation passed.  On a length mismatch the message
    is built with [values['columns']]; a [ValidationInfo] has no
    [__getitem__], so the f-string raises [TypeError] before the
    [ValueError] is made. *)
Definition validate_descriptions (v : list str) (data : option (list str))
  : result (list str) :=
  match data with
  | None => Raise (ValueError "Columns must be provided before descriptions")
  | Some cols =>
      if negb (List.length v =? List.length cols)%nat
      then Raise (TypeError "'pydantic_core._pydantic_core.ValidationInfo' object is not subscriptable")
      else _ <- each_description v ;; Ok v
  end.

(** [DictionaryGeneration(columns=..., descriptions=...)]: the fields are
    validated in the order of their declaration. *)
Definition construct (columns descriptions : option (list str)) : result t :=
  let rc := c <- required columns ;; validate_columns c in
  let data := match rc with Ok c => Some c | Raise _ => None end in
  let rd := d <- required descriptions ;; validate_descriptions d data in
  match rd with
  | Raise (TypeError m) => Raise (TypeError m)
  | _ =>
      match rc, rd with
      | Ok c, Ok d => Ok (mk c d)
      | _, _ => Raise (ValidationError (field_errors rc ++ field_errors rd))
      end
  end.

(** [dict(zip(self.columns, self.descriptions))] *)
Definition to_dict (self : t) : dict str str :=
  dict_of_items str_eq_dec (combine (columns self) (descriptions self)).

End DictionaryGeneration.


(** ** Python values held in a table cell *)

(** A [float] is an IEEE 754 binary64 number. *)
Definition float := spec_float.

Definition nan : float := S754_nan.

(** [float(z)], rounded to nearest even. *)
Definition float_of_int (z : Z) : float := binary_normalize 53 1024 z 0 false.

(** What a cell of a record holds: [None], a [bool], an [int], a [float] or
    a [str]. *)
Inductive scalar :=
| SNone
| SBool (b : bool)
| SInt (z : Z)
| SFloat (f : float)
| SStr (s : str).

Definition scalar_eq_dec : forall a b : scalar, {a = b} + {a <> b}.
Proof.
  decide equality; try apply str_eq_dec; try apply Z.eq_dec;
    try apply Bool.bool_dec.
  decide equality; try apply Z.eq_dec; try apply Pos.eq_dec;
    try apply Bool.bool_dec.
Defined.

Definition is_nan (v : scalar) : bool :=
  match v with SFloat S754_nan => true | _ => false end.

(** [f == z] for a float and an int: Python compares the exact values. *)
Definition float_eqb_int (f : float) (z : Z) : bool :=
  match f with
  | S754_zero _ => (z =? 0)%Z
  | S754_finite s m e =>
      let v := if s then Z.neg m else Z.pos m in
      if (0 <=? e)%Z then (z =? v * 2 ^ e)%Z else (v =? z * 2 ^ (- e))%Z
  | _ => false
  end.

Definition int_of_bool (b : bool) : Z := if b then 1%Z else 0%Z.

(** [a == b] on cell values.  A [bool] is an [int]; a NaN equals nothing. *)
Definition scalar_eqb (a b : scalar) : bool :=
  match a, b with
  | SNone, SNone => true
  | SStr s, SStr s' => str_eqb s s'
  | SBool x, SBool y => Bool.eqb x y
  | SBool x, SInt z | SInt z, SBool x => (int_of_bool x =? z)%Z
  | SBool x, SFloat f | SFloat f, SBool x => float_eqb_int f (int_of_bool x)
  | SInt x, SInt y => (x =? y)%Z
  | SInt z, SFloat f | SFloat f, SInt z => float_eqb_int f z
  | SFloat f, SFloat g => SFeqb f g
  | _, _ => false
  end.

(** A record: [dict[str, Any]] with cell values. *)
Definition record := dict str scalar.

Definition record_eqb : record -> record -> bool :=
  dict_eqb str_eq_dec scalar_eqb.

(** [a == b] on lists of records. *)
Fixpoint records_eqb (a b : list record) : bool :=
  match a, b with
  | [], [] => true
  | x :: a', y :: b' => record_eqb x y && records_eqb a' b'
  | _, _ => false
  end.

(** ** pandas: the part of [DataFrame] the schema uses

    pandas is a dependency of the repository.  The model below keeps what
    [utils/schema.py] relies on: the column labels, one typed array per
    column, the conversion of a list of records to such arrays
    ([DataFrame.from_records]) and back ([DataFrame.to_dict]). *)

Module pd.

(** A column label: a [str], or an [int] when pandas numbers the columns. *)
Inductive label :=
| LStr (s : str)
| LInt (i : Z).

Definition label_eq_dec : forall a b : label, {a = b} + {a <> b}.
Proof. decide equality; [apply str_eq_dec | apply Z.eq_dec]. Defined.

(** [str(k)] on a label. *)
Definition label_str (k : label) : str :=
  match k with
  | LStr s => s
  | LInt i => py (DecimalString.NilZero.string_of_int (Z.to_int i))
  end.

Inductive dtype := int64 | uint64 | float64 | bool_ | object.

(** [str(dtype)] *)
Definition dtype_str (d : dtype) : str :=
  match d with
  | int64 => py "int64"
  | uint64 => py "uint64"
  | float64 => py "float64"
  | bool_ => py "bool"
  | object => py "object"
  end.

Record Series := mkSeries { dtype_of : dtype; values : list scalar }.

(** [index] is the number of rows. *)
Record DataFrame := mkDataFrame {
  columns : list label;
  data : list Series;
  index : nat
}.

(** [pd.DataFrame()] *)
Definition empty : DataFrame := mkDataFrame [] [] 0.

(** *** Type inference of a column: [lib.maybe_convert_objects] *)

Record Seen := mkSeen {
  null_ : bool; nan_ : bool; bool_seen : bool; int_ : bool;
  uint_ : bool; sint_ : bool; float_ : bool; object_ : bool
}.

Definition seen0 : Seen :=
  mkSeen false false false false false false false false.

Definition INT64_MIN : Z := - 2 ^ 63.
Definition INT64_MAX : Z := 2 ^ 63 - 1.
Definition UINT64_MAX : Z := 2 ^ 64 - 1.

(** The first int Python does not cast to a C double: past the largest
    double, halfway to [2 ** 1024]. *)
Definition DBL_LIMIT : Z := 2 ^ 1024 - 2 ^ 970.

(** [<float64_t>val] succeeds on the int. *)
Definition fits_double (z : Z) : bool := (Z.abs z <? DBL_LIMIT)%Z.

(** The flags after a value. *)
Definition saw (s : Seen) (val : scalar) : Seen :=
  match val with
  | SNone =>
      mkSeen true (nan_ s) (bool_seen s) (int_ s) (uint_ s) (sint_ s)
             (float_ s) (object_ s)
  | SFloat S754_nan =>
      mkSeen (null_ s) true (bool_seen s) (int_ s) (uint_ s) (sint_ s)
             (float_ s) (object_ s)
  | SBool _ =>
      mkSeen (null_ s) (nan_ s) true (int_ s) (uint_ s) (sint_ s)
             (float_ s) (object_ s)
  | SFloat _ =>
      mkSeen (null_ s) (nan_ s) (bool_seen s) (int_ s) (uint_ s) (sint_ s)
             true (object_ s)
  | SInt z =>
      if null_ s
      then mkSeen (null_ s) (nan_ s) (bool_seen s) true (uint_ s) (sint_ s)
                  (float_ s) (object_ s)
      else
        let u := uint_ s || ((INT64_MAX <? z) && (z <=? UINT64_MAX))%Z in
        let g := sint_ s || ((INT64_MIN <=? z) && (z <? 0))%Z in
        mkSeen (null_ s) (nan_ s) (bool_seen s) true u g (float_ s)
               (object_ s || (u && g) || (UINT64_MAX <? z)%Z
                || (z <? INT64_MIN)%Z)
  | SStr _ =>
      mkSeen (null_ s) (nan_ s) (bool_seen s) (int_ s) (uint_ s) (sint_ s)
             (float_ s) true
  end.

(** One turn of the loop over the values.  An int is cast to a C double
    for the [floats] buffer before anything else, and the cast raises
    [OverflowError] when the int is too large. *)
Definition see (s : Seen) (val : scalar) : result Seen :=
  match val with
  | SInt z =>
      if fits_double z then Ok (saw s val)
      else Raise (OverflowError "int too large to convert to float")
  | _ => Ok (saw s val)
  end.

(** The loop; it stops at the first value that makes the column
    [object]. *)
Fixpoint see_all (s : Seen) (vals : list scalar) : result Seen :=
  match vals with
  | [] => Ok s
  | v :: vals' =>
      s' <- see s v ;;
      if object_ s' then Ok s' else see_all s' vals'
  end.

(** The slot of a value in the [floats] buffer. *)
Definition as_float (v : scalar) : scalar :=
  match v with
  | SNone => SFloat nan
  | SInt z => SFloat (float_of_int z)
  | _ => v
  end.

(** After the loop: the array the flags select. *)
Definition converted (s : Seen) (vals : list scalar) : Series :=
  let floats := mkSeries float64 (List.map as_float vals) in
  if object_ s then mkSeries object vals
  else if bool_seen s then
    if negb (int_ s || float_ s || nan_ s || null_ s)
    then mkSeries bool_ vals
    else mkSeries object vals
  else if null_ s || nan_ s then
    if float_ s then floats
    else if int_ s || uint_ s then floats
    else if nan_ s then floats
    else mkSeries object vals
  else if float_ s then floats
  else if int_ s then
    if uint_ s then mkSeries uint64 vals else mkSeries int64 vals
  else mkSeries object vals.

Definition maybe_convert_objects (vals : list scalar) : result Series :=
  s <- see_all seen0 vals ;;
  Ok (converted s vals).

(** *** [DataFrame.from_records] *)

(** An element of the list handed over as [data]. *)
Inductive item :=
| IDict (d : record)
| IList (l : list scalar)
| IScalar (s : scalar).

(** The column labels of a list of dicts: every key, in the order of its
    first appearance ([lib.fast_unique_multiple_list_gen]). *)
Fixpoint unique_keys (seen : list str) (ds : list record) : list str :=
  match ds with
  | [] => seen
  | d :: ds' =>
      unique_keys
        (fold_left (fun acc k => if in_dec str_eq_dec k acc then acc
                                 else acc ++ [k]) (keys d) seen)
        ds'
  end.

(** [x.keys()] on every element. *)
Fixpoint all_dicts (v : list item) : result (list record) :=
  match v with
  | [] => Ok []
  | IDict d :: v' => ds <- all_dicts v' ;; Ok (d :: ds)
  | _ :: _ => Raise (AttributeError "object has no attribute 'keys'")
  end.

(** [row[col] if col in row else nan] ([lib.dicts_to_array]). *)
Definition cell (d : record) (col : str) : scalar :=
  match dict_get str_eq_dec col d with
  | Some v => v
  | None => SFloat nan
  end.

(** [list(x)] / [tuple(x)] on an element that is not a dict of the dict
    path: a list gives its elements, a str its characters, a dict its
    keys; anything else is not iterable. *)
Definition row_of (x : item) : result (list scalar) :=
  match x with
  | IList l => Ok l
  | IDict d => Ok (List.map SStr (keys d))
  | IScalar (SStr s) => Ok (List.map (fun c => SStr [c]) s)
  | IScalar _ => Raise (TypeError "object is not iterable")
  end.

Fixpoint all_rows (v : list item) : result (list (list scalar)) :=
  match v with
  | [] => Ok []
  | x :: v' =>
      r <- row_of x ;; rs <- all_rows v' ;; Ok (r :: rs)
  end.

Definition width (rows : list (list scalar)) : nat :=
  fold_left (fun k r => Nat.max k (List.length r)) rows 0.

(** Column [j] of the object array: [np.empty] leaves [None] where a row
    is short ([lib.to_object_array]). *)
Definition column_at (rows : list (list scalar)) (j : nat) : list scalar :=
  List.map (fun r => nth j r SNone) rows.

(** The frame of the converted arrays; without arrays the index is
    empty. *)
Definition of_arrays (cols : list label) (arrays : list (list scalar))
           (n : nat) : result DataFrame :=
  data <- traverse maybe_convert_objects arrays ;;
  Ok (mkDataFrame cols data (match arrays with [] => 0 | _ => n end)).

Definition from_records (v : list item) : result DataFrame :=
  match v with
  | [] => Ok empty
  | IDict _ :: _ =>
      ds <- all_dicts v ;;
      let cols := unique_keys [] ds in
      of_arrays (List.map LStr cols)
                (List.map (fun c => List.map (fun d => cell d c) ds) cols)
                (List.length ds)
  | _ :: _ =>
      rows <- all_rows v ;;
      let k := width rows in
      of_arrays (List.map (fun j => LInt (Z.of_nat j)) (seq 0 k))
                (List.map (column_at rows) (seq 0 k))
                (List.length rows)
  end.

(** *** [DataFrame(dict_of_lists)] *)

(** [sanitize_array] on a list: an empty list is an empty [float64] array,
    any other list goes through the inference. *)
Definition sanitize_array (l : list scalar) : result Series :=
  match l with
  | [] => Ok (mkSeries float64 [])
  | _ :: _ => maybe_convert_objects l
  end.

(** The lengths are compared first, then the lists are converted. *)
Definition of_dict (d : dict str (list scalar)) : result DataFrame :=
  match d with
  | [] => Ok empty
  | (_, l) :: _ =>
      let n := List.length l in
      if forallb (fun kv => (List.length (snd kv) =? n)%nat) d
      then
        data <- traverse (fun kv => sanitize_array (snd kv)) d ;;
        Ok (mkDataFrame (List.map LStr (keys d)) data n)
      else Raise (ValueError "All arrays must be of the same length")
  end.

(** *** [df.to_dict(orient="records")] *)

(** Row [i] as the pairs [zip(columns, row)]. *)
Definition row_items (df : DataFrame) (i : nat) : list (label * scalar) :=
  List.map (fun cs => (fst cs, nth i (values (snd cs)) SNone))
           (combine (columns df) (data df)).

Definition to_dict_records (df : DataFrame) : list (dict label scalar) :=
  List.map (fun i => dict_of_items label_eq_dec (row_items df i))
           (seq 0 (index df)).

(** *** [df[col]] and [row[col]] *)

Definition count_label (df : DataFrame) (col : label) : nat :=
  count_occ label_eq_dec (columns df) col.

(** [df[col]]: the column, when the label names exactly one. *)
Definition getitem (df : DataFrame) (col : label) : option Series :=
  if (count_label df col =? 1)%nat
  then dict_get label_eq_dec col (combine (columns df) (data df))
  else None.

End pd.


(** ** [DataFrameWrapper] and [AnalystDataset] *)

Module DataFrameWrapper.

Record t := mk { df : pd.DataFrame }.

(** What a caller may pass as [data]. *)
Inductive arg :=
| Wrapped (w : t)
| Frame (f : pd.DataFrame)
| Records (v : list pd.item)
| Other (s : scalar).

Definition validate (v : arg) : result t :=
  match v with
  | Wrapped w => Ok w
  | Frame f => Ok (mk f)
  | Records l =>
      match pd.from_records l with
      | Ok f => Ok (mk f)
      | Raise _ =>
          Raise (ValueError "Invalid data format; expecting a list of records")
      end
  | Other _ =>
      Raise (ValueError "data must be either a pandas DataFrame or a list of records")
  end.

(** [{str(k): v for k, v in record.items()}] for every record. *)
Definition to_dict (w : t) : list record :=
  List.map
    (fun rec => dict_of_items str_eq_dec
                  (List.map (fun kv => (pd.label_str (fst kv), snd kv)) rec))
    (pd.to_dict_records (df w)).

End DataFrameWrapper.

Module AnalystDataset.

Record t := mk { name : str; data : DataFrameWrapper.t }.

(** The [mode="before"] validator: without [data], the frame is rebuilt
    from [data_records]. *)
Definition reconstruct_data (data : option DataFrameWrapper.arg)
           (data_records : option (list pd.item))
  : result (option DataFrameWrapper.arg) :=
  match data, data_records with
  | None, Some records =>
      match pd.from_records records with
      | Ok f => Ok (Some (DataFrameWrapper.Wrapped (DataFrameWrapper.mk f)))
      | Raise _ =>
          Raise (ValueError "Invalid data_records for DataFrame reconstruction")
      end
  | _, _ => Ok data
  end.

(** [AnalystDataset(name=..., data=..., data_records=...)] *)
Definition construct (name : option str)
           (data : option DataFrameWrapper.arg)
           (data_records : option (list pd.item)) : result t :=
  match reconstruct_data data data_records with
  | Raise e => Raise (as_validation_error e)
  | Ok data' =>
      let n := match name with Some n => n | None => py "analyst_dataset" end in
      match data' with
      | None => Ok (mk n (DataFrameWrapper.mk pd.empty))
      | Some a =>
          match DataFrameWrapper.validate a with
          | Ok w => Ok (mk n w)
          | Raise e => Raise (as_validation_error e)
          end
      end
  end.

Definition data_records (d : t) : list record :=
  DataFrameWrapper.to_dict (data d).

Definition to_df (d : t) : pd.DataFrame := DataFrameWrapper.df (data d).

(** [self.data.df.columns.tolist()] *)
Definition columns (d : t) : list pd.label := pd.columns (to_df d).

(** [AnalystDataset(name=name, data=records)] followed by
    [.data_records()]. *)
Definition round_trip (name : str) (r : list record) : result (list record) :=
  d <- construct (Some name)
         (Some (DataFrameWrapper.Records (List.map pd.IDict r))) None ;;
  Ok (data_records d).

End AnalystDataset.

(** ** [DataDictionary] *)

(** A [str] field given a cell value. *)
Definition validate_str (v : scalar) : result str :=
  match v with
  | SStr s => Ok s
  | _ => Raise (ValidationError ["Input should be a valid string"%string])
  end.

Module DataDictionaryColumn.

Record t := mk { data_type : str; column : str; description : str }.

(** [DataDictionaryColumn(column=..., description=..., data_type=...)]:
    three [str] fields, checked in the order of their declaration. *)
Definition construct (data_type column description : scalar) : result t :=
  let rt := validate_str data_type in
  let rc := validate_str column in
  let rd := validate_str description in
  match rt, rc, rd with
  | Ok t, Ok c, Ok d => Ok (mk t c d)
  | _, _, _ =>
      Raise (ValidationError
               (field_errors rt ++ field_errors rc ++ field_errors rd))
  end.

End DataDictionaryColumn.

Module DataDictionary.

Record t := mk {
  name : str;
  column_descriptions : list DataDictionaryColumn.t
}.

(** [DataDictionary(name=..., column_descriptions=...)]: two required
    fields and no validator. *)
Definition construct (name : option str)
           (column_descriptions : option (list DataDictionaryColumn.t))
  : result t :=
  let rn := required name in
  let rc := required column_descriptions in
  match rn, rc with
  | Ok n, Ok c => Ok (mk n c)
  | _, _ => Raise (ValidationError (field_errors rn ++ field_errors rc))
  end.

(** The columns a dictionary describes, in order. *)
Definition described (d : t) : list str :=
  List.map DataDictionaryColumn.column (column_descriptions d).

(** A label as the value handed to a field. *)
Definition label_value (col : pd.label) : scalar :=
  match col with
  | pd.LStr s => SStr s
  | pd.LInt i => SInt i
  end.

(** One turn of the comprehension of [from_analyst_df]: the arguments are
    evaluated first ([df[col].dtype]: with a label that names several
    columns [df[col]] is a frame, which has no [dtype]), then the column
    is built. *)
Definition describe (df : pd.DataFrame) (description : str) (col : pd.label)
  : result DataDictionaryColumn.t :=
  match pd.getitem df col with
  | None => Raise (AttributeError "'DataFrame' object has no attribute 'dtype'")
  | Some s =>
      DataDictionaryColumn.construct
        (SStr (pd.dtype_str (pd.dtype_of s))) (label_value col)
        (SStr description)
  end.

Fixpoint for_each {A B} (f : A -> result B) (l : list A) : result (list B) :=
  match l with
  | [] => Ok []
  | a :: l' => b <- f a ;; bs <- for_each f l' ;; Ok (b :: bs)
  end.

Definition from_analyst_df (df : pd.DataFrame) (name : option str)
           (column_descriptions : option str) : result t :=
  let name := match name with Some n => n | None => py "analysis_result" end in
  let description := match column_descriptions with
                     | Some d => d
                     | None => py "Analysis result column"
                     end in
  cols <- for_each (describe df description) (pd.columns df) ;;
  construct (Some name) (Some cols).

(** [row[col]] for row [i] of [df.iterrows()]: the cell, when the label
    names one column.  (With several, [row[col]] is a Series; no field
    takes it, and it is rendered as [None] here.) *)
Definition row_get (df : pd.DataFrame) (i : nat) (col : str) : scalar :=
  match pd.getitem df (pd.LStr col) with
  | Some s => nth i (pd.values s) SNone
  | None => SNone
  end.

Definition from_application_df (df : pd.DataFrame) (name : option str)
  : result t :=
  let name := match name with Some n => n | None => py "analysis_result" end in
  if forallb (fun c => if in_dec pd.label_eq_dec (pd.LStr c) (pd.columns df)
                       then true else false)
             [py "column"; py "description"; py "data_type"]
  then
    cols <- for_each
              (fun i =>
                 DataDictionaryColumn.construct
                   (row_get df i (py "data_type"))
                   (row_get df i (py "column"))
                   (row_get df i (py "description")))
              (seq 0 (pd.index df)) ;;
    construct (Some name) (Some cols)
  else Raise (ValueError "DataFrame must contain columns: {'column', 'description', 'data_type'}").

Definition to_application_df (d : t) : result pd.DataFrame :=
  pd.of_dict
    [(py "column",
      List.map (fun c => SStr (DataDictionaryColumn.column c))
               (column_descriptions d));
     (py "description",
      List.map (fun c => SStr (DataDictionaryColumn.description c))
               (column_descriptions d));
     (py "data_type",
      List.map (fun c => SStr (DataDictionaryColumn.data_type c))
               (column_descriptions d))].

(** [DataDictionary.from_application_df(d.to_application_df(), name=d.name)] *)
Definition application_round_trip (d : t) : result t :=
  df <- to_application_df d ;;
  from_application_df df (Some (name d)).

End DataDictionary.


(** ** Failure snapshots and [AnalysisError] *)

(** Modelled from the spec: [utils/code_execution.py] is not among the
    sources; [schema.py] imports [MaxReflectionAttempts] from it and reads
    the fields below.  The spec calls it the reflection-exhausted error: the
    ordered failures, one per attempt, oldest first, with nil entries
    possible. *)
Module code_execution.

(** An exception object, by what [str(e)] gives. *)
Record Exception := mkException { message : str }.

Definition str_of (e : Exception) : str := message e.

(** One failed attempt. *)
Record InvalidGeneratedCode := mkInvalid {
  exception : Exception;
  traceback_str : option str;
  code : option str;
  stdout : option str;
  stderr : option str
}.

Record MaxReflectionAttempts := mkMax {
  exception_history : option (list (option InvalidGeneratedCode))
}.

End code_execution.

Module CodeExecutionError.
Record t := mk {
  code : option str;
  exception_str : option str;
  stdout : option str;
  stderr : option str;
  traceback_str : option str
}.
End CodeExecutionError.

Module AnalysisError.

Record t := mk { exception_history : option (list CodeExecutionError.t) }.

(** The body of the comprehension. *)
Definition snapshot (e : code_execution.InvalidGeneratedCode)
  : CodeExecutionError.t :=
  CodeExecutionError.mk
    (code_execution.code e)
    (Some (code_execution.str_of (code_execution.exception e)))
    (code_execution.stdout e)
    (code_execution.stderr e)
    (code_execution.traceback_str e).

(** [for exception in history if exception is not None] *)
Fixpoint not_none {A} (l : list (option A)) : list A :=
  match l with
  | [] => []
  | Some a :: l' => a :: not_none l'
  | None :: l' => not_none l'
  end.

Definition from_max_reflection_exception
           (exception : code_execution.MaxReflectionAttempts) : t :=
  mk (match code_execution.exception_history exception with
      | Some history => Some (List.map snapshot (not_none history))
      | None => None
      end).

End AnalysisError.

(** ** Results *)

(** [Literal["success", "error"]] *)
Module Status.

Inductive t := success | error.

Definition validate (v : str) : result t :=
  if str_eqb v (py "success") then Ok success
  else if str_eqb v (py "error") then Ok error
  else Raise (ValueError "Input should be 'success' or 'error'").

Definition to_str (s : t) : str :=
  match s with success => py "success" | error => py "error" end.

End Status.

Module RunAnalysisResultMetadata.

Record t := mk {
  duration : float;
  attempts : Z;
  datasets_analyzed : option Z;
  total_rows_analyzed : option Z;
  total_columns_analyzed : option Z;
  exception : option AnalysisError.t
}.

(** [duration] and [attempts] are required; the others default to
    [None]. *)
Definition construct (duration : option float) (attempts : option Z)
           (datasets_analyzed total_rows_analyzed total_columns_analyzed
              : option Z)
           (exception : option AnalysisError.t) : result t :=
  let rd := required duration in
  let ra := required attempts in
  match rd, ra with
  | Ok d, Ok a =>
      Ok (mk d a datasets_analyzed total_rows_analyzed
             total_columns_analyzed exception)
  | _, _ => Raise (ValidationError (field_errors rd ++ field_errors ra))
  end.

End RunAnalysisResultMetadata.

Module RunAnalysisResult.

Record t := mk {
  status : Status.t;
  metadata : RunAnalysisResultMetadata.t;
  dataset : option AnalystDataset.t;
  code : option str
}.

Definition construct (status : option str)
           (metadata : option RunAnalysisResultMetadata.t)
           (dataset : option AnalystDataset.t) (code : option str)
  : result t :=
  let rs := s <- required status ;; Status.validate s in
  let rm := required metadata in
  match rs, rm with
  | Ok s, Ok m => Ok (mk s m dataset code)
  | _, _ => Raise (ValidationError (field_errors rs ++ field_errors rm))
  end.

(** The error metadata of a result. *)
Definition error_metadata (r : t) : option AnalysisError.t :=
  RunAnalysisResultMetadata.exception (metadata r).

End RunAnalysisResult.

Module RunDatabaseAnalysisResultMetadata.

Record t := mk {
  duration : float;
  attempts : Z;
  datasets_analyzed : option Z;
  total_columns_analyzed : option Z;
  exception : option AnalysisError.t
}.

Definition construct (duration : option float) (attempts : option Z)
           (datasets_analyzed total_columns_analyzed : option Z)
           (exception : option AnalysisError.t) : result t :=
  let rd := required duration in
  let ra := required attempts in
  match rd, ra with
  | Ok d, Ok a =>
      Ok (mk d a datasets_analyzed total_columns_analyzed exception)
  | _, _ => Raise (ValidationError (field_errors rd ++ field_errors ra))
  end.

End RunDatabaseAnalysisResultMetadata.

Module RunDatabaseAnalysisResult.

Record t := mk {
  status : Status.t;
  metadata : RunDatabaseAnalysisResultMetadata.t;
  dataset : option AnalystDataset.t;
  code : option str
}.

Definition construct (status : option str)
           (metadata : option RunDatabaseAnalysisResultMetadata.t)
           (dataset : option AnalystDataset.t) (code : option str)
  : result t :=
  let rs := s <- required status ;; Status.validate s in
  let rm := required metadata in
  match rs, rm with
  | Ok s, Ok m => Ok (mk s m dataset code)
  | _, _ => Raise (ValidationError (field_errors rs ++ field_errors rm))
  end.

Definition error_metadata (r : t) : option AnalysisError.t :=
  RunDatabaseAnalysisResultMetadata.exception (metadata r).

End RunDatabaseAnalysisResult.

Module RunChartsResult.

Record t := mk {
  status : Status.t;
  fig1_json : option str;
  fig2_json : option str;
  code : option str;
  metadata : RunAnalysisResultMetadata.t
}.

Definition construct (status : option str)
           (fig1_json fig2_json code : option str)
           (metadata : option RunAnalysisResultMetadata.t) : result t :=
  let rs := s <- required status ;; Status.validate s in
  let rm := required metadata in
  match rs, rm with
  | Ok s, Ok m => Ok (mk s fig1_json fig2_json code m)
  | _, _ => Raise (ValidationError (field_errors rs ++ field_errors rm))
  end.

Definition error_metadata (r : t) : option AnalysisError.t :=
  RunAnalysisResultMetadata.exception (metadata r).

End RunChartsResult.

Module GetBusinessAnalysisMetadata.

(** Every field is optional. *)
Record t := mk {
  duration : option float;
  question : option str;
  rows_analyzed : option Z;
  columns_analyzed : option Z;
  exception_str : option str
}.

Definition construct (duration : option float) (question : option str)
           (rows_analyzed columns_analyzed : option Z)
           (exception_str : option str) : result t :=
  Ok (mk duration question rows_analyzed columns_analyzed exception_str).

End GetBusinessAnalysisMetadata.

Module GetBusinessAnalysisResult.

Record t := mk {
  status : Status.t;
  bottom_line : str;
  additional_insights : str;
  follow_up_questions : list str;
  metadata : option GetBusinessAnalysisMetadata.t
}.

Definition construct (status bottom_line additional_insights : option str)
           (follow_up_questions : option (list str))
           (metadata : option GetBusinessAnalysisMetadata.t) : result t :=
  let rs := s <- required status ;; Status.validate s in
  let rb := required bottom_line in
  let ra := required additional_insights in
  let rf := required follow_up_questions in
  match rs, rb, ra, rf with
  | Ok s, Ok b, Ok a, Ok f => Ok (mk s b a f metadata)
  | _, _, _, _ =>
      Raise (ValidationError (field_errors rs ++ field_errors rb
                              ++ field_errors ra ++ field_errors rf))
  end.

(** The error metadata: the [exception_str] of the metadata, if any. *)
Definition error_metadata (r : t) : option str :=
  match metadata r with
  | Some m => GetBusinessAnalysisMetadata.exception_str m
  | None => None
  end.

End GetBusinessAnalysisResult.

(** ** Requests *)

Module RunAnalysisRequest.

Record t := mk {
  datasets : list AnalystDataset.t;
  dictionaries : list DataDictionary.t;
  question : str
}.

Definition construct (datasets : option (list AnalystDataset.t))
           (dictionaries : option (list DataDictionary.t))
           (question : option str) : result t :=
  let r1 := required datasets in
  let r2 := required dictionaries in
  let r3 := required question in
  match r1, r2, r3 with
  | Ok d, Ok c, Ok q => Ok (mk d c q)
  | _, _, _ =>
      Raise (ValidationError (field_errors r1 ++ field_errors r2
                              ++ field_errors r3))
  end.

End RunAnalysisRequest.

Module RunChartsRequest.

Record t := mk { dataset : AnalystDataset.t; question : str }.

Definition construct (dataset : option AnalystDataset.t)
           (question : option str) : result t :=
  let r1 := required dataset in
  let r2 := required question in
  match r1, r2 with
  | Ok d, Ok q => Ok (mk d q)
  | _, _ => Raise (ValidationError (field_errors r1 ++ field_errors r2))
  end.

End RunChartsRequest.

(** [Field(min_length=...)] on a [str]. *)
Definition min_length (n : Z) (v : str) : result str :=
  if (len v <? n)%Z
  then Raise (ValueError "String should have at least 1 character")
  else Ok v.

Module RunDatabaseAnalysisRequest.

Record t := mk {
  datasets : list AnalystDataset.t;
  dictionaries : list DataDictionary.t;
  question : str
}.

(** [question: str = Field(min_length=1)] *)
Definition construct (datasets : option (list AnalystDataset.t))
           (dictionaries : option (list DataDictionary.t))
           (question : option str) : result t :=
  let r1 := required datasets in
  let r2 := required dictionaries in
  let r3 := q <- required question ;; min_length 1 q in
  match r1, r2, r3 with
  | Ok d, Ok c, Ok q => Ok (mk d c q)
  | _, _, _ =>
      Raise (ValidationError (field_errors r1 ++ field_errors r2
                              ++ field_errors r3))
  end.

End RunDatabaseAnalysisRequest.

Module EnhancedQuestionGeneration.
Record t := mk { enhanced_user_message : str }.
End EnhancedQuestionGeneration.

Module CodeGeneration.
Record t := mk { code : str; description : str }.
End CodeGeneration.

(** ** Chat messages *)

Module AnalystChatMessage.

(** The union of the [components] field. *)
Inductive component :=
| Analysis (r : RunAnalysisResult.t)
| Charts (r : RunChartsResult.t)
| Business (r : GetBusinessAnalysisResult.t)
| Enhanced (r : EnhancedQuestionGeneration.t)
| Database (r : RunDatabaseAnalysisResult.t).

Record t := mk {
  role : str;
  content : str;
  components : list component
}.

(** [UserRoleType = Literal["assistant", "user", "system"]] *)
Definition validate_role (v : str) : result str :=
  if str_eqb v (py "assistant") || str_eqb v (py "user")
     || str_eqb v (py "system")
  then Ok v
  else Raise (ValueError "Input should be 'assistant', 'user' or 'system'").

Definition construct (role content : option str)
           (components : option (list component)) : result t :=
  let r1 := r <- required role ;; validate_role r in
  let r2 := required content in
  let r3 := required components in
  match r1, r2, r3 with
  | Ok r, Ok c, Ok k => Ok (mk r c k)
  | _, _, _ =>
      Raise (ValidationError (field_errors r1 ++ field_errors r2
                              ++ field_errors r3))
  end.

(** A [ChatCompletion...MessageParam] is a typed dict: calling it with
    keywords makes the dict of these keywords. *)
Definition message_param (role content : str) : dict str str :=
  [(py "role", role); (py "content", content)].

(** Without a matching branch the method returns [None]. *)
Definition to_openai_message_param (self : t) : option (dict str str) :=
  if str_eqb (role self) (py "user")
  then Some (message_param (role self) (content self))
  else if str_eqb (role self) (py "assistant")
  then Some (message_param (role self) (content self))
  else if str_eqb (role self) (py "system")
  then Some (message_param (role self) (content self))
  else None.

End AnalystChatMessage.

(** ** The reflective execution engine *)

(** Modelled from the spec: the engine lives in [utils/code_execution.py],
    which is not among the sources.  What follows is the state machine of
    the spec's section 4.3, [Generating -> Executing -> {Success,
    Reflecting} -> Generating ... -> Exhausted], over the two capabilities
    of its section 6.  A capability is a function of the attempt number and
    of its input, so that it may answer differently from one attempt to the
    next. *)
Module engine.

Import code_execution.

(** What the sandbox reports when the code raises. *)
Record ExecutionError := mkExecutionError {
  error_message : str;
  error_stdout : option str;
  error_stderr : option str;
  error_traceback : option str
}.

Inductive state :=
| Generating (attempt : nat) (history : list InvalidGeneratedCode)
| Executing (attempt : nat) (history : list InvalidGeneratedCode) (code : str)
| Reflecting (attempt : nat) (history : list InvalidGeneratedCode)
             (failure : InvalidGeneratedCode)
| Success (attempt : nat) (artifact : AnalystDataset.t) (code : str)
| Exhausted (attempt : nat) (history : list InvalidGeneratedCode).

(** A call of a capability. *)
Inductive event :=
| Generate (attempt : nat) (prompt : str)
| Execute (attempt : nat) (code : str).

Definition is_generate (e : event) : bool :=
  match e with Generate _ _ => true | Execute _ _ => false end.

Section Engine.

Variable request : RunAnalysisRequest.t.

(** The attempt bound. *)
Variable N : nat.

(** The prompt, from the request and the failure to reflect on. *)
Variable build_prompt :
  RunAnalysisRequest.t -> option InvalidGeneratedCode -> str.

(** [generate(prompt)], failing on a transport failure. *)
Variable generate : nat -> str -> result CodeGeneration.t.

(** [execute(code, bindings)]; the bindings are the request's
    datasets. *)
Variable execute :
  nat -> str -> list AnalystDataset.t -> AnalystDataset.t + ExecutionError.

(** The wall-clock time from the first generation request to the
    terminal state, as measured. *)
Variable elapsed : float.

(** The most recent failure. *)
Definition latest (history : list InvalidGeneratedCode)
  : option InvalidGeneratedCode :=
  match rev history with
  | e :: _ => Some e
  | [] => None
  end.

(** Step 2: the latest failure is in the prompt from the second attempt
    on. *)
Definition prompt_for (attempt : nat) (history : list InvalidGeneratedCode)
  : str :=
  build_prompt request (if (1 <? attempt)%nat then latest history else None).

Definition generation_failure (e : exn) : InvalidGeneratedCode :=
  mkInvalid (mkException (py "GenerationError")) None None None None.

Definition malformed_generation (g : CodeGeneration.t)
  : InvalidGeneratedCode :=
  mkInvalid (mkException (py "empty code")) None
            (Some (CodeGeneration.code g)) None None.

Definition execution_failure (code : str) (e : ExecutionError)
  : InvalidGeneratedCode :=
  mkInvalid (mkException (error_message e)) (error_traceback e)
            (Some code) (error_stdout e) (error_stderr e).

(** One transition, with the capability it called.  Terminal states
    have none. *)
Definition step (st : state) : option (state * list event) :=
  match st with
  | Generating attempt history =>
      let p := prompt_for attempt history in
      Some (match generate attempt p with
            | Raise e => Reflecting attempt history (generation_failure e)
            | Ok g =>
                match CodeGeneration.code g with
                | [] => Reflecting attempt history (malformed_generation g)
                | c => Executing attempt history c
                end
            end, [Generate attempt p])
  | Executing attempt history c =>
      Some (match execute attempt c (RunAnalysisRequest.datasets request) with
            | inl artifact => Success attempt artifact c
            | inr e => Reflecting attempt history (execution_failure c e)
            end, [Execute attempt c])
  | Reflecting attempt history failure =>
      let history' := history ++ [failure] in
      Some (if (attempt =? N)%nat then Exhausted attempt history'
            else Generating (S attempt) history', [])
  | Success _ _ _ => None
  | Exhausted _ _ => None
  end.

(** The machine run from [st]; [None] when the fuel ends before a
    terminal state. *)
Fixpoint run (fuel : nat) (st : state) (log : list event)
  : option (state * list event) :=
  match step st with
  | None => Some (st, log)
  | Some (st', evs) =>
      match fuel with
      | O => None
      | S fuel' => run fuel' st' (log ++ evs)
      end
  end.

(** The result a terminal state is returned as. *)
Definition result_of (st : state) : result RunAnalysisResult.t :=
  match st with
  | Success attempt artifact c =>
      m <- RunAnalysisResultMetadata.construct
             (Some elapsed) (Some (Z.of_nat attempt))
             (Some (len (RunAnalysisRequest.datasets request)))
             None None None ;;
      RunAnalysisResult.construct (Some (py "success")) (Some m)
                                  (Some artifact) (Some c)
  | Exhausted attempt history =>
      m <- RunAnalysisResultMetadata.construct
             (Some elapsed) (Some (Z.of_nat attempt))
             (Some (len (RunAnalysisRequest.datasets request)))
             None None
             (Some (AnalysisError.from_max_reflection_exception
                      (mkMax (Some (List.map Some history))))) ;;
      RunAnalysisResult.construct (Some (py "error")) (Some m) None None
  | _ => Raise (ValueError "not a terminal state")
  end.

(** Step 1 and the loop: attempt 1, empty history. *)
Definition run_analysis (fuel : nat)
  : option (result RunAnalysisResult.t * list event) :=
  match run fuel (Generating 1 []) [] with
  | Some (st, log) => Some (result_of st, log)
  | None => None
  end.

(** The failure attempt [attempt] ends in, if it fails, after
    [history]. *)
Definition failure_of (attempt : nat) (history : list InvalidGeneratedCode)
  : option InvalidGeneratedCode :=
  match generate attempt (prompt_for attempt history) with
  | Raise e => Some (generation_failure e)
  | Ok g =>
      match CodeGeneration.code g with
      | [] => Some (malformed_generation g)
      | c =>
          match execute attempt c (RunAnalysisRequest.datasets request) with
          | inl _ => None
          | inr e => Some (execution_failure c e)
          end
      end
  end.

(** The failures of attempts [1 .. k], oldest first, as long as each
    fails. *)
Fixpoint failures (k : nat) : list InvalidGeneratedCode :=
  match k with
  | O => []
  | S k' =>
      let h := failures k' in
      match failure_of k h with
      | Some f => h ++ [f]
      | None => h
      end
  end.

End Engine.

End engine.


(** ** Cleansed datasets *)

Module CleansedColumnReport.

Record t := mk {
  new_column_name : str;
  original_column_name : option str;
  errors : list str;
  warnings : list str;
  original_dtype : option str;
  new_dtype : option str;
  conversion_type : option str
}.

End CleansedColumnReport.

Module CleansedDataset.

Record t := mk {
  dataset : AnalystDataset.t;
  cleaning_report : list CleansedColumnReport.t
}.

Definition name (self : t) : str := AnalystDataset.name (dataset self).

Definition to_df (self : t) : pd.DataFrame := AnalystDataset.to_df (dataset self).

End CleansedDataset.

(** ** The page [frontend/Connect & Explore.py]

    The page keeps its data in [st.session_state] and changes it in its
    callbacks.  A callback is a function from the state to the new state
    and the notifications it shows; what it awaits is called in place.  The
    collaborators of [utils/api.py], which is not among the sources, and
    [process_uploaded_file], which reads files with pandas, are the
    variables of the section. *)
Module page.

(** Modelled from the spec: [app_settings.DataSource] is not among the
    sources; these are the members the page names. *)
Inductive DataSource := FILE | CATALOG | DATABASE.

(** The entries of [st.session_state] the callbacks below read or write. *)
Record SessionState := mkState {
  datasets : list AnalystDataset.t;
  cleansed_data : list CleansedDataset.t;
  data_dictionaries : list DataDictionary.t;
  data_source : option DataSource;
  processed_file_ids : list str
}.

(** What [UploadedFile] gives the callbacks. *)
Record UploadedFile := mkFile { file_id : str; file_name : str }.

(** The calls of [st.success], [st.error], [st.warning] and [st.toast], by
    what they report. *)
Inductive notification :=
| Success (name : str) (rows columns : nat)
| Error (e : exn)
| Warning
| Toast.

(** [name not in names] *)
Definition not_in (name : str) (names : list str) : bool :=
  negb (existsb (str_eqb name) names).

(** [data_source != DataSource.DATABASE] *)
Definition not_database (source : option DataSource) : bool :=
  match source with Some DATABASE => false | _ => true end.

(** [next(c.cleaning_report for c in cleansed_data if c.name == name)];
    [None] when the generator is exhausted. *)
Fixpoint find_cleaning_report (cleansed_data : list CleansedDataset.t)
         (name : str) : option (list CleansedColumnReport.t) :=
  match cleansed_data with
  | [] => None
  | c :: rest =>
      if str_eqb (CleansedDataset.name c) name
      then Some (CleansedDataset.cleaning_report c)
      else find_cleaning_report rest name
  end.

Section Callbacks.

(** [utils.api.cleanse_dataframes] *)
Variable cleanse_dataframes :
  list AnalystDataset.t -> result (list CleansedDataset.t).

(** [utils.api.get_dictionaries] *)
Variable get_dictionaries :
  list AnalystDataset.t -> result (list DataDictionary.t).

(** [process_uploaded_file]: the datasets of a file, none when reading it
    fails. *)
Variable process_uploaded_file : UploadedFile -> list AnalystDataset.t.

Definition process_data_and_update_state (st : SessionState)
           (new : list AnalystDataset.t) : SessionState * list notification :=
  let new_dataset_names := List.map AnalystDataset.name new in
  let datasets0 :=
    filter (fun ds => not_in (AnalystDataset.name ds) new_dataset_names)
           (datasets st) in
  let cleansed0 :=
    filter (fun ds => not_in (CleansedDataset.name ds) new_dataset_names)
           (cleansed_data st) in
  let shown :=
    List.map (fun ds => Success (AnalystDataset.name ds)
                                (pd.index (AnalystDataset.to_df ds))
                                (List.length (AnalystDataset.columns ds)))
             new in
  let cleansing :=
    if not_database (data_source st)
    then match cleanse_dataframes new with
         | Ok cleansed =>
             (cleansed0 ++ cleansed,
              List.map CleansedDataset.dataset cleansed, [])
         | Raise e => (cleansed0, new, [Error e])
         end
    else (cleansed0, new, []) in
  let cleansed1 := fst (fst cleansing) in
  let analysis_datasets := snd (fst cleansing) in
  let generation :=
    match get_dictionaries analysis_datasets with
    | Ok new_dictionaries =>
        (data_dictionaries st
         ++ filter (fun d => not_in (DataDictionary.name d)
                                    (List.map DataDictionary.name
                                              (data_dictionaries st)))
                   new_dictionaries,
         new_dictionaries, [])
    | Raise _ => (data_dictionaries st, [], [Warning])
    end in
  (mkState (datasets0 ++ analysis_datasets) cleansed1 (fst (fst generation))
           (data_source st) (processed_file_ids st),
   shown ++ snd cleansing ++ snd generation
   ++ (match snd (fst generation) with [] => [] | _ :: _ => [Toast] end)).

(** One turn of the loop of [uploaded_file_callback]. *)
Definition upload_one (acc : SessionState * list notification)
           (file : UploadedFile) : SessionState * list notification :=
  let st := fst acc in
  if existsb (str_eqb (file_id file)) (processed_file_ids st)
  then acc
  else
    let r := process_data_and_update_state st (process_uploaded_file file) in
    (mkState (datasets (fst r)) (cleansed_data (fst r))
             (data_dictionaries (fst r)) (data_source (fst r))
             (processed_file_ids (fst r) ++ [file_id file]),
     snd acc ++ snd r).

Definition uploaded_file_callback (st : SessionState)
           (uploaded_files : list UploadedFile)
  : SessionState * list notification :=
  fold_left upload_one uploaded_files
            (mkState (datasets st) (cleansed_data st) (data_dictionaries st)
                     (Some FILE) (processed_file_ids st), []).

End Callbacks.

End page.

(** * The vocabulary of the statements *)

(** ** The generated dictionary *)

(** What the two validators accept, in the words of the docstrings. *)
Definition accepted (cols descs : list str) : Prop :=
  cols <> [] /\ NoDup cols /\ Forall (fun c => c <> []) cols
  /\ List.length descs = List.length cols
  /\ Forall (fun d => d <> [] /\ (10 <= len (strip d))%Z) descs.

(** ** Values and columns *)

Definition is_none (v : scalar) : bool :=
  match v with SNone => true | _ => false end.

Definition is_int (v : scalar) : bool :=
  match v with SInt _ => true | _ => false end.

Definition is_float (v : scalar) : bool :=
  match v with SFloat _ => true | _ => false end.

(** A column pandas stores without changing a value: no NaN in it, no
    [None] beside a number, no int beside a float. *)
Definition stable (vals : list scalar) : bool :=
  negb (existsb is_nan vals)
  && negb (existsb is_none vals && (existsb is_int vals || existsb is_float vals))
  && negb (existsb is_int vals && existsb is_float vals).

(** An [int] of a cell fits in 64 bits, signed or unsigned: the ints a
    frame stores as numbers.  (pandas casts every int of a column to a C
    double while it scans the column; an int beyond the range of a double
    makes the scan raise.) *)
Definition int_fits (v : scalar) : bool :=
  match v with
  | SInt z => ((pd.INT64_MIN <=? z) && (z <=? pd.UINT64_MAX))%Z
  | _ => true
  end.

(** A record as a Python dict has it, no key twice, with ints that fit. *)
Definition well_formed (d : record) : Prop :=
  NoDup (keys d) /\ Forall (fun kv => int_fits (snd kv) = true) d.

(** The cast of the scan succeeds on the value: it is no int, or an int
    within the range of a double. *)
Definition castable (v : scalar) : bool :=
  match v with
  | SInt z => pd.fits_double z
  | _ => true
  end.

(** A record all of whose ints can be cast. *)
Definition ints_cast (d : record) : Prop :=
  Forall (fun kv => castable (snd kv) = true) d.

(** The flags at the end of the scan of a column, when no cast fails. *)
Fixpoint scan (s : pd.Seen) (vals : list scalar) : pd.Seen :=
  match vals with
  | [] => s
  | v :: vals' =>
      let s' := pd.saw s v in
      if pd.object_ s' then s' else scan s' vals'
  end.

(** The array made of a column, when no cast fails. *)
Definition series_of (vals : list scalar) : pd.Series :=
  pd.converted (scan pd.seen0 vals) vals.

(** The frame made of arrays, when no cast fails. *)
Definition frame_with (cols : list pd.label) (arrays : list (list scalar))
           (n : nat) : pd.DataFrame :=
  pd.mkDataFrame cols (List.map series_of arrays)
                 (match arrays with [] => 0 | _ => n end).

(** ** Lists of records and their frames *)




(** The columns of a list of dicts. *)
Definition columns_of (r : list record) : list str := pd.unique_keys [] r.

(** The frame of a list of dicts: one array per key, one slot per record. *)
Definition frame_of (r : list record) : pd.DataFrame :=
  frame_with (List.map pd.LStr (columns_of r))
               (List.map (fun c => List.map (fun d => pd.cell d c) r)
                         (columns_of r))
               (List.length r).

(** The arrays of a list of dicts, one per column. *)
Definition arrays_of (r : list record) : list (list scalar) :=
  List.map (fun c => List.map (fun d => pd.cell d c) r) (columns_of r).

(** The conversion of every array went through: in each, no int that the
    scan reaches is too large for a double. *)
Definition all_converted (arrays : list (list scalar)) : Prop :=
  Forall (fun a => pd.maybe_convert_objects a = Ok (series_of a)) arrays.

(** A record read along the columns [ks]. *)
Definition project (ks : list str) (d : record) : record :=
  List.map (fun c => (c, pd.cell d c)) ks.

(** ** Values the examples are made of *)

(** An entry of a failure history that is there: not [None]. *)
Definition recorded (o : option code_execution.InvalidGeneratedCode) : bool :=
  match o with Some _ => true | None => false end.


Definition no_column : DataDictionaryColumn.t :=
  DataDictionaryColumn.mk [] [] [].

Definition twice : list DataDictionaryColumn.t :=
  [DataDictionaryColumn.mk (py "int64") (py "amount") (py "units sold");
   DataDictionaryColumn.mk (py "float64") (py "amount") (py "price paid")].

(** A request, a generator that always answers the same code, and a
    sandbox that always raises [KeyError]. *)
Definition monthly_totals : RunAnalysisRequest.t :=
  RunAnalysisRequest.mk [] [] (py "total amount by month").

Definition same_code (attempt : nat) (prompt : str) : result CodeGeneration.t :=
  Ok (CodeGeneration.mk (py "df.groupby('month').total") (py "sum by month")).

Definition key_error (attempt : nat) (code : str)
           (bindings : list AnalystDataset.t)
  : AnalystDataset.t + engine.ExecutionError :=
  inr (engine.mkExecutionError (py "KeyError: 'month'") None None None).

(** The snapshot of that failure of that code. *)
Definition month_is_missing : CodeExecutionError.t :=
  CodeExecutionError.mk (Some (py "df.groupby('month').total"))
                        (Some (py "KeyError: 'month'")) None None None.


(** ** What a frame stores and gives back *)

(** The values the frame of [r] holds in column [c]. *)
Definition stored (r : list record) (c : str) : list scalar :=
  pd.values (series_of (List.map (fun d => pd.cell d c) r)).

(** The records of the frame of [r]: one per row, each over the columns. *)
Definition rows_of (r : list record) : list record :=
  List.map (fun i => List.map (fun c => (c, nth i (stored r c) SNone))
                              (columns_of r))
           (seq 0 (pd.index (frame_of r))).

(** A value that leaves a column numeric: neither a [str] nor a [bool]. *)
Definition numeric_like (v : scalar) : bool :=
  match v with SStr _ | SBool _ => false | _ => true end.

(** The dataset of a list of mappings, as [construct] builds it. *)
Definition dataset_of (name : str) (r : list record) : AnalystDataset.t :=
  AnalystDataset.mk name (DataFrameWrapper.mk (frame_of r)).

(** ** The page *)

(** The cleanser keeps the names: dataset by dataset, the cleansed dataset
    is called as the dataset it was made from. *)
Definition keeps_names
           (cleanse : list AnalystDataset.t -> result (list CleansedDataset.t))
  : Prop :=
  forall l c, cleanse l = Ok c ->
              List.map CleansedDataset.name c = List.map AnalystDataset.name l.

(** ** Examples

    A cleanser that changes nothing and reports nothing, a dictionary
    service that fails, and a session in which a file [sales] of one row
    has been loaded, whose column was cleaned as a number. *)

Definition keep_as_it_is (l : list AnalystDataset.t)
  : result (list CleansedDataset.t) :=
  Ok (List.map (fun d => CleansedDataset.mk d []) l).

Definition no_dictionary (l : list AnalystDataset.t)
  : result (list DataDictionary.t) :=
  Raise (ValueError "no dictionary").

Definition one_sale : AnalystDataset.t :=
  dataset_of (py "sales") [[(py "amount", SInt 3)]].

Definition two_sales : AnalystDataset.t :=
  dataset_of (py "sales") [[(py "amount", SInt 3)]; [(py "amount", SInt 4)]].

Definition amount_was_text : CleansedColumnReport.t :=
  CleansedColumnReport.mk (py "amount") (Some (py "amount")) [] []
                          (Some (py "object")) (Some (py "float64"))
                          (Some (py "simple_clean")).

Definition loaded_once : page.SessionState :=
  page.mkState [one_sale] [CleansedDataset.mk one_sale [amount_was_text]]
               [] None [].

(** The same session when the data come from the database. *)
Definition loaded_from_database : page.SessionState :=
  page.mkState [one_sale] [CleansedDataset.mk one_sale [amount_was_text]]
               [] (Some page.DATABASE) [].

(** * Properties *)

Unset Implicit Arguments.

(** ** Tactics and facts shared by the proofs *)

Ltac inv H := inversion H; subst; clear H.

Lemma str_eqb_eq (a b : str) : str_eqb a b = true <-> a = b.
Proof.
  unfold str_eqb. destruct (str_eq_dec a b); split; congruence.
Qed.

Lemma str_eqb_refl (a : str) : str_eqb a a = true.
Proof. now apply str_eqb_eq. Qed.

(** ** [DictionaryGeneration] *)

Section DictionaryGenerationFacts.

Import DictionaryGeneration.

Lemma nodup_length_le (v : list str) :
  List.length (nodup str_eq_dec v) <= List.length v.
Proof.
  induction v as [|c v IH]; simpl; [lia|].
  destruct (in_dec str_eq_dec c v); simpl; lia.
Qed.

(** [len(v) == len(set(v))] says that no name comes twice. *)
Lemma set_size_NoDup (v : list str) :
  List.length v = set_size v <-> NoDup v.
Proof.
  unfold set_size. split.
  - induction v as [|c v IH]; simpl; intros H; [constructor|].
    destruct (in_dec str_eq_dec c v) as [Hin|Hin].
    + pose proof (nodup_length_le v). lia.
    + simpl in H. constructor; [assumption|]. apply IH. lia.
  - intros H. now rewrite (nodup_fixed_point str_eq_dec H).
Qed.

Lemma each_column_ok (v : list str) :
  each_column v = Ok tt <-> Forall (fun c => c <> []) v.
Proof.
  induction v as [|c v IH]; simpl.
  - split; [constructor | reflexivity].
  - destruct c as [|x c].
    + split; [discriminate|]. intros H. inv H. congruence.
    + rewrite IH. split; intros H.
      * constructor; [discriminate | assumption].
      * now inv H.
Qed.

Lemma each_description_ok (v : list str) :
  each_description v = Ok tt
  <-> Forall (fun d => d <> [] /\ (10 <= len (strip d))%Z) v.
Proof.
  induction v as [|d v IH]; simpl.
  - split; [constructor | reflexivity].
  - destruct d as [|x d].
    + split; [discriminate|]. intros H. inv H. tauto.
    + destruct (len (strip (x :: d)) <? 10)%Z eqn:E.
      * split; [discriminate|]. intros H. inv H.
        apply Z.ltb_lt in E. lia.
      * apply Z.ltb_ge in E. rewrite IH. split; intros H.
        -- constructor; [split; [discriminate | assumption] | assumption].
        -- now inv H.
Qed.

Lemma validate_columns_ok (v : list str) :
  validate_columns v = Ok v
  <-> v <> [] /\ NoDup v /\ Forall (fun c => c <> []) v.
Proof.
  unfold validate_columns. destruct v as [|c v].
  - split; [discriminate | tauto].
  - destruct (List.length (c :: v) =? set_size (c :: v))%nat eqn:E; simpl negb;
      cbv iota.
    + apply Nat.eqb_eq in E. apply set_size_NoDup in E.
      rewrite <- each_column_ok.
      destruct (each_column (c :: v)) as [[]|e] eqn:Ec; simpl bind.
      * split; [intros _; repeat split; [discriminate | assumption] | reflexivity].
      * split; [discriminate | intros (_ & _ & H); discriminate].
    + apply Nat.eqb_neq in E. split; [discriminate|].
      intros (_ & H & _). apply set_size_NoDup in H. contradiction.
Qed.

Lemma each_column_cases (v : list str) :
  each_column v = Ok tt \/ exists m, each_column v = Raise (ValueError m).
Proof.
  induction v as [|x v IH]; simpl; [now left|].
  destruct x; [right; eauto | exact IH].
Qed.

Lemma validate_columns_cases (v : list str) :
  validate_columns v = Ok v \/ exists m, validate_columns v = Raise (ValueError m).
Proof.
  unfold validate_columns. destruct v as [|c v]; [right; eauto|].
  destruct (negb _); [right; eauto|].
  destruct (each_column_cases (c :: v)) as [E | [m E]]; rewrite E; simpl;
    [now left | right; eauto].
Qed.

(** The constructor returns a value exactly on the accepted inputs, and the
    value holds the two lists unchanged. *)
Lemma construct_ok_iff (cols descs : list str) (g : t) :
  construct (Some cols) (Some descs) = Ok g
  <-> accepted cols descs /\ g = mk cols descs.
Proof.
  unfold construct, accepted, required, bind.
  destruct (validate_columns_cases cols) as [Hc | [m Hc]]; rewrite Hc.
  - apply validate_columns_ok in Hc. destruct Hc as (H1 & H2 & H3).
    simpl. unfold validate_descriptions.
    destruct (List.length descs =? List.length cols)%nat eqn:E; simpl negb;
      cbv iota.
    + apply Nat.eqb_eq in E.
      destruct (each_description descs) as [[]|e] eqn:Ed; simpl.
      * apply each_description_ok in Ed. split.
        -- intros H. inv H. tauto.
        -- intros (_ & ->). reflexivity.
      * assert (Hn : ~ Forall (fun d => d <> [] /\ (10 <= len (strip d))%Z) descs).
        { rewrite <- each_description_ok. congruence. }
        split; [destruct e; discriminate | tauto].
    + apply Nat.eqb_neq in E. split; [discriminate | tauto].
  - assert (Hn : ~ (cols <> [] /\ NoDup cols /\ Forall (fun c => c <> []) cols)).
    { rewrite <- validate_columns_ok. congruence. }
    simpl. split; [discriminate | tauto].
Qed.

(** Outside the accepted inputs the constructor raises. *)
Lemma construct_rejects (cols descs : list str) :
  ~ accepted cols descs ->
  exists e, construct (Some cols) (Some descs) = Raise e.
Proof.
  intros Hn. destruct (construct (Some cols) (Some descs)) as [g|e] eqn:E.
  - apply construct_ok_iff in E. tauto.
  - eauto.
Qed.

(** With valid columns and another number of descriptions, what leaves the
    constructor is the [TypeError] of the message, not a validation
    error. *)
Lemma length_mismatch_raises_TypeError (cols descs : list str) :
  validate_columns cols = Ok cols ->
  List.length descs <> List.length cols ->
  construct (Some cols) (Some descs)
  = Raise (TypeError "'pydantic_core._pydantic_core.ValidationInfo' object is not subscriptable").
Proof.
  intros Hc Hl. unfold construct, required, bind.
  rewrite Hc. unfold validate_descriptions.
  apply Nat.eqb_neq in Hl. rewrite Hl. reflexivity.
Qed.

End DictionaryGenerationFacts.

(** C3.  [DictionaryGeneration(columns=["region"], descriptions=[d1, d2])]
    with two valid descriptions: the columns pass, the numbers differ, and
    building the message of the intended [ValueError] raises [TypeError];
    the construction does not end in a validation error, although the
    docstring of the class promises [ValueError] when validation fails. *)
Theorem C3_length_mismatch_is_not_a_validation_error :
  DictionaryGeneration.validate_columns [py "region"] = Ok [py "region"]
  /\ DictionaryGeneration.construct
       (Some [py "region"])
       (Some [py "the sales region"; py "a second description"])
     = Raise (TypeError "'pydantic_core._pydantic_core.ValidationInfo' object is not subscriptable")
  /\ (forall errors,
         DictionaryGeneration.construct
           (Some [py "region"])
           (Some [py "the sales region"; py "a second description"])
         <> Raise (ValidationError errors)).
Proof.
  split; [reflexivity|].
  assert (E : DictionaryGeneration.construct
                (Some [py "region"])
                (Some [py "the sales region"; py "a second description"])
              = Raise (TypeError "'pydantic_core._pydantic_core.ValidationInfo' object is not subscriptable")).
  { apply length_mismatch_raises_TypeError; [reflexivity | simpl; lia]. }
  split; [exact E|]. intros errors. rewrite E. discriminate.
Qed.

(** ** Results: status and metadata *)

Lemma Status_validate_to_str (s : Status.t) :
  Status.validate (Status.to_str s) = Ok s.
Proof. destruct s; reflexivity. Qed.

Lemma Status_validate_inv (v : str) (s : Status.t) :
  Status.validate v = Ok s -> v = Status.to_str s.
Proof.
  unfold Status.validate.
  destruct (str_eqb v (py "success")) eqn:E1.
  - intros H. inv H. now apply str_eqb_eq.
  - destruct (str_eqb v (py "error")) eqn:E2; [|discriminate].
    intros H. inv H. now apply str_eqb_eq.
Qed.



(** C8, as stated, fails: a result is built from metadata without any of
    the counts, and a business analysis result without metadata at all. *)
Lemma C8_result_without_counts :
  exists m r b,
    RunAnalysisResultMetadata.construct
      (Some (float_of_int 1)) (Some 1%Z) None None None None
    = Ok m
    /\ RunAnalysisResult.construct (Some (py "success")) (Some m) None None
       = Ok r
    /\ RunAnalysisResultMetadata.datasets_analyzed
         (RunAnalysisResult.metadata r) = None
    /\ RunAnalysisResultMetadata.total_rows_analyzed
         (RunAnalysisResult.metadata r) = None
    /\ RunAnalysisResultMetadata.total_columns_analyzed
         (RunAnalysisResult.metadata r) = None
    /\ GetBusinessAnalysisResult.construct
         (Some (py "success")) (Some (py "up")) (Some (py "none")) (Some [])
         None
       = Ok b
    /\ GetBusinessAnalysisResult.metadata b = None.
Proof.
  do 3 eexists. repeat split; reflexivity.
Qed.

Lemma required_ok {A} (arg : option A) (a : A) :
  required arg = Ok a <-> arg = Some a.
Proof.
  destruct arg; simpl; split; intros H; inv H; reflexivity.
Qed.

(** C8, amended.  The metadata of an analysis, database or chart result is
    built exactly when [duration] and [attempts] are given, and these
    results are built only with metadata; the counts and the exception are
    stored as given, absent included.  A business analysis result is built
    without metadata as well, and every field of its metadata is optional:
    [GetBusinessAnalysisMetadata] is built from any of its fields, given or
    not, from none of them too, and holds them as given. *)
Theorem C8_duration_and_attempts_are_required
        (duration : option float) (attempts n rows cols : option Z)
        (exception : option AnalysisError.t)
        (status code fig1 fig2 : option str)
        (dataset : option AnalystDataset.t) :
  (forall m,
      RunAnalysisResultMetadata.construct duration attempts n rows cols exception
      = Ok m
      <-> duration = Some (RunAnalysisResultMetadata.duration m)
          /\ attempts = Some (RunAnalysisResultMetadata.attempts m)
          /\ m = RunAnalysisResultMetadata.mk
                   (RunAnalysisResultMetadata.duration m)
                   (RunAnalysisResultMetadata.attempts m) n rows cols exception)
  /\ (forall m,
         RunDatabaseAnalysisResultMetadata.construct duration attempts n cols
                                                     exception
         = Ok m
         <-> duration = Some (RunDatabaseAnalysisResultMetadata.duration m)
             /\ attempts = Some (RunDatabaseAnalysisResultMetadata.attempts m)
             /\ m = RunDatabaseAnalysisResultMetadata.mk
                      (RunDatabaseAnalysisResultMetadata.duration m)
                      (RunDatabaseAnalysisResultMetadata.attempts m) n cols
                      exception)
  /\ is_ok (RunAnalysisResult.construct status None dataset code) = false
  /\ is_ok (RunDatabaseAnalysisResult.construct status None dataset code) = false
  /\ is_ok (RunChartsResult.construct status fig1 fig2 code None) = false
  /\ (forall s b a q,
         GetBusinessAnalysisResult.construct
           (Some (Status.to_str s)) (Some b) (Some a) (Some q) None
         = Ok (GetBusinessAnalysisResult.mk s b a q None))
  /\ (forall d q r c e,
         exists m,
           GetBusinessAnalysisMetadata.construct d q r c e = Ok m
           /\ GetBusinessAnalysisMetadata.duration m = d
           /\ GetBusinessAnalysisMetadata.question m = q
           /\ GetBusinessAnalysisMetadata.rows_analyzed m = r
           /\ GetBusinessAnalysisMetadata.columns_analyzed m = c
           /\ GetBusinessAnalysisMetadata.exception_str m = e)
  /\ is_ok (GetBusinessAnalysisMetadata.construct None None None None None)
     = true.
Proof.
  split; [|split].
  - intros m. unfold RunAnalysisResultMetadata.construct.
    destruct duration as [d|], attempts as [a|]; simpl.
    + split.
      * intros H. inv H. auto.
      * intros (H1 & H2 & ->). inv H1. inv H2. reflexivity.
    + split; [discriminate | intros (_ & H & _); discriminate].
    + split; [discriminate | intros (H & _); discriminate].
    + split; [discriminate | intros (H & _); discriminate].
  - intros m. unfold RunDatabaseAnalysisResultMetadata.construct.
    destruct duration as [d|], attempts as [a|]; simpl.
    + split.
      * intros H. inv H. auto.
      * intros (H1 & H2 & ->). inv H1. inv H2. reflexivity.
    + split; [discriminate | intros (_ & H & _); discriminate].
    + split; [discriminate | intros (H & _); discriminate].
    + split; [discriminate | intros (H & _); discriminate].
  - unfold RunAnalysisResult.construct, RunDatabaseAnalysisResult.construct,
      RunChartsResult.construct, GetBusinessAnalysisResult.construct.
    simpl required. repeat split.
    + now destruct (_ <- required status ;; Status.validate _).
    + now destruct (_ <- required status ;; Status.validate _).
    + now destruct (_ <- required status ;; Status.validate _).
    + intros s b a q. unfold bind. now rewrite Status_validate_to_str.
    + intros d q r c e.
      destruct (GetBusinessAnalysisMetadata.construct d q r c e) as [m|x] eqn:E;
        unfold GetBusinessAnalysisMetadata.construct in E; inv E.
      eexists. repeat split.
Qed.

(** ** Requests *)

(** C7.  [RunAnalysisRequest(datasets=ds, dictionaries=dicts, question="")]
    and [RunChartsRequest(dataset=d, question="")] are built, with the empty
    question in them; of the three requests only
    [RunDatabaseAnalysisRequest], whose field is [Field(min_length=1)],
    refuses it. *)
Theorem C7_empty_question_is_accepted
        (ds : list AnalystDataset.t) (dicts : list DataDictionary.t)
        (d : AnalystDataset.t) :
  RunAnalysisRequest.construct (Some ds) (Some dicts) (Some (py ""))
  = Ok (RunAnalysisRequest.mk ds dicts [])
  /\ RunChartsRequest.construct (Some d) (Some (py ""))
     = Ok (RunChartsRequest.mk d [])
  /\ RunDatabaseAnalysisRequest.construct (Some ds) (Some dicts) (Some (py ""))
     = Raise (ValidationError ["String should have at least 1 character"%string]).
Proof.
  repeat split.
Qed.

(** The sibling: a database request is built exactly with a question of at
    least one character. *)
Lemma RunDatabaseAnalysisRequest_question_nonempty
      (ds : list AnalystDataset.t) (dicts : list DataDictionary.t)
      (q : str) (r : RunDatabaseAnalysisRequest.t) :
  RunDatabaseAnalysisRequest.construct (Some ds) (Some dicts) (Some q) = Ok r
  <-> q <> [] /\ r = RunDatabaseAnalysisRequest.mk ds dicts q.
Proof.
  unfold RunDatabaseAnalysisRequest.construct, min_length, len.
  simpl required. unfold bind. destruct q as [|c q]; simpl.
  - split; [discriminate | intros (H & _); congruence].
  - destruct (Z.pos (Pos.of_succ_nat (Datatypes.length q)) <? 1)%Z eqn:E.
    + apply Z.ltb_lt in E. lia.
    + split; [intros H; inv H; split; [discriminate | reflexivity]
             | intros (_ & ->); reflexivity].
Qed.

(** ** Chat messages *)

Lemma validate_role_inv (v r : str) :
  AnalystChatMessage.validate_role v = Ok r ->
  r = v /\ (v = py "assistant" \/ v = py "user" \/ v = py "system").
Proof.
  unfold AnalystChatMessage.validate_role.
  destruct (str_eqb v (py "assistant")) eqn:E1.
  { intros H. inv H. apply str_eqb_eq in E1. auto. }
  destruct (str_eqb v (py "user")) eqn:E2.
  { intros H. inv H. apply str_eqb_eq in E2. auto. }
  destruct (str_eqb v (py "system")) eqn:E3.
  { intros H. inv H. apply str_eqb_eq in E3. auto. }
  discriminate.
Qed.

(** C9.  For a message that was built, whatever its components,
    [to_openai_message_param] returns the dict of two keys, ["role"] and
    ["content"], with the role and the content of the message. *)
Theorem C9_transport_form_is_role_and_content
        (role content : str)
        (components : list AnalystChatMessage.component)
        (m : AnalystChatMessage.t) :
  AnalystChatMessage.construct (Some role) (Some content) (Some components)
  = Ok m ->
  AnalystChatMessage.role m = role
  /\ AnalystChatMessage.content m = content
  /\ AnalystChatMessage.components m = components
  /\ AnalystChatMessage.to_openai_message_param m
     = Some [(py "role", role); (py "content", content)].
Proof.
  unfold AnalystChatMessage.construct. simpl required. unfold bind.
  destruct (AnalystChatMessage.validate_role role) as [r|e] eqn:E;
    [|discriminate].
  apply validate_role_inv in E. destruct E as (-> & Hrole).
  intros H. inv H. simpl. repeat split.
  unfold AnalystChatMessage.to_openai_message_param,
    AnalystChatMessage.message_param. simpl.
  destruct Hrole as [-> | [-> | ->]]; reflexivity.
Qed.

Lemma C9_witness :
  AnalystChatMessage.to_openai_message_param
    (AnalystChatMessage.mk
       (py "assistant") (py "done")
       [AnalystChatMessage.Enhanced
          (EnhancedQuestionGeneration.mk (py "total amount by month"))])
  = Some [(py "role", py "assistant"); (py "content", py "done")].
Proof.
  refine (proj2 (proj2 (proj2
    (@C9_transport_form_is_role_and_content
       (py "assistant") (py "done")
       [AnalystChatMessage.Enhanced
          (EnhancedQuestionGeneration.mk (py "total amount by month"))]
       _ _)))).
  reflexivity.
Defined.

(** ** Frames *)

(** A column of strings stays as it is: its first value already makes it
    [object], and an empty column is [object] too. *)
Lemma maybe_convert_objects_strs {A} (f : A -> str) (l : list A) :
  series_of (List.map (fun c => SStr (f c)) l)
  = pd.mkSeries pd.object (List.map (fun c => SStr (f c)) l).
Proof.
  destruct l as [|s l]; reflexivity.
Qed.

Lemma traverse_map {A B} (f : A -> result B) (g : A -> B) (l : list A) :
  (forall a, In a l -> f a = Ok (g a)) ->
  traverse f l = Ok (List.map g l).
Proof.
  induction l as [|a l IH]; intros H; simpl; [reflexivity|].
  rewrite (H a) by now left. simpl.
  rewrite IH; [reflexivity|]. intros x Hx. apply H. now right.
Qed.

Lemma traverse_inv {A B} (f : A -> result B) (l : list A) (r : list B) :
  traverse f l = Ok r -> Forall2 (fun a b => f a = Ok b) l r.
Proof.
  revert r. induction l as [|a l IH]; simpl; intros r H.
  - inv H. constructor.
  - destruct (f a) as [b|e] eqn:E; simpl in H; [|discriminate].
    destruct (traverse f l) as [bs|e]; simpl in H; [|discriminate].
    inv H. constructor; auto.
Qed.

(** *** The scan, and the scan without its casts *)

Lemma int_fits_castable (v : scalar) : int_fits v = true -> castable v = true.
Proof.
  destruct v as [|b|z|f|x]; try reflexivity.
  unfold int_fits, castable, pd.fits_double.
  rewrite andb_true_iff, !Z.leb_le, Z.ltb_lt. intros [Hlo Hhi].
  assert (H64 : (2 ^ 64 < pd.DBL_LIMIT)%Z) by (vm_compute; reflexivity).
  unfold pd.INT64_MIN, pd.UINT64_MAX in *.
  assert (H63 : (2 ^ 63 < 2 ^ 64)%Z) by (vm_compute; reflexivity).
  apply Z.abs_lt. lia.
Qed.

Lemma see_castable (s : pd.Seen) (v : scalar) :
  castable v = true -> pd.see s v = Ok (pd.saw s v).
Proof.
  destruct v as [|b|z|f|x]; try reflexivity.
  unfold castable, pd.see. now intros ->.
Qed.

Lemma see_inv (s s' : pd.Seen) (v : scalar) :
  pd.see s v = Ok s' -> s' = pd.saw s v /\ castable v = true.
Proof.
  destruct v as [|b|z|f|x]; unfold pd.see, castable;
    try (intros H; inv H; now split).
  destruct (pd.fits_double z); intros H; inv H. now split.
Qed.

(** When the scan ends, its flags are those of the scan without casts. *)
Lemma see_all_scan (vals : list scalar) :
  forall s s', pd.see_all s vals = Ok s' -> s' = scan s vals.
Proof.
  induction vals as [|v vals IH]; intros s s' H; cbn [pd.see_all scan] in *.
  - now inv H.
  - destruct (pd.see s v) as [s1|e] eqn:E; cbn [bind] in H; [|discriminate].
    apply see_inv in E. destruct E as [-> _].
    destruct (pd.object_ (pd.saw s v)); [now inv H | now apply IH].
Qed.

(** The scan ends when every int of the column can be cast. *)
Lemma see_all_castable (vals : list scalar) :
  Forall (fun v => castable v = true) vals ->
  forall s, pd.see_all s vals = Ok (scan s vals).
Proof.
  induction 1 as [|v vals Hv _ IH]; intros s; cbn [pd.see_all scan];
    [reflexivity|].
  rewrite (see_castable s v Hv). cbn [bind].
  destruct (pd.object_ (pd.saw s v)); [reflexivity | apply IH].
Qed.

Lemma maybe_convert_objects_inv (vals : list scalar) (x : pd.Series) :
  pd.maybe_convert_objects vals = Ok x -> x = series_of vals.
Proof.
  unfold pd.maybe_convert_objects, series_of.
  destruct (pd.see_all pd.seen0 vals) as [s|e] eqn:E; cbn [bind];
    intros H; inv H.
  now rewrite (see_all_scan vals pd.seen0 s E).
Qed.

Lemma maybe_convert_objects_castable (vals : list scalar) :
  Forall (fun v => castable v = true) vals ->
  pd.maybe_convert_objects vals = Ok (series_of vals).
Proof.
  intros H. unfold pd.maybe_convert_objects.
  now rewrite (see_all_castable vals H).
Qed.

(** A first int too large for a double ends the scan with an exception. *)
Lemma maybe_convert_objects_overflow (z : Z) (vals : list scalar) :
  pd.fits_double z = false ->
  pd.maybe_convert_objects (SInt z :: vals)
  = Raise (OverflowError "int too large to convert to float").
Proof.
  intros H. unfold pd.maybe_convert_objects. cbn [pd.see_all pd.see].
  now rewrite H.
Qed.

Lemma of_arrays_inv (cols : list pd.label) (arrays : list (list scalar))
      (n : nat) (f : pd.DataFrame) :
  pd.of_arrays cols arrays n = Ok f ->
  f = frame_with cols arrays n /\ all_converted arrays.
Proof.
  unfold pd.of_arrays, frame_with, all_converted.
  destruct (traverse pd.maybe_convert_objects arrays) as [data|e] eqn:E;
    cbn [bind]; intros H; inv H.
  apply traverse_inv in E.
  assert (Hd : data = List.map series_of arrays /\
               Forall (fun a => pd.maybe_convert_objects a = Ok (series_of a))
                      arrays).
  { induction E as [|a b l l' Hab _ [IH1 IH2]]; [split; [reflexivity|constructor]|].
    pose proof (maybe_convert_objects_inv a b Hab) as ->.
    split; [simpl; now rewrite IH1 | now constructor]. }
  destruct Hd as [-> Hall]. now split.
Qed.

Lemma of_arrays_ok (cols : list pd.label) (arrays : list (list scalar))
      (n : nat) :
  all_converted arrays ->
  pd.of_arrays cols arrays n = Ok (frame_with cols arrays n).
Proof.
  intros H. unfold pd.of_arrays, frame_with, all_converted in *.
  rewrite (traverse_map pd.maybe_convert_objects series_of); [reflexivity|].
  rewrite Forall_forall in H. exact H.
Qed.

Lemma for_each_seq {B} (f : nat -> result B) (d : B) (l : list B) :
  forall s,
    (forall i, i < List.length l -> f (s + i) = Ok (nth i l d)) ->
    DataDictionary.for_each f (seq s (List.length l)) = Ok l.
Proof.
  induction l as [|b l IH]; intros s H; simpl; [reflexivity|].
  specialize (H 0 (Nat.lt_0_succ _)) as H0. rewrite Nat.add_0_r in H0.
  simpl in H0. rewrite H0. simpl.
  rewrite (IH (S s)); [reflexivity|].
  intros i Hi. specialize (H (S i)). simpl in H.
  rewrite <- H by lia. f_equal. lia.
Qed.

Lemma for_each_map {A B} (f : A -> result B) (g : A -> B) (l : list A) :
  (forall a, In a l -> f a = Ok (g a)) ->
  DataDictionary.for_each f l = Ok (List.map g l).
Proof.
  induction l as [|a l IH]; intros H; simpl; [reflexivity|].
  rewrite (H a) by now left. simpl.
  rewrite IH; [reflexivity|]. intros x Hx. apply H. now right.
Qed.

Lemma for_each_ok_length {A B} (f : A -> result B) (l : list A) (r : list B) :
  DataDictionary.for_each f l = Ok r -> Forall2 (fun a b => f a = Ok b) l r.
Proof.
  revert r. induction l as [|a l IH]; simpl; intros r H.
  - inv H. constructor.
  - destruct (f a) as [b|e] eqn:E; simpl in H; [|discriminate].
    destruct (DataDictionary.for_each f l) as [bs|e]; simpl in H;
      [|discriminate].
    inv H. constructor; auto.
Qed.

(** ** [DataDictionary] *)

Lemma nth_map_SStr {A} (f : A -> str) (l : list A) (d : A) (i : nat) :
  i < List.length l ->
  nth i (List.map (fun c => SStr (f c)) l) SNone = SStr (f (nth i l d)).
Proof.
  intros Hi.
  rewrite (nth_indep _ SNone (SStr (f d))) by now rewrite length_map.
  apply (map_nth (fun c => SStr (f c))).
Qed.

(** A list of strings as [sanitize_array] stores it: as it is, in an
    [object] array, or in an empty [float64] array when there is none. *)
Lemma sanitize_array_strs {A} (f : A -> str) (l : list A) :
  pd.sanitize_array (List.map (fun c => SStr (f c)) l)
  = Ok (pd.mkSeries (match l with [] => pd.float64 | _ :: _ => pd.object end)
                    (List.map (fun c => SStr (f c)) l)).
Proof.
  destruct l as [|a l]; reflexivity.
Qed.

(** The application frame of a dictionary. *)
Lemma to_application_df_frame (d : DataDictionary.t) :
  DataDictionary.to_application_df d
  = Ok (pd.mkDataFrame
          [pd.LStr (py "column"); pd.LStr (py "description");
           pd.LStr (py "data_type")]
          (List.map
             (pd.mkSeries (match DataDictionary.column_descriptions d with
                           | [] => pd.float64
                           | _ :: _ => pd.object
                           end))
             [List.map (fun c => SStr (DataDictionaryColumn.column c))
                       (DataDictionary.column_descriptions d);
              List.map (fun c => SStr (DataDictionaryColumn.description c))
                       (DataDictionary.column_descriptions d);
              List.map (fun c => SStr (DataDictionaryColumn.data_type c))
                       (DataDictionary.column_descriptions d)])
          (List.length (DataDictionary.column_descriptions d))).
Proof.
  unfold DataDictionary.to_application_df, pd.of_dict.
  cbn [forallb snd]. rewrite !length_map, Nat.eqb_refl. cbn [andb].
  cbn [traverse snd]. rewrite !sanitize_array_strs. reflexivity.
Qed.

(** The round trip through the application frame, for any dictionary. *)
Lemma application_round_trip_id (d : DataDictionary.t) :
  DataDictionary.application_round_trip d = Ok d.
Proof.
  unfold DataDictionary.application_round_trip.
  rewrite to_application_df_frame.
  destruct d as [name cds].
  cbn [DataDictionary.column_descriptions DataDictionary.name].
  cbn [bind]. unfold DataDictionary.from_application_df.
  cbn [pd.columns pd.data pd.index List.map].
  match goal with
  | |- (if ?b then _ else _) = _ => replace b with true by reflexivity
  end.
  rewrite (@for_each_seq _ _ no_column cds 0); [reflexivity|].
  intros i Hi. cbn [Nat.add].
  unfold DataDictionary.row_get.
  set (ty := match cds with [] => pd.float64 | _ :: _ => pd.object end).
  replace (pd.getitem _ (pd.LStr (py "data_type")))
    with (Some (pd.mkSeries ty
                  (List.map (fun c => SStr (DataDictionaryColumn.data_type c)) cds)))
    by reflexivity.
  replace (pd.getitem _ (pd.LStr (py "column")))
    with (Some (pd.mkSeries ty
                  (List.map (fun c => SStr (DataDictionaryColumn.column c)) cds)))
    by reflexivity.
  replace (pd.getitem _ (pd.LStr (py "description")))
    with (Some (pd.mkSeries ty
                  (List.map (fun c => SStr (DataDictionaryColumn.description c)) cds)))
    by reflexivity.
  cbn [pd.values].
  rewrite !(@nth_map_SStr _ _ cds no_column i Hi).
  destruct (nth i cds no_column); reflexivity.
Qed.

(** C10.  For a dictionary with at least one column description,
    [DataDictionary.from_application_df(d.to_application_df(), name=d.name)]
    returns a dictionary equal to [d]: the same name and the same
    descriptions in the same order. *)
Theorem C10_application_df_round_trip (d : DataDictionary.t) :
  DataDictionary.column_descriptions d <> [] ->
  (df <- DataDictionary.to_application_df d ;;
   DataDictionary.from_application_df df (Some (DataDictionary.name d)))
  = Ok d.
Proof.
  intros _. exact (application_round_trip_id d).
Qed.

Lemma C10_witness :
  (df <- DataDictionary.to_application_df
           (DataDictionary.mk (py "sales")
              [DataDictionaryColumn.mk (py "object") (py "date") (py "day of sale");
               DataDictionaryColumn.mk (py "int64") (py "amount") (py "units sold")]) ;;
   DataDictionary.from_application_df df (Some (py "sales")))
  = Ok (DataDictionary.mk (py "sales")
          [DataDictionaryColumn.mk (py "object") (py "date") (py "day of sale");
           DataDictionaryColumn.mk (py "int64") (py "amount") (py "units sold")]).
Proof.
  apply (@C10_application_df_round_trip
           (DataDictionary.mk (py "sales")
              [DataDictionaryColumn.mk (py "object") (py "date") (py "day of sale");
               DataDictionaryColumn.mk (py "int64") (py "amount") (py "units sold")])).
  discriminate.
Defined.

(** ** Frames built from records *)

Lemma all_dicts_IDict (r : list record) :
  pd.all_dicts (List.map pd.IDict r) = Ok r.
Proof.
  induction r as [|d r IH]; simpl; [reflexivity|]. now rewrite IH.
Qed.

Lemma from_records_of_arrays (r : list record) :
  pd.from_records (List.map pd.IDict r)
  = pd.of_arrays (List.map pd.LStr (columns_of r)) (arrays_of r)
                 (List.length r).
Proof.
  destruct r as [|d r]; [reflexivity|].
  unfold pd.from_records. cbn [List.map].
  change (pd.IDict d :: List.map pd.IDict r) with (List.map pd.IDict (d :: r)).
  rewrite all_dicts_IDict. reflexivity.
Qed.

(** The frame of a list of dicts, when its arrays are converted. *)
Lemma from_records_dicts (r : list record) :
  all_converted (arrays_of r) ->
  pd.from_records (List.map pd.IDict r) = Ok (frame_of r).
Proof.
  intros H. rewrite from_records_of_arrays. now apply of_arrays_ok.
Qed.

(** A frame made of a list of dicts is that frame, and the arrays were
    converted. *)
Lemma from_records_dicts_inv (r : list record) (f : pd.DataFrame) :
  pd.from_records (List.map pd.IDict r) = Ok f ->
  f = frame_of r /\ all_converted (arrays_of r).
Proof.
  rewrite from_records_of_arrays. apply of_arrays_inv.
Qed.

Lemma dict_get_some_In (d : record) (k : str) (v : scalar) :
  dict_get str_eq_dec k d = Some v -> In (k, v) d.
Proof.
  induction d as [|[k' v'] d IH]; simpl; [discriminate|].
  destruct (str_eq_dec k k') as [->|Hne].
  - intros H. inv H. now left.
  - intros H. right. now apply IH.
Qed.

(** Records whose ints can be cast give arrays that are converted. *)
Lemma ints_cast_converted (r : list record) :
  Forall ints_cast r -> all_converted (arrays_of r).
Proof.
  intros H. unfold all_converted, arrays_of. apply Forall_map.
  apply Forall_forall. intros c _.
  apply maybe_convert_objects_castable. apply Forall_map.
  eapply Forall_impl; [|exact H]. intros d Hd. cbv beta.
  unfold pd.cell. destruct (dict_get str_eq_dec c d) as [v|] eqn:E;
    [|reflexivity].
  apply dict_get_some_In in E. unfold ints_cast in Hd.
  rewrite Forall_forall in Hd. exact (Hd (c, v) E).
Qed.

Lemma well_formed_ints_cast (r : list record) :
  Forall well_formed r -> Forall ints_cast r.
Proof.
  intros H. eapply Forall_impl; [|exact H]. intros d [_ Hd].
  unfold ints_cast. eapply Forall_impl; [|exact Hd].
  intros kv. apply int_fits_castable.
Qed.

Lemma add_key_NoDup (ks acc : list str) :
  NoDup acc ->
  NoDup (fold_left (fun acc k => if in_dec str_eq_dec k acc then acc
                                 else acc ++ [k]) ks acc).
Proof.
  revert acc. induction ks as [|k ks IH]; intros acc H; simpl; [assumption|].
  apply IH. destruct (in_dec str_eq_dec k acc) as [Hin|Hin]; [assumption|].
  apply NoDup_rev in H. rewrite <- (rev_involutive (acc ++ [k])).
  apply NoDup_rev. rewrite rev_app_distr. simpl. constructor; [|assumption].
  now rewrite <- in_rev.
Qed.

Lemma unique_keys_NoDup (r : list record) (seen : list str) :
  NoDup seen -> NoDup (pd.unique_keys seen r).
Proof.
  revert seen. induction r as [|d r IH]; intros seen H; simpl; [assumption|].
  apply IH. now apply add_key_NoDup.
Qed.

Lemma columns_of_NoDup (r : list record) : NoDup (columns_of r).
Proof. apply unique_keys_NoDup. constructor. Qed.

Lemma LStr_NoDup (l : list str) : NoDup l -> NoDup (List.map pd.LStr l).
Proof.
  induction 1 as [|x l Hx Hl IH]; simpl; constructor; [|assumption].
  rewrite in_map_iff. intros (y & E & Hy). inv E. contradiction.
Qed.

(** [df[col]] is a column when the labels are distinct and every label has
    its array. *)
Lemma dict_get_combine {K V} (dec : forall a b : K, {a = b} + {a <> b})
      (k : K) (ks : list K) (vs : list V) :
  In k ks -> List.length ks <= List.length vs ->
  exists v, dict_get dec k (combine ks vs) = Some v.
Proof.
  revert vs. induction ks as [|k' ks IH]; intros vs Hin Hlen; [easy|].
  destruct vs as [|v vs]; simpl in Hlen; [lia|]. simpl.
  destruct (dec k k') as [->|Hne]; [eauto|].
  apply IH; [|lia]. destruct Hin; congruence.
Qed.

Lemma getitem_some (df : pd.DataFrame) (col : pd.label) :
  NoDup (pd.columns df) ->
  List.length (pd.columns df) <= List.length (pd.data df) ->
  In col (pd.columns df) ->
  exists s, pd.getitem df col = Some s.
Proof.
  intros Hnd Hlen Hin. unfold pd.getitem, pd.count_label.
  rewrite (proj1 (NoDup_count_occ' pd.label_eq_dec (pd.columns df)) Hnd col Hin).
  simpl. now apply dict_get_combine.
Qed.

(** ** [DataDictionary]: what it accepts and what [from_analyst_df] gives *)

Lemma describe_ok (df : pd.DataFrame) (description : str) (col : pd.label)
      (c : DataDictionaryColumn.t) :
  DataDictionary.describe df description col = Ok c ->
  col = pd.LStr (DataDictionaryColumn.column c).
Proof.
  unfold DataDictionary.describe.
  destruct (pd.getitem df col) as [s|]; [|discriminate].
  destruct col as [x|i]; simpl; intros H; inv H. reflexivity.
Qed.

Lemma describe_str (df : pd.DataFrame) (description : str) (x : str) :
  NoDup (pd.columns df) ->
  List.length (pd.columns df) <= List.length (pd.data df) ->
  In (pd.LStr x) (pd.columns df) ->
  exists c, DataDictionary.describe df description (pd.LStr x) = Ok c.
Proof.
  intros Hnd Hlen Hin.
  destruct (getitem_some df (pd.LStr x) Hnd Hlen Hin) as [s Hs].
  unfold DataDictionary.describe. rewrite Hs. eexists. reflexivity.
Qed.

Lemma for_each_total {A B} (f : A -> result B) (l : list A) :
  (forall a, In a l -> exists b, f a = Ok b) ->
  exists bs, DataDictionary.for_each f l = Ok bs.
Proof.
  induction l as [|a l IH]; intros H; simpl; [eauto|].
  destruct (H a (or_introl eq_refl)) as [b ->].
  destruct IH as [bs ->]; [intros x Hx; apply H; now right|].
  simpl. eauto.
Qed.

(** Whenever [from_analyst_df] returns, the dictionary lists the columns
    of the frame, in their order. *)
Lemma from_analyst_df_columns (df : pd.DataFrame) (name description : option str)
      (d : DataDictionary.t) :
  DataDictionary.from_analyst_df df name description = Ok d ->
  List.map pd.LStr (DataDictionary.described d) = pd.columns df.
Proof.
  unfold DataDictionary.from_analyst_df.
  destruct (DataDictionary.for_each _ (pd.columns df)) as [cols|e] eqn:E;
    simpl; [|discriminate].
  intros H. inv H. unfold DataDictionary.described. simpl.
  apply for_each_ok_length in E.
  induction E as [|col c l cs H _ IH]; simpl; [reflexivity|].
  apply describe_ok in H. now rewrite <- H, IH.
Qed.

(** It returns for every frame whose labels are distinct strings. *)
Lemma from_analyst_df_total (df : pd.DataFrame) (name description : option str) :
  NoDup (pd.columns df) ->
  List.length (pd.columns df) <= List.length (pd.data df) ->
  (forall col, In col (pd.columns df) -> exists x, col = pd.LStr x) ->
  exists d, DataDictionary.from_analyst_df df name description = Ok d.
Proof.
  intros Hnd Hlen Hstr. unfold DataDictionary.from_analyst_df.
  match goal with
  | |- context [DataDictionary.for_each ?f ?l] =>
      assert (H : exists cols, DataDictionary.for_each f l = Ok cols)
  end.
  { apply for_each_total. intros col Hin. destruct (Hstr col Hin) as [x ->].
    now apply describe_str. }
  destruct H as [cols ->]. simpl. eexists. reflexivity.
Qed.

Lemma frame_of_wf (r : list record) :
  NoDup (pd.columns (frame_of r))
  /\ List.length (pd.columns (frame_of r)) = List.length (pd.data (frame_of r))
  /\ (forall col, In col (pd.columns (frame_of r)) -> exists x, col = pd.LStr x).
Proof.
  unfold frame_of, frame_with. cbn [pd.columns pd.data]. repeat split.
  - apply LStr_NoDup, columns_of_NoDup.
  - now rewrite !length_map.
  - intros col Hin. apply in_map_iff in Hin. destruct Hin as (x & <- & _). eauto.
Qed.

(** The dataset of a list of dicts, when its arrays are converted. *)
Lemma construct_from_records (name : option str) (r : list record) :
  all_converted (arrays_of r) ->
  AnalystDataset.construct name
    (Some (DataFrameWrapper.Records (List.map pd.IDict r))) None
  = Ok (AnalystDataset.mk
          (match name with Some n => n | None => py "analyst_dataset" end)
          (DataFrameWrapper.mk (frame_of r))).
Proof.
  intros H.
  unfold AnalystDataset.construct. cbn [AnalystDataset.reconstruct_data].
  unfold DataFrameWrapper.validate. now rewrite from_records_dicts.
Qed.

(** A dataset made of a list of dicts is that dataset, and the arrays were
    converted. *)
Lemma construct_from_records_inv (name : option str) (r : list record)
      (ds : AnalystDataset.t) :
  AnalystDataset.construct name
    (Some (DataFrameWrapper.Records (List.map pd.IDict r))) None
  = Ok ds ->
  ds = AnalystDataset.mk
         (match name with Some n => n | None => py "analyst_dataset" end)
         (DataFrameWrapper.mk (frame_of r))
  /\ all_converted (arrays_of r).
Proof.
  unfold AnalystDataset.construct. cbn [AnalystDataset.reconstruct_data].
  unfold DataFrameWrapper.validate.
  destruct (pd.from_records (List.map pd.IDict r)) as [f|e] eqn:E;
    intros H; inv H.
  apply from_records_dicts_inv in E. destruct E as [-> Hall]. now split.
Qed.

(** C6, as stated, fails: [DataDictionary(name="sales",
    column_descriptions=[...])] with the column ["amount"] described twice
    is built. *)
Lemma C6_duplicate_column_is_accepted :
  DataDictionary.construct (Some (py "sales")) (Some twice)
  = Ok (DataDictionary.mk (py "sales") twice)
  /\ DataDictionary.described (DataDictionary.mk (py "sales") twice)
     = [py "amount"; py "amount"].
Proof.
  split; reflexivity.
Qed.

(** C6, amended.  [DataDictionary] takes any list of column descriptions,
    with no check on the names.  A dictionary that [from_analyst_df]
    returns lists exactly the columns of the frame, in order; and
    [from_analyst_df] returns one for every dataset built from a list of
    record mappings. *)
Theorem C6_generated_dictionary_has_the_columns
        (name : str) (cds : list DataDictionaryColumn.t)
        (df : pd.DataFrame) (dname description : option str) :
  DataDictionary.construct (Some name) (Some cds)
  = Ok (DataDictionary.mk name cds)
  /\ (forall d,
         DataDictionary.from_analyst_df df dname description = Ok d ->
         List.map pd.LStr (DataDictionary.described d) = pd.columns df)
  /\ (forall n r ds,
         AnalystDataset.construct n
           (Some (DataFrameWrapper.Records (List.map pd.IDict r))) None
         = Ok ds ->
         exists d,
           DataDictionary.from_analyst_df (AnalystDataset.to_df ds) dname
                                          description = Ok d
           /\ List.map pd.LStr (DataDictionary.described d)
              = AnalystDataset.columns ds).
Proof.
  split; [reflexivity|]. split.
  - intros d. apply from_analyst_df_columns.
  - intros n r ds H. apply construct_from_records_inv in H.
    destruct H as [-> _].
    unfold AnalystDataset.columns, AnalystDataset.to_df.
    cbn [AnalystDataset.data DataFrameWrapper.df].
    destruct (frame_of_wf r) as (Hnd & Hlen & Hstr).
    destruct (from_analyst_df_total (frame_of r) dname description)
      as [d Hd]; [assumption | lia | assumption |].
    exists d. split; [assumption|]. now apply from_analyst_df_columns in Hd.
Qed.

(** ** The reflection loop *)

Lemma not_none_map_Some {A} (l : list A) :
  AnalysisError.not_none (List.map Some l) = l.
Proof.
  induction l as [|a l IH]; simpl; [reflexivity | now rewrite IH].
Qed.

Section ReflectionFacts.

Import code_execution engine.

Variable request : RunAnalysisRequest.t.
Variable N : nat.
Variable build_prompt :
  RunAnalysisRequest.t -> option InvalidGeneratedCode -> str.
Variable generate : nat -> str -> result CodeGeneration.t.
Variable execute :
  nat -> str -> list AnalystDataset.t -> AnalystDataset.t + ExecutionError.
Variable elapsed : float.

(** The sandbox fails on every attempt, whatever the code. *)
Hypothesis always_fails :
  forall attempt code bindings,
  exists e, execute attempt code bindings = inr e.

Abbreviation run := (engine.run request N build_prompt generate execute).
Abbreviation failure_of := (engine.failure_of request build_prompt generate execute).
Abbreviation failures := (engine.failures request build_prompt generate execute).

Lemma failure_of_some (attempt : nat) (history : list InvalidGeneratedCode) :
  exists f, failure_of attempt history = Some f.
Proof.
  unfold engine.failure_of.
  destruct (generate attempt _) as [g|e]; [|eauto].
  destruct (CodeGeneration.code g) as [|c cs]; [eauto|].
  destruct (always_fails attempt (c :: cs) (RunAnalysisRequest.datasets request))
    as [e ->].
  eauto.
Qed.

Lemma failures_S (k : nat) :
  exists f,
    failure_of (S k) (failures k) = Some f
    /\ failures (S k) = failures k ++ [f].
Proof.
  destruct (failure_of_some (S k) (failures k)) as [f Hf].
  exists f. split; [assumption|]. simpl. now rewrite Hf.
Qed.

Lemma failures_length (k : nat) : List.length (failures k) = k.
Proof.
  induction k as [|k IH]; [reflexivity|].
  destruct (failures_S k) as (f & _ & ->).
  rewrite length_app, IH. simpl. lia.
Qed.

(** The failures of the first [k] attempts open those of the first
    [k + j]. *)
Lemma failures_prefix (k j : nat) :
  firstn k (failures (k + j)) = failures k.
Proof.
  induction j as [|j IH].
  - rewrite Nat.add_0_r. rewrite <- (failures_length k) at 1.
    apply firstn_all.
  - rewrite Nat.add_succ_r. destruct (failures_S (k + j)) as (f & _ & ->).
    rewrite firstn_app, IH.
    replace (k - List.length (failures (k + j))) with 0
      by (rewrite failures_length; lia).
    simpl. apply app_nil_r.
Qed.

(** One failing attempt: from [Generating] the machine reaches
    [Reflecting] with the failure of the attempt, after one generation
    request. *)
Lemma attempt_reflects (attempt : nat) (history : list InvalidGeneratedCode)
      (log : list event) (fuel : nat) :
  exists f evs k,
    failure_of attempt history = Some f
    /\ List.length (filter is_generate evs) = 1
    /\ k <= 1
    /\ run (S (S fuel)) (Generating attempt history) log
       = run (k + fuel) (Reflecting attempt history f) (log ++ evs).
Proof.
  unfold engine.failure_of. cbn [engine.run engine.step].
  destruct (generate attempt _) as [g|e] eqn:Eg.
  - destruct (CodeGeneration.code g) as [|c cs] eqn:Ec.
    + exists (malformed_generation g), [Generate attempt (prompt_for request build_prompt attempt history)], 1.
      repeat split; auto.
    + destruct (always_fails attempt (c :: cs)
                  (RunAnalysisRequest.datasets request)) as [e He].
      exists (execution_failure (c :: cs) e),
        [Generate attempt (prompt_for request build_prompt attempt history);
         Execute attempt (c :: cs)], 0.
      rewrite He. repeat split; auto.
      cbn [engine.run engine.step]. rewrite He. now rewrite <- app_assoc.
  - exists (generation_failure e), [Generate attempt (prompt_for request build_prompt attempt history)], 1.
    repeat split; auto.
Qed.

(** After [done] failed attempts, with their failures as history, and [d]
    attempts left after the next one, the machine ends in [Exhausted] with
    the failures of all [N] attempts, after one generation request per
    attempt made. *)
Lemma run_exhausts (d : nat) :
  forall done log fuel,
    N = S done + d ->
    3 * (d + 1) <= fuel ->
    exists evs,
      run fuel (Generating (S done) (failures done)) log
      = Some (Exhausted N (failures N), log ++ evs)
      /\ List.length (filter is_generate evs) = d + 1.
Proof.
  induction d as [|d IH]; intros done log fuel HN Hfuel;
    (destruct fuel as [|[|[|fuel]]]; [lia | lia | lia |]);
    destruct (attempt_reflects (S done) (failures done) log (S fuel))
      as (f & evs & k & Hf & Hgen & Hk & ->);
    replace (k + S fuel) with (S (k + fuel)) by lia;
    destruct (failures_S done) as (f' & Hf' & Hhist);
    rewrite Hf in Hf'; injection Hf' as <-;
    cbn [engine.run engine.step]; rewrite <- Hhist, app_nil_r.
  - replace (S done =? N) with true by (symmetry; apply Nat.eqb_eq; lia).
    replace (S done) with N by lia.
    exists evs. split; [|assumption].
    now destruct (k + fuel).
  - replace (S done =? N) with false by (symmetry; apply Nat.eqb_neq; lia).
    destruct (IH (S done) (log ++ evs) (k + fuel)) as (evs' & Hrun & Hgen');
      [lia | lia |].
    exists (evs ++ evs'). rewrite Hrun, app_assoc. split; [reflexivity|].
    rewrite filter_app, length_app. lia.
Qed.

(** Entry [k] of the failures is the failure of attempt [k + 1] after the
    entries before it. *)
Lemma failures_nth (k : nat) :
  k < N ->
  failure_of (S k) (firstn k (failures N)) = nth_error (failures N) k.
Proof.
  intros Hk. replace N with (k + (N - k)) by lia.
  rewrite failures_prefix.
  destruct (failures_S k) as (f & Hf & Hhist). rewrite Hf.
  replace (k + (N - k)) with (S k + (N - S k)) by lia.
  rewrite <- (failures_prefix (S k) (N - S k)) in Hhist.
  symmetry.
  rewrite <- (firstn_skipn (S k) (failures (S k + (N - S k)))).
  rewrite Hhist. rewrite <- app_assoc.
  rewrite nth_error_app2 by (rewrite failures_length; lia).
  rewrite failures_length, Nat.sub_diag. reflexivity.
Qed.

(** C2.  For an attempt bound [N >= 1] and a sandbox that fails on every
    attempt, the engine returns, with any fuel of at least [3 * N] steps, an
    error result (it does not raise, and it does not run out of fuel): the
    metadata counts [N] attempts and wraps the analysis error made from the
    exhausted reflection, whose history holds the [N] failures, one per
    attempt, oldest first (entry [k] is the failure of attempt [k + 1] after
    the entries before it); and [N] generation requests were made.  Entry
    [k] of the history of the result is the [CodeExecutionError] of that
    failure: its code, the text of its exception, its output, its error
    output and its traceback; when attempt [k + 1] generated the code [c]
    and the sandbox failed on it with [e], these are [c] and the message,
    the output, the error output and the traceback of [e]. *)
Theorem C2_always_failing_sandbox_exhausts (fuel : nat) :
  1 <= N ->
  3 * N <= fuel ->
  exists r log,
    run_analysis request N build_prompt generate execute elapsed fuel
    = Some (Ok r, log)
    /\ RunAnalysisResult.status r = Status.error
    /\ RunAnalysisResult.dataset r = None
    /\ RunAnalysisResultMetadata.attempts (RunAnalysisResult.metadata r)
       = Z.of_nat N
    /\ RunAnalysisResult.error_metadata r
       = Some (AnalysisError.mk
                 (Some (List.map AnalysisError.snapshot (failures N))))
    /\ List.length (failures N) = N
    /\ (forall k, k < N ->
          failure_of (S k) (firstn k (failures N))
          = nth_error (failures N) k)
    /\ List.length (filter is_generate log) = N
    /\ (exists history,
          RunAnalysisResult.error_metadata r
          = Some (AnalysisError.mk (Some history))
          /\ List.length history = N
          /\ (forall k, k < N ->
                exists f,
                  failure_of (S k) (firstn k (failures N)) = Some f
                  /\ nth_error history k
                     = Some (CodeExecutionError.mk
                               (code f) (Some (message (exception f)))
                               (stdout f) (stderr f) (traceback_str f)))
          /\ (forall k g c e,
                k < N ->
                generate (S k)
                         (prompt_for request build_prompt (S k)
                                     (firstn k (failures N)))
                = Ok g ->
                CodeGeneration.code g = c ->
                c <> [] ->
                execute (S k) c (RunAnalysisRequest.datasets request) = inr e ->
                nth_error history k
                = Some (CodeExecutionError.mk
                          (Some c) (Some (error_message e))
                          (error_stdout e) (error_stderr e)
                          (error_traceback e)))).
Proof.
  intros HN Hfuel.
  destruct (run_exhausts (N - 1) 0 [] fuel) as (evs & Hrun & Hgen);
    [lia | lia |].
  unfold run_analysis. change (failures 0) with (@nil InvalidGeneratedCode) in Hrun.
  rewrite Hrun. cbn [app engine.result_of].
  eexists. exists evs. split; [reflexivity|].
  cbn [RunAnalysisResult.status RunAnalysisResult.dataset
       RunAnalysisResult.metadata RunAnalysisResult.error_metadata
       RunAnalysisResultMetadata.attempts RunAnalysisResultMetadata.exception].
  assert (Hhist : AnalysisError.from_max_reflection_exception
                    (mkMax (Some (List.map Some (failures N))))
                  = AnalysisError.mk
                      (Some (List.map AnalysisError.snapshot (failures N)))).
  { unfold AnalysisError.from_max_reflection_exception.
    cbn [code_execution.exception_history]. now rewrite not_none_map_Some. }
  rewrite Hhist.
  split; [reflexivity|]. split; [reflexivity|]. split; [reflexivity|].
  split; [reflexivity|]. split; [apply failures_length|].
  split; [exact failures_nth|]. split; [lia|].
  exists (List.map AnalysisError.snapshot (failures N)).
  split; [reflexivity|]. split; [now rewrite length_map, failures_length|].
  split.
  - intros k Hk. rewrite (failures_nth k Hk).
    destruct (nth_error (failures N) k) as [f|] eqn:E.
    + exists f. split; [reflexivity|].
      now rewrite nth_error_map, E.
    + apply nth_error_None in E. rewrite failures_length in E. lia.
  - intros k g c e Hk Hg Hc Hne He.
    pose proof (failures_nth k Hk) as Hf.
    unfold engine.failure_of in Hf. rewrite Hg, Hc in Hf.
    destruct c as [|x c]; [congruence|]. rewrite He in Hf.
    now rewrite nth_error_map, <- Hf.
Qed.

End ReflectionFacts.

Lemma C2_witness :
  exists r log,
    engine.run_analysis monthly_totals 3 (fun _ _ => py "write the code")
                        same_code key_error (float_of_int 2) 9
    = Some (Ok r, log)
    /\ RunAnalysisResult.status r = Status.error
    /\ RunAnalysisResult.dataset r = None
    /\ RunAnalysisResultMetadata.attempts (RunAnalysisResult.metadata r)
       = Z.of_nat 3
    /\ RunAnalysisResult.error_metadata r
       = Some (AnalysisError.mk
                 (Some (List.map AnalysisError.snapshot
                          (engine.failures monthly_totals
                             (fun _ _ => py "write the code")
                             same_code key_error 3))))
    /\ List.length (engine.failures monthly_totals
                      (fun _ _ => py "write the code") same_code key_error 3)
       = 3
    /\ (forall k, k < 3 ->
          engine.failure_of monthly_totals (fun _ _ => py "write the code")
                            same_code key_error (S k)
                            (firstn k (engine.failures monthly_totals
                                         (fun _ _ => py "write the code")
                                         same_code key_error 3))
          = nth_error (engine.failures monthly_totals
                         (fun _ _ => py "write the code") same_code
                         key_error 3) k)
    /\ List.length (filter engine.is_generate log) = 3
    /\ RunAnalysisResult.error_metadata r
       = Some (AnalysisError.mk
                 (Some [month_is_missing; month_is_missing; month_is_missing])).
Proof.
  destruct (C2_always_failing_sandbox_exhausts
              monthly_totals 3 (fun _ _ => py "write the code") same_code
              key_error (float_of_int 2)
              (fun attempt code bindings =>
                 ex_intro _ (engine.mkExecutionError (py "KeyError: 'month'")
                                                     None None None) eq_refl)
              9 (le_S _ _ (le_S _ _ (le_n 1))) (le_n 9))
    as (r & log & Hrun & Hs & Hd & Ha & Hm & Hl & Hf & Hg & _).
  exists r, log. repeat split; assumption.
Defined.

(** ** Records that make a frame, and records that do not *)




Lemma add_keys_fresh (ks acc : list str) :
  NoDup (acc ++ ks) ->
  fold_left (fun acc k => if in_dec str_eq_dec k acc then acc else acc ++ [k])
            ks acc
  = acc ++ ks.
Proof.
  revert acc. induction ks as [|k ks IH]; intros acc H; simpl.
  - now rewrite app_nil_r.
  - destruct (in_dec str_eq_dec k acc) as [Hin|Hin].
    + apply NoDup_remove_2 in H. exfalso. apply H. apply in_or_app. now left.
    + rewrite IH by (rewrite <- app_assoc; exact H).
      now rewrite <- app_assoc.
Qed.

Lemma add_keys_known (ks acc : list str) :
  incl ks acc ->
  fold_left (fun acc k => if in_dec str_eq_dec k acc then acc else acc ++ [k])
            ks acc
  = acc.
Proof.
  induction ks as [|k ks IH]; intros H; simpl; [reflexivity|].
  destruct (in_dec str_eq_dec k acc) as [Hin|Hin].
  - apply IH. intros x Hx. apply H. now right.
  - exfalso. apply Hin, H. now left.
Qed.

Lemma unique_keys_known (rest : list record) (seen : list str) :
  Forall (fun d => incl (keys d) seen) rest ->
  pd.unique_keys seen rest = seen.
Proof.
  induction 1 as [|d rest Hd _ IH]; simpl; [reflexivity|].
  now rewrite add_keys_known.
Qed.

(** The columns of uniform records are the keys of the first one, in its
    order. *)
Lemma columns_of_uniform (first : record) (rest : list record) :
  NoDup (keys first) ->
  Forall (fun d => Permutation (keys d) (keys first)) rest ->
  columns_of (first :: rest) = keys first.
Proof.
  intros Hnd Hrest. unfold columns_of. simpl.
  rewrite (add_keys_fresh (keys first) []) by assumption. simpl.
  apply unique_keys_known.
  eapply Forall_impl; [|exact Hrest].
  intros d Hd x Hx. cbv beta in Hd. exact (Permutation_in x Hd Hx).
Qed.



(** ** Columns that keep their values *)

(** A flag is raised by a value of its kind. *)
Lemma see_flags (s : pd.Seen) (v : scalar) :
  (pd.null_ (pd.saw s v) = true -> pd.null_ s = true \/ is_none v = true)
  /\ (pd.nan_ (pd.saw s v) = true -> pd.nan_ s = true \/ is_nan v = true)
  /\ (pd.float_ (pd.saw s v) = true -> pd.float_ s = true \/ is_float v = true)
  /\ (pd.int_ (pd.saw s v) = true -> pd.int_ s = true \/ is_int v = true)
  /\ (pd.uint_ (pd.saw s v) = true -> pd.uint_ s = true \/ is_int v = true).
Proof.
  destruct v as [|b|z|f|x]; try destruct f; simpl;
    try destruct (pd.null_ s); simpl; tauto.
Qed.

Lemma see_all_flags (vals : list scalar) :
  forall s,
    (pd.null_ (scan s vals) = true ->
     pd.null_ s = true \/ existsb is_none vals = true)
    /\ (pd.nan_ (scan s vals) = true ->
        pd.nan_ s = true \/ existsb is_nan vals = true)
    /\ (pd.float_ (scan s vals) = true ->
        pd.float_ s = true \/ existsb is_float vals = true)
    /\ (pd.int_ (scan s vals) = true ->
        pd.int_ s = true \/ existsb is_int vals = true)
    /\ (pd.uint_ (scan s vals) = true ->
        pd.uint_ s = true \/ existsb is_int vals = true).
Proof.
  induction vals as [|v vals IH]; intros s; [simpl; tauto|].
  cbn [scan existsb].
  destruct (see_flags s v) as (H1 & H2 & H3 & H4 & H5).
  destruct (pd.object_ (pd.saw s v)).
  - rewrite !orb_true_iff. tauto.
  - destruct (IH (pd.saw s v)) as (I1 & I2 & I3 & I4 & I5).
    rewrite !orb_true_iff. tauto.
Qed.

Lemma as_float_id (vals : list scalar) :
  existsb is_none vals = false -> existsb is_int vals = false ->
  List.map pd.as_float vals = vals.
Proof.
  induction vals as [|v vals IH]; simpl; [reflexivity|].
  rewrite !orb_false_iff. intros [Hn Hns] [Hi His].
  rewrite IH by assumption. destruct v; simpl in *; congruence.
Qed.

Lemma stable_values (vals : list scalar) :
  stable vals = true ->
  pd.values (series_of vals) = vals.
Proof.
  unfold stable. rewrite !andb_true_iff, !negb_true_iff.
  intros [[Hnan Hnone] Hmix].
  destruct (see_all_flags vals pd.seen0) as (H1 & H2 & H3 & H4 & H5).
  cbn [pd.seen0 pd.null_ pd.nan_ pd.float_ pd.int_ pd.uint_] in H1, H2, H3, H4, H5.
  unfold series_of, pd.converted.
  assert (Hfloats :
            pd.float_ (scan pd.seen0 vals) = true ->
            pd.null_ (scan pd.seen0 vals)
            || pd.nan_ (scan pd.seen0 vals) = false ->
            List.map pd.as_float vals = vals).
  { intros Hf _. destruct (H3 Hf) as [?|Hf']; [discriminate|].
    rewrite Hf' in *. rewrite orb_true_r, andb_true_r in Hnone.
    rewrite andb_true_r in Hmix. now apply as_float_id. }
  assert (Hnull :
            pd.null_ (scan pd.seen0 vals)
            || pd.nan_ (scan pd.seen0 vals) = true ->
            pd.float_ (scan pd.seen0 vals) = false
            /\ pd.int_ (scan pd.seen0 vals)
               || pd.uint_ (scan pd.seen0 vals) = false
            /\ pd.nan_ (scan pd.seen0 vals) = false).
  { intros Hn. apply orb_true_iff in Hn.
    assert (pd.nan_ (scan pd.seen0 vals) = false) as Hnn.
    { destruct (pd.nan_ _); [|reflexivity].
      destruct H2 as [?|?]; congruence. }
    destruct Hn as [Hn|Hn]; [|congruence].
    destruct (H1 Hn) as [?|Hn']; [discriminate|].
    rewrite Hn' in Hnone. cbn [andb] in Hnone.
    apply orb_false_iff in Hnone. destruct Hnone as [Hi Hf].
    repeat split; [| |assumption].
    - destruct (pd.float_ _); [|reflexivity].
      destruct H3 as [?|?]; congruence.
    - apply orb_false_iff. split.
      + destruct (pd.int_ _); [|reflexivity]. destruct H4 as [?|?]; congruence.
      + destruct (pd.uint_ _); [|reflexivity]. destruct H5 as [?|?]; congruence. }
  destruct (pd.object_ _); [reflexivity|].
  destruct (pd.bool_seen _); [now destruct (negb _)|].
  destruct (pd.null_ _ || pd.nan_ _) eqn:En.
  - destruct (Hnull eq_refl) as (-> & -> & ->). reflexivity.
  - destruct (pd.float_ _) eqn:Ef; [now apply Hfloats|].
    destruct (pd.int_ _); [now destruct (pd.uint_ _) | reflexivity].
Qed.

(** ** From a frame back to records *)

Lemma dict_set_fresh {K V} (dec : forall a b : K, {a = b} + {a <> b})
      (k : K) (v : V) (d : dict K V) :
  ~ In k (keys d) -> dict_set dec k v d = d ++ [(k, v)].
Proof.
  induction d as [|[k' v'] d IH]; simpl; intros H; [reflexivity|].
  destruct (dec k k') as [->|Hne]; [tauto|].
  rewrite IH; [reflexivity | tauto].
Qed.

Lemma dict_of_items_fresh {K V} (dec : forall a b : K, {a = b} + {a <> b})
      (items : list (K * V)) :
  forall acc,
    NoDup (keys (acc ++ items)) ->
    fold_left (fun d kv => dict_set dec (fst kv) (snd kv) d) items acc
    = acc ++ items.
Proof.
  induction items as [|[k v] items IH]; intros acc H; simpl.
  - now rewrite app_nil_r.
  - rewrite dict_set_fresh.
    + rewrite IH; rewrite <- app_assoc; [reflexivity | exact H].
    + unfold keys in H. rewrite map_app in H. simpl in H.
      apply NoDup_remove_2 in H. intros Hin. apply H.
      apply in_or_app. now left.
Qed.

(** Items with distinct keys make the dict of these items, in their
    order. *)
Lemma dict_of_items_NoDup {K V} (dec : forall a b : K, {a = b} + {a <> b})
      (items : list (K * V)) :
  NoDup (keys items) -> dict_of_items dec items = items.
Proof.
  intros H. unfold dict_of_items. now rewrite dict_of_items_fresh.
Qed.

Lemma combine_map {A B C} (f : A -> B) (g : A -> C) (l : list A) :
  combine (List.map f l) (List.map g l) = List.map (fun x => (f x, g x)) l.
Proof.
  induction l as [|a l IH]; simpl; [reflexivity | now rewrite IH].
Qed.

Lemma map_seq_nth {A B} (f : A -> B) (l : list A) (d : A) :
  List.map (fun i => f (nth i l d)) (seq 0 (List.length l)) = List.map f l.
Proof.
  induction l as [|a l IH]; [reflexivity|].
  cbn [List.length seq List.map nth]. f_equal.
  rewrite <- seq_shift, map_map. exact IH.
Qed.

Lemma keys_project (ks : list str) (d : record) : keys (project ks d) = ks.
Proof.
  unfold keys, project. rewrite map_map. simpl. apply map_id.
Qed.

(** With at least one column and stable columns, the records of the frame
    of [r] are the records of [r], each read along the columns. *)
Lemma data_records_frame_of (name : str) (r : list record) :
  columns_of r <> [] ->
  Forall (fun c => stable (List.map (fun d => pd.cell d c) r) = true)
         (columns_of r) ->
  AnalystDataset.data_records
    (AnalystDataset.mk name (DataFrameWrapper.mk (frame_of r)))
  = List.map (project (columns_of r)) r.
Proof.
  intros Hne Hst. pose proof (columns_of_NoDup r) as Hnd.
  unfold AnalystDataset.data_records, DataFrameWrapper.to_dict,
    pd.to_dict_records, frame_of, frame_with.
  cbn [AnalystDataset.data DataFrameWrapper.df pd.index].
  replace (match List.map (fun c => List.map (fun d => pd.cell d c) r)
                          (columns_of r) with
           | [] => 0 | _ :: _ => List.length r end) with (List.length r).
  2:{ destruct (columns_of r); [congruence | reflexivity]. }
  rewrite map_map. rewrite <- (map_seq_nth (project (columns_of r)) r []).
  apply map_ext_in. intros i Hi. apply in_seq in Hi.
  unfold pd.row_items. cbn [pd.columns pd.data].
  rewrite map_map, combine_map, map_map. cbn [fst snd].
  assert (Hrow :
            List.map (fun x => (pd.LStr x,
                        nth i (pd.values (series_of
                                 (List.map (fun d => pd.cell d x) r))) SNone))
                     (columns_of r)
            = List.map (fun x => (pd.LStr x, pd.cell (nth i r []) x))
                       (columns_of r)).
  { apply map_ext_in. intros c Hc. f_equal.
    rewrite Forall_forall in Hst. rewrite (stable_values _ (Hst c Hc)).
    rewrite (nth_indep _ SNone (pd.cell [] c)) by (rewrite length_map; lia).
    apply (map_nth (fun d => pd.cell d c)). }
  rewrite Hrow.
  rewrite (dict_of_items_NoDup pd.label_eq_dec).
  2:{ unfold keys. rewrite map_map. cbn [fst]. now apply LStr_NoDup. }
  rewrite map_map. cbn [fst snd pd.label_str].
  rewrite dict_of_items_NoDup; [reflexivity|].
  unfold keys. rewrite map_map. cbn [fst]. now rewrite map_id.
Qed.

(** ** Records read along their own columns *)

Lemma dict_get_In (d : record) (k : str) (v : scalar) :
  NoDup (keys d) ->
  (dict_get str_eq_dec k d = Some v <-> In (k, v) d).
Proof.
  induction d as [|[k' v'] d IH]; simpl; intros Hnd.
  - split; [discriminate | tauto].
  - inversion Hnd as [|? ? Hk Hd]; subst.
    destruct (str_eq_dec k k') as [->|Hne].
    + split.
      * intros H. inv H. now left.
      * intros [H|H]; [now inv H|].
        exfalso. apply Hk. unfold keys. apply in_map_iff.
        now exists (k', v).
    + rewrite (IH Hd). split; [now right|].
      intros [H|H]; [inv H; congruence | assumption].
Qed.

Lemma cell_In (d : record) (k : str) :
  NoDup (keys d) -> In k (keys d) -> In (k, pd.cell d k) d.
Proof.
  intros Hnd Hin. unfold keys in Hin. apply in_map_iff in Hin.
  destruct Hin as ([k' v] & Hk & Hin). simpl in Hk. subst k'.
  unfold pd.cell. rewrite (proj2 (dict_get_In d k v Hnd) Hin). assumption.
Qed.

(** A record read along a rearrangement of its keys has the items of the
    record. *)
Lemma project_Permutation (ks : list str) (d : record) :
  NoDup (keys d) -> Permutation (keys d) ks ->
  Permutation (project ks d) d.
Proof.
  intros Hnd Hperm.
  assert (Hks : NoDup ks) by (eapply Permutation_NoDup; eassumption).
  apply NoDup_Permutation.
  - apply (NoDup_map_inv fst). fold (keys (project ks d)).
    now rewrite keys_project.
  - now apply (NoDup_map_inv fst).
  - intros [k v]. unfold project. rewrite in_map_iff. split.
    + intros (c & E & Hc). inv E. apply cell_In; [assumption|].
      eapply Permutation_in; [symmetry|]; eassumption.
    + intros Hin. exists k. split.
      * f_equal. unfold pd.cell.
        now rewrite (proj2 (dict_get_In d k v Hnd) Hin).
      * eapply Permutation_in; [eassumption|].
        unfold keys. apply in_map_iff. now exists (k, v).
Qed.

Lemma SFeqb_refl (f : float) : f <> S754_nan -> SFeqb f f = true.
Proof.
  unfold SFeqb, SFcompare.
  destruct f as [s|s| |s m e]; intros H; try reflexivity; try congruence.
  - now destruct s.
  - rewrite Z.compare_refl, Pos.compare_cont_refl. now destruct s.
Qed.

(** [v == v], for every value but NaN. *)
Lemma scalar_eqb_refl (v : scalar) : is_nan v = false -> scalar_eqb v v = true.
Proof.
  destruct v as [|b|z|f|s]; simpl; intros H.
  - reflexivity.
  - now destruct b.
  - apply Z.eqb_refl.
  - apply SFeqb_refl. intros ->. discriminate.
  - apply str_eqb_refl.
Qed.

Lemma project_eqb (ks : list str) (d : record) :
  NoDup (keys d) -> Permutation (keys d) ks ->
  Forall (fun c => is_nan (pd.cell d c) = false) ks ->
  record_eqb (project ks d) d = true.
Proof.
  intros Hnd Hperm Hnan. unfold record_eqb, dict_eqb.
  apply andb_true_iff. split.
  - apply Nat.eqb_eq. unfold project. rewrite length_map.
    rewrite <- (Permutation_length Hperm). unfold keys. apply length_map.
  - apply forallb_forall. intros [k v] Hin. unfold project in Hin.
    apply in_map_iff in Hin. destruct Hin as (c & E & Hc). inv E.
    cbn [fst snd].
    assert (Hin : In (k, pd.cell d k) d).
    { apply cell_In; [assumption|].
      eapply Permutation_in; [symmetry|]; eassumption. }
    rewrite (proj2 (dict_get_In d k _ Hnd) Hin).
    apply scalar_eqb_refl. rewrite Forall_forall in Hnan. now apply Hnan.
Qed.

Lemma existsb_false_map {A B} (p : B -> bool) (f : A -> B) (l : list A) (a : A) :
  existsb p (List.map f l) = false -> In a l -> p (f a) = false.
Proof.
  intros H Hin. destruct (p (f a)) eqn:E; [|reflexivity].
  rewrite <- H. symmetry. apply existsb_exists. exists (f a).
  split; [now apply in_map | assumption].
Qed.

Lemma stable_no_nan (vals : list scalar) :
  stable vals = true -> existsb is_nan vals = false.
Proof.
  unfold stable. rewrite !andb_true_iff, !negb_true_iff. tauto.
Qed.

(** The round trip on records whose columns are stable: what comes back is
    each record read along the columns. *)
Lemma round_trip_projects (name : str) (r : list record) :
  all_converted (arrays_of r) ->
  columns_of r <> [] ->
  Forall (fun c => stable (List.map (fun d => pd.cell d c) r) = true)
         (columns_of r) ->
  AnalystDataset.round_trip name r = Ok (List.map (project (columns_of r)) r).
Proof.
  intros Hconv Hne Hst. unfold AnalystDataset.round_trip.
  rewrite construct_from_records by assumption. cbn [bind].
  now rewrite data_records_frame_of.
Qed.

(** C4, as stated, fails: [[{"a": 1}, {"a": None}]] is a non-empty sequence
    of mappings over the same column, and the records of the dataset made
    from it are [[{"a": 1.0}, {"a": nan}]], which is not equal to it. *)
Lemma C4_none_beside_int_comes_back_nan :
  AnalystDataset.round_trip (py "t") [[(py "a", SInt 1)]; [(py "a", SNone)]]
  = Ok [[(py "a", SFloat (float_of_int 1))]; [(py "a", SFloat nan)]]
  /\ records_eqb
       [[(py "a", SFloat (float_of_int 1))]; [(py "a", SFloat nan)]]
       [[(py "a", SInt 1)]; [(py "a", SNone)]]
     = false.
Proof.
  split; vm_compute; reflexivity.
Qed.

(** C4, amended.  For a non-empty sequence of records over the same
    non-empty set of columns, with no NaN, no [None] in a column that holds
    a number, and no column that holds both an int and a float, the
    records of the dataset built from it are equal to it: the same number
    of records in the same order, each with the items of the record it
    came from, its keys in the order of the first record. *)
Theorem C4_round_trip_of_stable_records
        (name : str) (first : record) (rest : list record) :
  keys first <> [] ->
  Forall well_formed (first :: rest) ->
  Forall (fun d => Permutation (keys d) (keys first)) rest ->
  Forall (fun c => stable (List.map (fun d => pd.cell d c) (first :: rest)) = true)
         (keys first) ->
  exists out,
    AnalystDataset.round_trip name (first :: rest) = Ok out
    /\ records_eqb out (first :: rest) = true
    /\ Forall2 (fun o d => Permutation o d /\ keys o = keys first)
               out (first :: rest).
Proof.
  intros Hne Hwf Hrest Hst.
  assert (Hcols : columns_of (first :: rest) = keys first).
  { apply columns_of_uniform; [|assumption].
    inversion Hwf as [|? ? [Hnd _] _]. assumption. }
  assert (Hall : Forall (fun d => Permutation (keys d) (keys first))
                        (first :: rest)).
  { constructor; [reflexivity | assumption]. }
  exists (List.map (project (keys first)) (first :: rest)). split.
  - rewrite <- Hcols. apply round_trip_projects;
      [now apply ints_cast_converted, well_formed_ints_cast | |];
      rewrite Hcols; assumption.
  - assert (Hnan : forall d, In d (first :: rest) ->
                   Forall (fun c => is_nan (pd.cell d c) = false) (keys first)).
    { intros d Hd. rewrite Forall_forall in *. intros c Hc.
      apply (existsb_false_map is_nan (fun d => pd.cell d c) (first :: rest) d);
        [|assumption].
      apply stable_no_nan. now apply Hst. }
    revert Hwf Hall Hnan. generalize (first :: rest) as r.
    induction r as [|d r IH]; intros Hwf Hall Hnan.
    + split; [reflexivity | constructor].
    + inversion Hwf as [|? ? [Hnd _] Hwf']; subst.
      inversion Hall as [|? ? Hperm Hall']; subst.
      destruct IH as [IH1 IH2];
        [assumption | assumption | intros x Hx; apply Hnan; now right |].
      split.
      * cbn [List.map records_eqb]. rewrite IH1, andb_true_r.
        apply project_eqb; [assumption | assumption |].
        apply Hnan. now left.
      * cbn [List.map]. constructor; [|assumption]. split.
        -- now apply project_Permutation.
        -- apply keys_project.
Qed.

Lemma C4_witness :
  exists out,
    AnalystDataset.round_trip (py "sales")
      [[(py "date", SStr (py "2024-01-05")); (py "amount", SInt 3)];
       [(py "amount", SInt 4); (py "date", SStr (py "2024-02-01"))]]
    = Ok out
    /\ records_eqb out
         [[(py "date", SStr (py "2024-01-05")); (py "amount", SInt 3)];
          [(py "amount", SInt 4); (py "date", SStr (py "2024-02-01"))]]
       = true
    /\ Forall2 (fun o d => Permutation o d
                           /\ keys o = [py "date"; py "amount"])
               out
               [[(py "date", SStr (py "2024-01-05")); (py "amount", SInt 3)];
                [(py "amount", SInt 4); (py "date", SStr (py "2024-02-01"))]].
Proof.
  apply (C4_round_trip_of_stable_records
           (py "sales")
           [(py "date", SStr (py "2024-01-05")); (py "amount", SInt 3)]
           [[(py "amount", SInt 4); (py "date", SStr (py "2024-02-01"))]]).
  - discriminate.
  - repeat constructor; simpl; intuition discriminate.
  - constructor; [|constructor]. apply perm_swap.
  - repeat constructor.
Defined.

Lemma C6_witness :
  exists d,
    DataDictionary.from_analyst_df
      (frame_of [[(py "date", SStr (py "2024-01-05")); (py "amount", SInt 3)]])
      None None
    = Ok d
    /\ List.map pd.LStr (DataDictionary.described d)
       = [pd.LStr (py "date"); pd.LStr (py "amount")].
Proof.
  destruct (C6_generated_dictionary_has_the_columns
              (py "sales") [] pd.empty None None) as (_ & _ & H).
  apply (H (Some (py "sales"))
           [[(py "date", SStr (py "2024-01-05")); (py "amount", SInt 3)]]
           (AnalystDataset.mk (py "sales")
              (DataFrameWrapper.mk
                 (frame_of [[(py "date", SStr (py "2024-01-05"));
                             (py "amount", SInt 3)]])))).
  reflexivity.
Defined.

(** * Further properties of the schema *)

(** ** [DictionaryGeneration] *)

(** X1.  [DictionaryGeneration(columns=cols, descriptions=descs)] returns a
    value exactly when the columns are not empty, no name comes twice, no
    name is empty, there are as many descriptions as columns and every
    description, stripped, has at least ten characters; the value holds the
    two lists as given, and on every other input the constructor raises. *)
Theorem DictionaryGeneration_accepts_exactly (cols descs : list str) :
  (forall g,
      DictionaryGeneration.construct (Some cols) (Some descs) = Ok g
      <-> accepted cols descs /\ g = DictionaryGeneration.mk cols descs)
  /\ (~ accepted cols descs ->
      exists e, DictionaryGeneration.construct (Some cols) (Some descs) = Raise e).
Proof.
  split.
  - intros g. apply construct_ok_iff.
  - apply construct_rejects.
Qed.

Lemma keys_combine {A B} (ks : list A) (vs : list B) :
  List.length ks = List.length vs -> keys (combine ks vs) = ks.
Proof.
  revert vs. induction ks as [|k ks IH]; intros [|v vs] H; simpl in *;
    try discriminate; [reflexivity|].
  f_equal. apply IH. lia.
Qed.

Lemma dict_get_combine_nth {A B} (dec : forall a b : A, {a = b} + {a <> b})
      (ks : list A) (vs : list B) :
  NoDup ks -> List.length ks = List.length vs ->
  forall i k, nth_error ks i = Some k ->
              dict_get dec k (combine ks vs) = nth_error vs i.
Proof.
  intros Hnd. revert vs. induction Hnd as [|k0 ks Hk Hnd IH];
    intros [|v vs] Hlen i k Hi; simpl in Hlen; try discriminate.
  - destruct i; discriminate.
  - destruct i as [|i]; simpl in Hi |- *.
    + inv Hi. destruct (dec k k); [reflexivity | congruence].
    + destruct (dec k k0) as [->|Hne].
      * exfalso. apply Hk. eapply nth_error_In; eassumption.
      * apply IH; [lia | assumption].
Qed.

(** X2.  For a value that was built, [to_dict] pairs the columns with the
    descriptions position by position: its keys are the columns in their
    order, and the entry of the column at position [i] is the description
    at position [i]; no description is lost or overwritten. *)
Theorem to_dict_pairs_columns_with_descriptions
        (cols descs : list str) (g : DictionaryGeneration.t) :
  DictionaryGeneration.construct (Some cols) (Some descs) = Ok g ->
  DictionaryGeneration.to_dict g = combine cols descs
  /\ keys (DictionaryGeneration.to_dict g) = cols
  /\ (forall i col,
         nth_error cols i = Some col ->
         dict_get str_eq_dec col (DictionaryGeneration.to_dict g)
         = nth_error descs i).
Proof.
  intros H. apply construct_ok_iff in H.
  destruct H as ((_ & Hnd & _ & Hlen & _) & ->).
  unfold DictionaryGeneration.to_dict.
  cbn [DictionaryGeneration.columns DictionaryGeneration.descriptions].
  assert (Hkeys : keys (combine cols descs) = cols)
    by (apply keys_combine; lia).
  rewrite dict_of_items_NoDup by now rewrite Hkeys.
  repeat split; [assumption|].
  intros i col Hi. apply dict_get_combine_nth; [assumption | lia | assumption].
Qed.

Lemma to_dict_pairs_witness :
  DictionaryGeneration.to_dict
    (DictionaryGeneration.mk [py "date"; py "amount"]
                             [py "the day of the sale"; py "the units sold"])
  = [(py "date", py "the day of the sale"); (py "amount", py "the units sold")].
Proof.
  apply (to_dict_pairs_columns_with_descriptions
           [py "date"; py "amount"]
           [py "the day of the sale"; py "the units sold"]).
  reflexivity.
Defined.

(** ** [AnalysisError] *)

Lemma not_none_app {A} (l1 l2 : list (option A)) :
  AnalysisError.not_none (l1 ++ l2)
  = AnalysisError.not_none l1 ++ AnalysisError.not_none l2.
Proof.
  induction l1 as [|[a|] l1 IH]; simpl; [reflexivity | now rewrite IH | exact IH].
Qed.

Lemma not_none_length {A} (l : list (option A)) :
  List.length (AnalysisError.not_none l) <= List.length l.
Proof.
  induction l as [|[a|] l IH]; simpl; lia.
Qed.

(** X3.  [AnalysisError.from_max_reflection_exception] keeps a missing
    history missing and an empty one empty.  Of a history it makes one
    [CodeExecutionError] per entry that is not [None], in the order of the
    entries: an entry [None] at the head adds nothing, an entry [e] at the
    head adds, at the head, the error with the code of [e], the text of its
    exception, its output, its error output and its traceback.  So the
    errors of [h1 + h2] are those of [h1] followed by those of [h2], there
    are as many as [h1] has entries that are not [None], and each has its
    [exception_str] set. *)
Theorem from_max_reflection_exception_keeps_the_failures
        (h1 h2 : list (option code_execution.InvalidGeneratedCode))
        (e : code_execution.InvalidGeneratedCode) :
  AnalysisError.from_max_reflection_exception (code_execution.mkMax None)
  = AnalysisError.mk None
  /\ AnalysisError.from_max_reflection_exception (code_execution.mkMax (Some []))
     = AnalysisError.mk (Some [])
  /\ exists l1 l2,
      AnalysisError.exception_history
        (AnalysisError.from_max_reflection_exception
           (code_execution.mkMax (Some h1))) = Some l1
      /\ AnalysisError.exception_history
           (AnalysisError.from_max_reflection_exception
              (code_execution.mkMax (Some h2))) = Some l2
      /\ AnalysisError.exception_history
           (AnalysisError.from_max_reflection_exception
              (code_execution.mkMax (Some (h1 ++ h2)))) = Some (l1 ++ l2)
      /\ AnalysisError.exception_history
           (AnalysisError.from_max_reflection_exception
              (code_execution.mkMax (Some (None :: h1)))) = Some l1
      /\ AnalysisError.exception_history
           (AnalysisError.from_max_reflection_exception
              (code_execution.mkMax (Some (Some e :: h1))))
         = Some (CodeExecutionError.mk
                   (code_execution.code e)
                   (Some (code_execution.message (code_execution.exception e)))
                   (code_execution.stdout e)
                   (code_execution.stderr e)
                   (code_execution.traceback_str e)
                 :: l1)
      /\ List.length l1 = List.length (filter recorded h1)
      /\ List.length l1 <= List.length h1
      /\ (Forall (fun e => e <> None) h1 -> List.length l1 = List.length h1)
      /\ Forall (fun s => CodeExecutionError.exception_str s <> None) l1.
Proof.
  split; [reflexivity|]. split; [reflexivity|].
  unfold AnalysisError.from_max_reflection_exception.
  cbn [code_execution.exception_history AnalysisError.exception_history].
  do 2 eexists. split; [reflexivity|]. split; [reflexivity|].
  split; [now rewrite not_none_app, map_app|].
  split; [reflexivity|]. split; [reflexivity|]. split; [|split; [|split]].
  - rewrite length_map.
    induction h1 as [|[x|] h IH]; simpl; [reflexivity | now rewrite IH | exact IH].
  - rewrite length_map. apply not_none_length.
  - intros Hall. rewrite length_map.
    induction Hall as [|[x|] h He _ IH]; simpl; [reflexivity | lia | congruence].
  - apply Forall_map. apply Forall_forall. intros x _. discriminate.
Qed.

(** ** What the frame of records stores *)

Lemma frame_index (r : list record) :
  pd.index (frame_of r)
  = match columns_of r with [] => 0 | _ :: _ => List.length r end.
Proof.
  unfold frame_of, frame_with. cbn [pd.index].
  now destruct (columns_of r).
Qed.

(** The records of a dataset built from mappings, row by row. *)
Lemma data_records_rows (name : str) (r : list record) :
  AnalystDataset.data_records (dataset_of name r) = rows_of r.
Proof.
  pose proof (columns_of_NoDup r) as Hnd.
  unfold dataset_of, AnalystDataset.data_records, DataFrameWrapper.to_dict,
    pd.to_dict_records, rows_of.
  cbn [AnalystDataset.data DataFrameWrapper.df].
  rewrite map_map. apply map_ext. intros i.
  unfold pd.row_items, frame_of, frame_with. cbn [pd.columns pd.data].
  rewrite map_map, combine_map, map_map. cbn [fst snd].
  fold (frame_of r).
  rewrite (dict_of_items_NoDup pd.label_eq_dec).
  2:{ unfold keys. rewrite map_map. cbn [fst]. now apply LStr_NoDup. }
  rewrite map_map. cbn [fst snd pd.label_str].
  rewrite dict_of_items_NoDup; [reflexivity|].
  unfold keys. rewrite map_map. cbn [fst]. now rewrite map_id.
Qed.

(** A stored column is the column itself or its cast to float. *)
Lemma stored_cases (vals : list scalar) :
  series_of vals
  = pd.mkSeries (pd.dtype_of (series_of vals)) vals
  \/ (series_of vals
      = pd.mkSeries pd.float64 (List.map pd.as_float vals)
      /\ pd.object_ (scan pd.seen0 vals) = false
      /\ pd.bool_seen (scan pd.seen0 vals) = false
      /\ vals <> []).
Proof.
  destruct vals as [|v vals]; [left; reflexivity|].
  unfold series_of, pd.converted.
  destruct (pd.object_ _) eqn:Eo; [left; reflexivity|].
  destruct (pd.bool_seen _) eqn:Eb; [left; now destruct (negb _)|].
  destruct (pd.null_ _ || pd.nan_ _).
  - destruct (pd.float_ _);
      [right; repeat split; try reflexivity; discriminate|].
    destruct (pd.int_ _ || pd.uint_ _);
      [right; repeat split; try reflexivity; discriminate|].
    destruct (pd.nan_ _);
      [right; repeat split; try reflexivity; discriminate | left; reflexivity].
  - destruct (pd.float_ _);
      [right; repeat split; try reflexivity; discriminate|].
    destruct (pd.int_ _); [left; now destruct (pd.uint_ _) | left; reflexivity].
Qed.

Lemma stored_length (vals : list scalar) :
  List.length (pd.values (series_of vals)) = List.length vals.
Proof.
  destruct (stored_cases vals) as [-> | (-> & _)]; cbn [pd.values];
    [reflexivity | apply length_map].
Qed.

(** Value by value: what is stored is the value or its cast. *)
Lemma stored_nth (vals : list scalar) (i : nat) :
  nth i (pd.values (series_of vals)) SNone = nth i vals SNone
  \/ (i < List.length vals
      /\ nth i (pd.values (series_of vals)) SNone
         = pd.as_float (nth i vals SNone)).
Proof.
  destruct (stored_cases vals) as [-> | (-> & _)]; cbn [pd.values];
    [now left|].
  destruct (Nat.lt_ge_cases i (List.length vals)) as [Hi|Hi].
  - right. split; [assumption|].
    rewrite (nth_indep _ SNone (pd.as_float SNone)) by now rewrite length_map.
    apply map_nth.
  - left. rewrite !nth_overflow; [reflexivity | assumption |].
    now rewrite length_map.
Qed.

(** ** Storing a stored column again *)

Lemma see_bool_mono (s : pd.Seen) (v : scalar) :
  pd.bool_seen s = true -> pd.bool_seen (pd.saw s v) = true.
Proof.
  destruct v as [|b|z|f|x]; try destruct f; simpl; try destruct (pd.null_ s);
    simpl; auto.
Qed.

Lemma see_all_bool_mono (vals : list scalar) :
  forall s, pd.bool_seen s = true -> pd.bool_seen (scan s vals) = true.
Proof.
  induction vals as [|v vals IH]; intros s H; [assumption|].
  cbn [scan]. pose proof (see_bool_mono s v H) as H'.
  destruct (pd.object_ (pd.saw s v)); [assumption | now apply IH].
Qed.

(** A column that stays numeric holds no [str] and no [bool]. *)
Lemma see_all_numeric (vals : list scalar) :
  forall s,
    pd.object_ (scan s vals) = false ->
    pd.bool_seen (scan s vals) = false ->
    forallb numeric_like vals = true.
Proof.
  induction vals as [|v vals IH]; intros s Ho Hb; [reflexivity|].
  cbn [scan] in Ho, Hb. cbn [forallb].
  destruct (pd.object_ (pd.saw s v)) eqn:E; [congruence|].
  rewrite (IH _ Ho Hb), andb_true_r.
  destruct v as [|b|z|f|x]; try reflexivity.
  - rewrite see_all_bool_mono in Hb; [discriminate | reflexivity].
  - simpl in E. discriminate.
Qed.

Lemma as_float_is_float (vals : list scalar) :
  forallb numeric_like vals = true ->
  forallb is_float (List.map pd.as_float vals) = true.
Proof.
  induction vals as [|v vals IH]; simpl; [reflexivity|].
  rewrite andb_true_iff. intros [Hv H]. rewrite (IH H), andb_true_r.
  destruct v; simpl in *; congruence.
Qed.

(** What a column of floats raises: the flags of floats, and nothing
    else. *)
Lemma see_all_floats (l : list scalar) :
  forallb is_float l = true ->
  forall s,
    pd.object_ s = false ->
    pd.object_ (scan s l) = false
    /\ pd.null_ (scan s l) = pd.null_ s
    /\ pd.bool_seen (scan s l) = pd.bool_seen s
    /\ pd.int_ (scan s l) = pd.int_ s
    /\ pd.uint_ (scan s l) = pd.uint_ s
    /\ (l <> [] ->
        pd.nan_ (scan s l) || pd.float_ (scan s l) = true)
    /\ (pd.nan_ s || pd.float_ s = true ->
        pd.nan_ (scan s l) || pd.float_ (scan s l) = true).
Proof.
  induction l as [|v l IH]; intros H s Ho.
  - cbn [scan]. repeat split; auto; congruence.
  - cbn [forallb] in H. apply andb_true_iff in H. destruct H as [Hv Hl].
    destruct v as [|b|z|f|x]; try discriminate.
    cbn [scan].
    assert (Hs : pd.object_ (pd.saw s (SFloat f)) = false
                 /\ pd.null_ (pd.saw s (SFloat f)) = pd.null_ s
                 /\ pd.bool_seen (pd.saw s (SFloat f)) = pd.bool_seen s
                 /\ pd.int_ (pd.saw s (SFloat f)) = pd.int_ s
                 /\ pd.uint_ (pd.saw s (SFloat f)) = pd.uint_ s
                 /\ pd.nan_ (pd.saw s (SFloat f))
                    || pd.float_ (pd.saw s (SFloat f)) = true).
    { destruct f; simpl; repeat split; auto using orb_true_r. }
    destruct Hs as (H1 & H2 & H3 & H4 & H5 & H6).
    rewrite H1.
    destruct (IH Hl (pd.saw s (SFloat f)) H1) as (I1 & I2 & I3 & I4 & I5 & _ & I7).
    repeat split; try congruence; auto.
Qed.

Lemma as_float_floats (l : list scalar) :
  forallb is_float l = true -> List.map pd.as_float l = l.
Proof.
  induction l as [|v l IH]; simpl; [reflexivity|].
  rewrite andb_true_iff. intros [Hv H]. rewrite (IH H).
  destruct v; simpl in *; congruence.
Qed.

Lemma maybe_convert_objects_floats (l : list scalar) :
  forallb is_float l = true -> l <> [] ->
  series_of l = pd.mkSeries pd.float64 l.
Proof.
  intros Hl Hne.
  destruct (see_all_floats l Hl pd.seen0 eq_refl)
    as (H1 & H2 & H3 & H4 & H5 & H6 & _).
  specialize (H6 Hne). cbn [pd.seen0 pd.null_ pd.bool_seen pd.int_ pd.uint_]
    in H2, H3, H4, H5.
  unfold series_of, pd.converted.
  rewrite H1, H2, H3, H4, H5, (as_float_floats l Hl). cbn [orb].
  destruct (pd.nan_ _), (pd.float_ _); try reflexivity; discriminate.
Qed.

(** Storing what a column stores changes nothing: neither a value nor the
    type. *)
Lemma maybe_convert_objects_idempotent (vals : list scalar) :
  series_of (pd.values (series_of vals))
  = series_of vals.
Proof.
  destruct (stored_cases vals) as [E | (E & Ho & Hb & Hne)].
  - rewrite E at 1. cbn [pd.values]. reflexivity.
  - rewrite E. cbn [pd.values].
    apply maybe_convert_objects_floats.
    + apply as_float_is_float. eapply see_all_numeric; eassumption.
    + destruct vals; [congruence | discriminate].
Qed.

(** ** A dataset and its records *)

Lemma dict_get_row (f : str -> scalar) (cols : list str) (c : str) :
  In c cols ->
  dict_get str_eq_dec c (List.map (fun x => (x, f x)) cols) = Some (f c).
Proof.
  induction cols as [|x cols IH]; simpl; [tauto|].
  destruct (str_eq_dec c x) as [->|Hne]; [reflexivity|].
  intros [H|H]; [congruence | auto].
Qed.

Lemma map_nth_seq {A} (l : list A) (d : A) :
  List.map (fun i => nth i l d) (seq 0 (List.length l)) = l.
Proof.
  rewrite (map_seq_nth (fun x => x) l d). apply map_id.
Qed.

Lemma stored_length_rows (r : list record) (c : str) :
  List.length (stored r c) = List.length r.
Proof.
  unfold stored. now rewrite stored_length, length_map.
Qed.

(** The frame of the records of a frame is that frame. *)
Lemma frame_of_rows (r : list record) : frame_of (rows_of r) = frame_of r.
Proof.
  pose proof (columns_of_NoDup r) as Hnd.
  pose proof (frame_index r) as Hidx.
  unfold rows_of. rewrite Hidx.
  destruct (columns_of r) as [|c0 cs] eqn:Ecols.
  - unfold frame_of. rewrite Ecols. reflexivity.
  - destruct r as [|d0 r]; [discriminate|].
    rewrite <- Ecols in *. set (n := List.length (d0 :: r)) in *.
    set (row := fun i => List.map (fun c => (c, nth i (stored (d0 :: r) c) SNone))
                                  (columns_of (d0 :: r))).
    assert (Hkeys : forall i, keys (row i) = columns_of (d0 :: r)).
    { intros i. unfold row, keys. rewrite map_map. apply map_id. }
    assert (Hcols : columns_of (List.map row (seq 0 n)) = columns_of (d0 :: r)).
    { unfold n. cbn [List.length seq List.map].
      rewrite columns_of_uniform; [apply Hkeys | now rewrite Hkeys |].
      apply Forall_forall. intros o Ho. apply in_map_iff in Ho.
      destruct Ho as (i & <- & _). now rewrite !Hkeys. }
    unfold frame_of at 1. rewrite Hcols, length_map, length_seq.
    unfold frame_of, frame_with. f_equal.
    + rewrite !map_map. apply map_ext_in. intros c Hc.
      rewrite <- (maybe_convert_objects_idempotent
                    (List.map (fun d => pd.cell d c) (d0 :: r))).
      f_equal. rewrite map_map.
      rewrite (map_ext _ (fun i => nth i (stored (d0 :: r) c) SNone)).
      2:{ intros i. unfold pd.cell, row.
          now rewrite (dict_get_row (fun c => nth i (stored (d0 :: r) c) SNone)). }
      unfold n. rewrite <- (stored_length_rows (d0 :: r) c).
      apply map_nth_seq.
    + rewrite Ecols. reflexivity.
Qed.

(** What is stored of a converted column is converted again: it is the
    column itself, or a column of floats. *)
Lemma stored_is_converted (vals : list scalar) :
  pd.maybe_convert_objects vals = Ok (series_of vals) ->
  pd.maybe_convert_objects (pd.values (series_of vals))
  = Ok (series_of (pd.values (series_of vals))).
Proof.
  intros H. destruct (stored_cases vals) as [E | (E & Ho & Hb & Hne)].
  - rewrite E. cbn [pd.values]. exact H.
  - rewrite E. cbn [pd.values]. apply maybe_convert_objects_castable.
    assert (Hf : forallb is_float (List.map pd.as_float vals) = true).
    { apply as_float_is_float. eapply see_all_numeric; eassumption. }
    rewrite forallb_forall in Hf. apply Forall_forall. intros v Hv.
    specialize (Hf v Hv). now destruct v.
Qed.

(** The records of the frame of [r] have the columns of [r], and in each
    what the frame stores. *)
Lemma rows_columns (r : list record) :
  columns_of r <> [] ->
  columns_of (rows_of r) = columns_of r
  /\ forall c, In c (columns_of r) ->
               List.map (fun d => pd.cell d c) (rows_of r) = stored r c.
Proof.
  intros Hne. pose proof (frame_index r) as Hidx.
  unfold rows_of. rewrite Hidx.
  destruct (columns_of r) as [|c0 cs] eqn:Ecols; [congruence|].
  destruct r as [|d0 r]; [discriminate|].
  rewrite <- Ecols in *. set (n := List.length (d0 :: r)) in *.
  set (row := fun i => List.map (fun c => (c, nth i (stored (d0 :: r) c) SNone))
                                (columns_of (d0 :: r))).
  assert (Hkeys : forall i, keys (row i) = columns_of (d0 :: r)).
  { intros i. unfold row, keys. rewrite map_map. apply map_id. }
  assert (Hcols : columns_of (List.map row (seq 0 n)) = columns_of (d0 :: r)).
  { pose proof (columns_of_NoDup (d0 :: r)) as Hnd.
    unfold n. cbn [List.length seq List.map].
    rewrite columns_of_uniform; [apply Hkeys | now rewrite Hkeys |].
    apply Forall_forall. intros o Ho. apply in_map_iff in Ho.
    destruct Ho as (i & <- & _). now rewrite !Hkeys. }
  split; [exact Hcols|].
  intros c Hc. rewrite map_map.
  rewrite (map_ext _ (fun i => nth i (stored (d0 :: r) c) SNone)).
  2:{ intros i. unfold pd.cell, row.
      now rewrite (dict_get_row (fun c => nth i (stored (d0 :: r) c) SNone)). }
  unfold n. rewrite <- (stored_length_rows (d0 :: r) c).
  apply map_nth_seq.
Qed.

(** The records of a frame whose arrays were converted give arrays that
    are converted. *)
Lemma rows_converted (r : list record) :
  all_converted (arrays_of r) -> all_converted (arrays_of (rows_of r)).
Proof.
  intros H. destruct (columns_of r) as [|c0 cs] eqn:E.
  - assert (Hrows : rows_of r = []).
    { unfold rows_of. rewrite frame_index, E. reflexivity. }
    rewrite Hrows. constructor.
  - destruct (rows_columns r) as [Hc Ha]; [rewrite E; discriminate|].
    unfold all_converted, arrays_of in *. rewrite Hc.
    apply Forall_map. apply Forall_map in H.
    rewrite Forall_forall in *. intros c Hin.
    rewrite (Ha c Hin). unfold stored. apply stored_is_converted.
    now apply H.
Qed.

(** X4.  A dataset built from a list of mappings survives its own
    serialized form: building a dataset from its name and its
    [data_records] alone (as when a dumped dataset is loaded) gives the
    dataset back, with the same frame, column types included. *)
Theorem dataset_is_rebuilt_from_its_records
        (name : option str) (r : list record) (d : AnalystDataset.t) :
  AnalystDataset.construct name
    (Some (DataFrameWrapper.Records (List.map pd.IDict r))) None = Ok d ->
  AnalystDataset.construct (Some (AnalystDataset.name d)) None
    (Some (List.map pd.IDict (AnalystDataset.data_records d))) = Ok d.
Proof.
  intros H. apply construct_from_records_inv in H. destruct H as [-> Hconv].
  cbn [AnalystDataset.name]. fold (dataset_of
    match name with Some n => n | None => py "analyst_dataset" end r).
  rewrite data_records_rows.
  unfold AnalystDataset.construct, AnalystDataset.reconstruct_data.
  rewrite from_records_dicts by now apply rows_converted.
  rewrite frame_of_rows. reflexivity.
Qed.

Lemma dataset_is_rebuilt_witness :
  AnalystDataset.construct (Some (py "sales")) None
    (Some (List.map pd.IDict
             (AnalystDataset.data_records
                (dataset_of (py "sales")
                   [[(py "amount", SInt 3)]; [(py "qty", SNone)]]))))
  = Ok (dataset_of (py "sales") [[(py "amount", SInt 3)]; [(py "qty", SNone)]]).
Proof.
  apply (dataset_is_rebuilt_from_its_records
           (Some (py "sales"))
           [[(py "amount", SInt 3)]; [(py "qty", SNone)]]
           (dataset_of (py "sales")
              [[(py "amount", SInt 3)]; [(py "qty", SNone)]])).
  reflexivity.
Defined.

(** X5.  A dataset whose frame has no rows has no records, whatever its
    columns; built again from its name and these records it has the empty
    frame, so its columns are lost on the way. *)
Theorem dataset_without_rows_loses_its_columns
        (name : str) (df : pd.DataFrame) :
  pd.index df = 0 ->
  exists d,
    AnalystDataset.construct (Some name) (Some (DataFrameWrapper.Frame df)) None
    = Ok d
    /\ AnalystDataset.columns d = pd.columns df
    /\ AnalystDataset.data_records d = []
    /\ AnalystDataset.construct (Some (AnalystDataset.name d)) None
         (Some (List.map pd.IDict (AnalystDataset.data_records d)))
       = Ok (AnalystDataset.mk name (DataFrameWrapper.mk pd.empty)).
Proof.
  intros Hidx. exists (AnalystDataset.mk name (DataFrameWrapper.mk df)).
  split; [reflexivity|].
  assert (Hrec : AnalystDataset.data_records
                   (AnalystDataset.mk name (DataFrameWrapper.mk df)) = []).
  { unfold AnalystDataset.data_records, DataFrameWrapper.to_dict,
      pd.to_dict_records.
    cbn [AnalystDataset.data DataFrameWrapper.df]. now rewrite Hidx. }
  rewrite Hrec. repeat split.
Qed.

Lemma dataset_without_rows_witness :
  exists d,
    AnalystDataset.construct (Some (py "sales"))
      (Some (DataFrameWrapper.Frame
               (pd.mkDataFrame [pd.LStr (py "date"); pd.LStr (py "amount")]
                               [pd.mkSeries pd.object []; pd.mkSeries pd.object []]
                               0)))
      None
    = Ok d
    /\ AnalystDataset.columns d = [pd.LStr (py "date"); pd.LStr (py "amount")]
    /\ AnalystDataset.data_records d = []
    /\ AnalystDataset.construct (Some (AnalystDataset.name d)) None
         (Some (List.map pd.IDict (AnalystDataset.data_records d)))
       = Ok (AnalystDataset.mk (py "sales") (DataFrameWrapper.mk pd.empty)).
Proof.
  apply (dataset_without_rows_loses_its_columns
           (py "sales")
           (pd.mkDataFrame [pd.LStr (py "date"); pd.LStr (py "amount")]
                           [pd.mkSeries pd.object []; pd.mkSeries pd.object []]
                           0)).
  reflexivity.
Defined.

(** ** The columns of mappings with different keys *)

Lemma add_keys_In (ks acc : list str) (k : str) :
  In k (fold_left (fun acc k => if in_dec str_eq_dec k acc then acc
                                else acc ++ [k]) ks acc)
  <-> In k acc \/ In k ks.
Proof.
  revert acc. induction ks as [|x ks IH]; intros acc; simpl; [tauto|].
  rewrite IH. destruct (in_dec str_eq_dec x acc) as [Hin|Hin].
  - split; [tauto|]. intros [H|[->|H]]; tauto.
  - rewrite in_app_iff. simpl. tauto.
Qed.

Lemma unique_keys_In (r : list record) :
  forall seen k,
    In k (pd.unique_keys seen r)
    <-> In k seen \/ exists d, In d r /\ In k (keys d).
Proof.
  induction r as [|d r IH]; intros seen k; simpl.
  - split; [tauto | intros [H|(d & [] & _)]; assumption].
  - rewrite IH, add_keys_In. split.
    + intros [[H|H]|(x & Hx & Hk)]; eauto.
    + intros [H|(x & [<-|Hx] & Hk)]; eauto.
Qed.

Lemma add_keys_prefix (ks acc : list str) :
  exists more,
    fold_left (fun acc k => if in_dec str_eq_dec k acc then acc
                            else acc ++ [k]) ks acc
    = acc ++ more.
Proof.
  revert acc. induction ks as [|x ks IH]; intros acc; simpl.
  - exists []. now rewrite app_nil_r.
  - destruct (in_dec str_eq_dec x acc); [apply IH|].
    destruct (IH (acc ++ [x])) as [more ->].
    exists (x :: more). now rewrite <- app_assoc.
Qed.

Lemma unique_keys_prefix (r : list record) :
  forall seen, exists more, pd.unique_keys seen r = seen ++ more.
Proof.
  induction r as [|d r IH]; intros seen; simpl.
  - exists []. now rewrite app_nil_r.
  - destruct (add_keys_prefix (keys d) seen) as [m1 ->].
    destruct (IH (seen ++ m1)) as [m2 ->].
    exists (m1 ++ m2). now rewrite app_assoc.
Qed.

(** The first key of the first mapping is the first column. *)
Lemma columns_of_first (k : str) (v : scalar) (items : record)
      (rest : list record) :
  exists more, columns_of (((k, v) :: items) :: rest) = k :: more.
Proof.
  unfold columns_of. cbn [pd.unique_keys]. unfold keys at 1.
  cbn [List.map fst fold_left].
  destruct (in_dec str_eq_dec k []) as [[]|_]. cbn [app].
  destruct (add_keys_prefix (List.map fst items) [k]) as [m1 ->].
  destruct (unique_keys_prefix rest ([k] ++ m1)) as [m2 ->].
  eexists. reflexivity.
Qed.

(** X6.  For mappings with any keys, the same or not, all of whose ints
    can be cast to a double, the dataset is built.  Whenever it is built,
    its columns are the keys of the mappings, each once: a name is a column
    exactly when some mapping has it as a key, and the keys of the first
    mapping come first, in its order.  It is not built when the first
    value of the first mapping is an int too large for a double: the
    construction fails with the validation error of
    [DataFrameWrapper.validate]. *)
Theorem columns_are_the_keys_by_first_appearance
        (name : option str) (r : list record) :
  Forall ints_cast r ->
  (exists d,
      AnalystDataset.construct name
        (Some (DataFrameWrapper.Records (List.map pd.IDict r))) None = Ok d
      /\ NoDup (AnalystDataset.columns d)
      /\ (forall k,
             In (pd.LStr k) (AnalystDataset.columns d)
             <-> exists rec, In rec r /\ In k (keys rec))
      /\ (forall first rest,
             r = first :: rest -> NoDup (keys first) ->
             exists more,
               AnalystDataset.columns d
               = List.map pd.LStr (keys first ++ more)))
  /\ (forall k z items,
         pd.fits_double z = false ->
         AnalystDataset.construct name
           (Some (DataFrameWrapper.Records
                    (List.map pd.IDict (((k, SInt z) :: items) :: r)))) None
         = Raise (ValidationError
                    ["Invalid data format; expecting a list of records"%string])).
Proof.
  intros Hcast. split.
  - rewrite construct_from_records by now apply ints_cast_converted.
    eexists. split; [reflexivity|].
    unfold AnalystDataset.columns, AnalystDataset.to_df, frame_of, frame_with.
    cbn [AnalystDataset.data DataFrameWrapper.df pd.columns]. repeat split.
    + apply LStr_NoDup, columns_of_NoDup.
    + intros H. apply in_map_iff in H. destruct H as (x & E & Hx). inv E.
      apply unique_keys_In in Hx. destruct Hx as [[]|Hx]. exact Hx.
    + intros H. apply in_map. apply unique_keys_In. now right.
    + intros first rest -> Hnd. unfold columns_of. simpl.
      rewrite (add_keys_fresh (keys first) []) by assumption. simpl.
      destruct (unique_keys_prefix rest (keys first)) as [more ->]. eauto.
  - intros k z items Hz.
    unfold AnalystDataset.construct. cbn [AnalystDataset.reconstruct_data].
    unfold DataFrameWrapper.validate.
    rewrite from_records_of_arrays.
    destruct (columns_of_first k (SInt z) items r) as [more Hcols].
    unfold pd.of_arrays, arrays_of. rewrite Hcols. cbn [List.map traverse].
    unfold pd.cell at 1. cbn [dict_get].
    destruct (str_eq_dec k k) as [_|Hne]; [|congruence].
    now rewrite maybe_convert_objects_overflow.
Qed.

Lemma columns_by_first_appearance_witness :
  exists d,
    AnalystDataset.construct (Some (py "sales"))
      (Some (DataFrameWrapper.Records
               (List.map pd.IDict
                  [[(py "amount", SInt 3)];
                   [(py "qty", SInt 1); (py "amount", SInt 4)]]))) None
    = Ok d
    /\ NoDup (AnalystDataset.columns d)
    /\ AnalystDataset.columns d = [pd.LStr (py "amount"); pd.LStr (py "qty")].
Proof.
  destruct (columns_are_the_keys_by_first_appearance
              (Some (py "sales"))
              [[(py "amount", SInt 3)];
               [(py "qty", SInt 1); (py "amount", SInt 4)]])
    as [(d & Hd & Hnd & _) _].
  - repeat constructor.
  - exists d. split; [exact Hd|]. split; [exact Hnd|].
    vm_compute in Hd. injection Hd as <-. reflexivity.
Defined.

(** X7.  For mappings with at least one key among them, [data_records]
    gives one record per mapping, in order, each over all the columns in
    column order.  Where the mapping has no such key the record has NaN;
    where it has a value the record has that value or its cast to float
    ([None] as NaN, an int as the float of it). *)
Theorem data_records_fill_missing_keys_with_nan
        (name : option str) (r : list record) (ds : AnalystDataset.t) :
  AnalystDataset.construct name
    (Some (DataFrameWrapper.Records (List.map pd.IDict r))) None = Ok ds ->
  AnalystDataset.columns ds <> [] ->
  List.length (AnalystDataset.data_records ds) = List.length r
  /\ forall i d,
      nth_error r i = Some d ->
      exists o,
        nth_error (AnalystDataset.data_records ds) i = Some o
        /\ List.map pd.LStr (keys o) = AnalystDataset.columns ds
        /\ forall c,
            In (pd.LStr c) (AnalystDataset.columns ds) ->
            (dict_get str_eq_dec c d = None ->
             dict_get str_eq_dec c o = Some (SFloat nan))
            /\ (forall v,
                   dict_get str_eq_dec c d = Some v ->
                   dict_get str_eq_dec c o = Some v
                   \/ dict_get str_eq_dec c o = Some (pd.as_float v)).
Proof.
  intros H Hne. apply construct_from_records_inv in H. destruct H as [-> _].
  fold (dataset_of match name with Some n => n | None => py "analyst_dataset" end r)
    in *.
  rewrite data_records_rows. unfold rows_of. rewrite frame_index.
  unfold AnalystDataset.columns, AnalystDataset.to_df, dataset_of, frame_of,
    frame_with in *.
  cbn [AnalystDataset.data DataFrameWrapper.df pd.columns] in *.
  destruct (columns_of r) as [|c0 cs] eqn:Ecols; [now elim Hne|].
  rewrite <- Ecols in *. clear Hne.
  split; [now rewrite length_map, length_seq|].
  intros i d Hi.
  assert (Hlt : i < List.length r) by (apply nth_error_Some; congruence).
  eexists. split.
  { rewrite nth_error_map, nth_error_seq.
    destruct (Nat.ltb_spec i (List.length r)); [reflexivity | lia]. }
  split.
  { unfold keys. f_equal. rewrite map_map. cbn [fst]. apply map_id. }
  intros c Hc. apply in_map_iff in Hc. destruct Hc as (x & E & Hc). inv E.
  cbn [Nat.add].
  rewrite (dict_get_row (fun c => nth i (stored r c) SNone) (columns_of r) c Hc).
  assert (Hcell : nth i (List.map (fun d => pd.cell d c) r) SNone = pd.cell d c).
  { rewrite (nth_indep _ SNone (pd.cell [] c)) by now rewrite length_map.
    rewrite (map_nth (fun d => pd.cell d c)).
    f_equal. now apply nth_error_nth. }
  unfold stored.
  destruct (stored_nth (List.map (fun d => pd.cell d c) r) i) as [E | [_ E]];
    rewrite E, Hcell; unfold pd.cell; split.
  - now intros ->.
  - intros v ->. now left.
  - now intros ->.
  - intros v ->. now right.
Qed.

Lemma data_records_fill_witness :
  List.length (AnalystDataset.data_records
                 (dataset_of (py "sales")
                    [[(py "amount", SInt 3)]; [(py "qty", SInt 1)]]))
  = 2.
Proof.
  apply (data_records_fill_missing_keys_with_nan
           (Some (py "sales"))
           [[(py "amount", SInt 3)]; [(py "qty", SInt 1)]]
           (dataset_of (py "sales")
              [[(py "amount", SInt 3)]; [(py "qty", SInt 1)]])).
  - reflexivity.
  - discriminate.
Defined.

(** ** [DataDictionary]: from and to frames *)

Lemma for_each_raises {A B} (f : A -> result B) (l : list A) (a : A) :
  In a l -> (exists e, f a = Raise e) ->
  exists e, DataDictionary.for_each f l = Raise e.
Proof.
  intros Hin [e He]. induction l as [|x l IH]; [easy|]. simpl.
  destruct (f x) as [b|e'] eqn:Ex; simpl; [|eauto].
  destruct Hin as [->|Hin]; [congruence|].
  destruct (IH Hin) as [e'' ->]. simpl. eauto.
Qed.

Lemma describe_inv (df : pd.DataFrame) (description : str) (col : pd.label)
      (c : DataDictionaryColumn.t) :
  DataDictionary.describe df description col = Ok c ->
  exists s,
    pd.getitem df col = Some s
    /\ col = pd.LStr (DataDictionaryColumn.column c)
    /\ DataDictionaryColumn.description c = description
    /\ DataDictionaryColumn.data_type c = pd.dtype_str (pd.dtype_of s).
Proof.
  unfold DataDictionary.describe.
  destruct (pd.getitem df col) as [s|]; [|discriminate].
  destruct col as [x|i]; simpl; intros H; inv H. exists s. repeat split.
Qed.

Lemma describe_raises (df : pd.DataFrame) (description : str) (col : pd.label) :
  pd.count_label df col <> 1 \/ (exists i, col = pd.LInt i) ->
  exists e, DataDictionary.describe df description col = Raise e.
Proof.
  unfold DataDictionary.describe, pd.getitem. intros [H|[i ->]].
  - apply Nat.eqb_neq in H. rewrite H. eauto.
  - destruct (pd.count_label df (pd.LInt i) =? 1);
      [destruct (dict_get _ _ _)|]; eexists; reflexivity.
Qed.

(** X8.  A dictionary that [from_analyst_df] returns has the given name
    (["analysis_result"] by default) and one description per column of the
    frame, in order: the label as the column, the given text (["Analysis
    result column"] by default) as the description, and the name of the
    type of the column as the data type.  It returns none, but raises,
    when a label of the frame is a number or names more than one column. *)
Theorem from_analyst_df_describes_each_column
        (df : pd.DataFrame) (name description : option str) :
  (forall d,
      DataDictionary.from_analyst_df df name description = Ok d ->
      DataDictionary.name d
      = match name with Some n => n | None => py "analysis_result" end
      /\ Forall2
           (fun col c =>
              col = pd.LStr (DataDictionaryColumn.column c)
              /\ DataDictionaryColumn.description c
                 = match description with
                   | Some t => t
                   | None => py "Analysis result column"
                   end
              /\ exists s,
                  pd.getitem df col = Some s
                  /\ DataDictionaryColumn.data_type c
                     = pd.dtype_str (pd.dtype_of s))
           (pd.columns df) (DataDictionary.column_descriptions d))
  /\ (forall col,
         In col (pd.columns df) ->
         pd.count_label df col <> 1 \/ (exists i, col = pd.LInt i) ->
         exists e, DataDictionary.from_analyst_df df name description = Raise e).
Proof.
  unfold DataDictionary.from_analyst_df. split.
  - intros d.
    destruct (DataDictionary.for_each _ (pd.columns df)) as [cols|e] eqn:E;
      simpl; [|discriminate].
    intros H. inv H. cbn [DataDictionary.name DataDictionary.column_descriptions].
    split; [reflexivity|].
    apply for_each_ok_length in E.
    induction E as [|col c l cs H _ IH]; constructor; [|exact IH].
    apply describe_inv in H. destruct H as (s & H1 & H2 & H3 & H4). eauto.
  - intros col Hin Hbad.
    match goal with
    | |- context [DataDictionary.for_each ?f ?l] =>
        destruct (for_each_raises f l col Hin) as [e ->]
    end; [now apply describe_raises | simpl; eauto].
Qed.

Lemma in_three_columns (df : pd.DataFrame) :
  forallb (fun c => if in_dec pd.label_eq_dec (pd.LStr c) (pd.columns df)
                    then true else false)
          [py "column"; py "description"; py "data_type"] = true
  <-> In (pd.LStr (py "column")) (pd.columns df)
      /\ In (pd.LStr (py "description")) (pd.columns df)
      /\ In (pd.LStr (py "data_type")) (pd.columns df).
Proof.
  cbn [forallb]. rewrite !andb_true_iff.
  repeat match goal with
         | |- context [in_dec ?d ?x ?l] => destruct (in_dec d x l)
         end; intuition discriminate.
Qed.

(** X9.  [from_application_df] raises [ValueError] when the frame lacks one
    of the columns ["column"], ["description"], ["data_type"].  With the
    three columns it returns a dictionary only with one description per
    row of the frame, under the given name; and it raises when, in some
    row, the cell of one of the three columns is not a string. *)
Theorem from_application_df_needs_three_columns_of_strings
        (df : pd.DataFrame) (name : option str) :
  (~ (In (pd.LStr (py "column")) (pd.columns df)
      /\ In (pd.LStr (py "description")) (pd.columns df)
      /\ In (pd.LStr (py "data_type")) (pd.columns df)) ->
   exists msg,
     DataDictionary.from_application_df df name = Raise (ValueError msg))
  /\ (forall d,
         DataDictionary.from_application_df df name = Ok d ->
         DataDictionary.name d
         = match name with Some n => n | None => py "analysis_result" end
         /\ List.length (DataDictionary.column_descriptions d) = pd.index df)
  /\ (forall i col,
         i < pd.index df ->
         In col [py "column"; py "description"; py "data_type"] ->
         (forall s, DataDictionary.row_get df i col <> SStr s) ->
         exists e, DataDictionary.from_application_df df name = Raise e).
Proof.
  unfold DataDictionary.from_application_df.
  destruct (forallb _ _) eqn:E.
  - apply in_three_columns in E. repeat split.
    + tauto.
    + destruct (DataDictionary.for_each _ _) as [cols|e]; simpl in H;
        [now inv H | discriminate].
    + destruct (DataDictionary.for_each _ _) as [cols|e] eqn:Ef; simpl in H;
        [|discriminate].
      inv H. cbn [DataDictionary.column_descriptions].
      apply for_each_ok_length in Ef. apply Forall2_length in Ef.
      now rewrite length_seq in Ef.
    + intros i col Hi Hcol Hcell.
      match goal with
      | |- context [DataDictionary.for_each ?f ?l] =>
          destruct (for_each_raises f l i) as [e He]
      end.
      * apply in_seq. lia.
      * unfold DataDictionaryColumn.construct.
        assert (Hbad : exists e, validate_str (DataDictionary.row_get df i col)
                                 = Raise e).
        { destruct (DataDictionary.row_get df i col) as [| | | |s]; simpl; eauto.
          now elim (Hcell s). }
        destruct Hbad as [e Hbad].
        destruct Hcol as [<-|[<-|[<-|[]]]]; rewrite Hbad;
          repeat match goal with
                 | |- context [match validate_str ?x with _ => _ end] =>
                     destruct (validate_str x)
                 end; eauto.
      * rewrite He. simpl. eauto.
  - assert (Hn : ~ (In (pd.LStr (py "column")) (pd.columns df)
                    /\ In (pd.LStr (py "description")) (pd.columns df)
                    /\ In (pd.LStr (py "data_type")) (pd.columns df))).
    { rewrite <- in_three_columns. congruence. }
    repeat split; try discriminate; eauto.
Qed.

(** X10.  [to_application_df] never raises: it gives a frame with the three
    columns ["column"], ["description"], ["data_type"], in this order, and
    one row per column description, the three cells of a row being the
    column, the description and the data type of that description.  The
    columns are of type [object] when the dictionary has a description; of
    a dictionary without descriptions they are empty and of type
    [float64]. *)
Theorem to_application_df_has_one_row_per_description (d : DataDictionary.t) :
  exists df,
    DataDictionary.to_application_df d = Ok df
    /\ pd.columns df
       = [pd.LStr (py "column"); pd.LStr (py "description");
          pd.LStr (py "data_type")]
    /\ pd.index df = List.length (DataDictionary.column_descriptions d)
    /\ Forall (fun s =>
                 pd.dtype_of s
                 = match DataDictionary.column_descriptions d with
                   | [] => pd.float64
                   | _ :: _ => pd.object
                   end
                 /\ List.length (pd.values s) = pd.index df)
              (pd.data df)
    /\ (forall i c,
           nth_error (DataDictionary.column_descriptions d) i = Some c ->
           DataDictionary.row_get df i (py "column")
           = SStr (DataDictionaryColumn.column c)
           /\ DataDictionary.row_get df i (py "description")
              = SStr (DataDictionaryColumn.description c)
           /\ DataDictionary.row_get df i (py "data_type")
              = SStr (DataDictionaryColumn.data_type c)).
Proof.
  rewrite to_application_df_frame.
  eexists. split; [reflexivity|].
  cbn [pd.columns pd.index pd.data List.map].
  split; [reflexivity|]. split; [reflexivity|]. split.
  - repeat constructor; cbn [pd.values pd.dtype_of]; apply length_map.
  - intros i c Hi.
    assert (Hlt : i < List.length (DataDictionary.column_descriptions d))
      by (apply nth_error_Some; congruence).
    unfold DataDictionary.row_get.
    set (cds := DataDictionary.column_descriptions d) in *.
    set (ty := match cds with [] => pd.float64 | _ :: _ => pd.object end).
    replace (pd.getitem _ (pd.LStr (py "data_type")))
      with (Some (pd.mkSeries ty
                    (List.map (fun c => SStr (DataDictionaryColumn.data_type c)) cds)))
      by reflexivity.
    replace (pd.getitem _ (pd.LStr (py "column")))
      with (Some (pd.mkSeries ty
                    (List.map (fun c => SStr (DataDictionaryColumn.column c)) cds)))
      by reflexivity.
    replace (pd.getitem _ (pd.LStr (py "description")))
      with (Some (pd.mkSeries ty
                    (List.map (fun c => SStr (DataDictionaryColumn.description c)) cds)))
      by reflexivity.
    cbn [pd.values].
    rewrite !(@nth_map_SStr _ _ cds no_column i Hlt).
    rewrite (nth_error_nth _ _ no_column Hi). repeat split.
Qed.

(** * Properties of the page *)

Lemma not_in_spec (name : str) (names : list str) :
  page.not_in name names = true <-> ~ In name names.
Proof.
  unfold page.not_in. rewrite negb_true_iff. split.
  - intros H Hin. rewrite <- not_true_iff_false in H. apply H.
    apply existsb_exists. exists name. split; [assumption | apply str_eqb_refl].
  - intros H. apply not_true_iff_false. intros E.
    apply existsb_exists in E. destruct E as (x & Hx & E).
    apply str_eqb_eq in E. congruence.
Qed.

Lemma NoDup_map_filter {A B} (f : A -> B) (p : A -> bool) (l : list A) :
  NoDup (List.map f l) -> NoDup (List.map f (filter p l)).
Proof.
  induction l as [|a l IH]; simpl; intros H; [constructor|].
  inversion H as [|? ? Ha Hl]; subst.
  destruct (p a); [|auto]. simpl. constructor; [|auto].
  intros Hin. apply Ha. apply in_map_iff in Hin.
  destruct Hin as (x & E & Hx). apply filter_In in Hx.
  apply in_map_iff. exists x. tauto.
Qed.

Lemma kept_names {A} (f : A -> str) (names : list str) (l : list A) (n : str) :
  In n (List.map f (filter (fun x => page.not_in (f x) names) l))
  <-> In n (List.map f l) /\ ~ In n names.
Proof.
  rewrite !in_map_iff. split.
  - intros (x & <- & Hx). apply filter_In in Hx. destruct Hx as [Hx Hn].
    apply not_in_spec in Hn. eauto.
  - intros [(x & <- & Hx) Hn]. exists x. split; [reflexivity|].
    apply filter_In. split; [assumption | now apply not_in_spec].
Qed.

Section PageFacts.

Variable cleanse_dataframes :
  list AnalystDataset.t -> result (list CleansedDataset.t).
Variable get_dictionaries :
  list AnalystDataset.t -> result (list DataDictionary.t).
Variable process_uploaded_file : page.UploadedFile -> list AnalystDataset.t.

Abbreviation process :=
  (page.process_data_and_update_state cleanse_dataframes get_dictionaries).

(** The datasets the state holds after an update: the old ones under other
    names, then the analysed ones, which are called as the new ones when
    the cleanser keeps the names. *)
Lemma datasets_after_update (st : page.SessionState)
      (new : list AnalystDataset.t) :
  keeps_names cleanse_dataframes ->
  exists analysed,
    page.datasets (fst (process st new))
    = filter (fun ds => page.not_in (AnalystDataset.name ds)
                                    (List.map AnalystDataset.name new))
             (page.datasets st)
      ++ analysed
    /\ List.map AnalystDataset.name analysed = List.map AnalystDataset.name new.
Proof.
  intros Hkeep. unfold page.process_data_and_update_state.
  cbn [fst page.datasets].
  destruct (page.not_database (page.data_source st));
    [destruct (cleanse_dataframes new) as [c|e] eqn:Ec|];
    cbn [fst snd]; eexists; split; try reflexivity.
  rewrite map_map. exact (Hkeep new c Ec).
Qed.

(** X11.  When the cleanser keeps the names, an update replaces datasets by
    name: the names of the datasets in the state stay distinct, a name is
    in the state after the update exactly when it was there before or is
    the name of a new dataset, and the datasets under the new names are the
    ones of this update, after the old ones that were kept. *)
Theorem update_replaces_datasets_by_name
        (st : page.SessionState) (new : list AnalystDataset.t) :
  keeps_names cleanse_dataframes ->
  NoDup (List.map AnalystDataset.name (page.datasets st)) ->
  NoDup (List.map AnalystDataset.name new) ->
  NoDup (List.map AnalystDataset.name (page.datasets (fst (process st new))))
  /\ (forall n,
         In n (List.map AnalystDataset.name
                        (page.datasets (fst (process st new))))
         <-> In n (List.map AnalystDataset.name (page.datasets st))
             \/ In n (List.map AnalystDataset.name new))
  /\ exists analysed,
      page.datasets (fst (process st new))
      = filter (fun ds => page.not_in (AnalystDataset.name ds)
                                      (List.map AnalystDataset.name new))
               (page.datasets st)
        ++ analysed
      /\ List.map AnalystDataset.name analysed
         = List.map AnalystDataset.name new.
Proof.
  intros Hkeep Hold Hnew.
  destruct (datasets_after_update st new Hkeep) as (analysed & E & Hnames).
  rewrite E, map_app, Hnames. repeat split.
  - apply NoDup_app; [now apply NoDup_map_filter | assumption |].
    intros n Hn. now apply kept_names in Hn.
  - intros Hn. apply in_app_iff in Hn. destruct Hn as [Hn|Hn]; [|now right].
    apply kept_names in Hn. now left.
  - intros [Hn|Hn]; apply in_app_iff.
    + destruct (in_dec str_eq_dec n (List.map AnalystDataset.name new));
        [now right | left]. now apply kept_names.
    + now right.
  - exists analysed. now rewrite Hnames.
Qed.

(** X12.  An update never removes or replaces a dictionary: the
    dictionaries of the state stay where they are, and what is added after
    them has names that were not there before.  (So a dataset loaded again
    under its name keeps the dictionary of the first load.)  When the
    warning is shown the dictionaries are those of before. *)
Theorem update_keeps_the_dictionaries
        (st : page.SessionState) (new : list AnalystDataset.t) :
  exists added,
    page.data_dictionaries (fst (process st new))
    = page.data_dictionaries st ++ added
    /\ Forall (fun d => ~ In (DataDictionary.name d)
                             (List.map DataDictionary.name
                                       (page.data_dictionaries st)))
              added
    /\ (In page.Warning (snd (process st new)) -> added = []).
Proof.
  unfold page.process_data_and_update_state.
  cbn [fst snd page.data_dictionaries].
  destruct (get_dictionaries _) as [ds|e]; cbn [fst snd].
  - eexists. split; [reflexivity|]. split.
    + apply Forall_forall. intros d Hd. apply filter_In in Hd.
      now apply not_in_spec.
    + intros Hw. exfalso. rewrite !in_app_iff in Hw.
      destruct Hw as [Hw|[Hw|[Hw|Hw]]].
      * apply in_map_iff in Hw. destruct Hw as (x & Hx & _). discriminate.
      * destruct (page.not_database _);
          [destruct (cleanse_dataframes new)|]; cbn [snd] in Hw;
          try destruct Hw as [Hw|[]]; try discriminate; assumption.
      * destruct Hw.
      * destruct ds; [destruct Hw | destruct Hw as [Hw|[]]; discriminate].
  - exists []. rewrite app_nil_r. repeat split. constructor.
Qed.

(** ** Files are processed once *)

Abbreviation upload_one :=
  (page.upload_one cleanse_dataframes get_dictionaries process_uploaded_file).
Abbreviation uploaded_file_callback :=
  (page.uploaded_file_callback cleanse_dataframes get_dictionaries
                               process_uploaded_file).

Lemma in_ids (x : str) (ids : list str) :
  existsb (str_eqb x) ids = true <-> In x ids.
Proof.
  rewrite existsb_exists. split.
  - intros (y & Hy & E). apply str_eqb_eq in E. now subst.
  - intros H. exists x. split; [assumption | apply str_eqb_refl].
Qed.

Lemma upload_one_keeps (acc : page.SessionState * list page.notification)
      (file : page.UploadedFile) :
  page.data_source (fst (upload_one acc file)) = page.data_source (fst acc)
  /\ incl (page.processed_file_ids (fst acc))
          (page.processed_file_ids (fst (upload_one acc file)))
  /\ In (page.file_id file)
        (page.processed_file_ids (fst (upload_one acc file))).
Proof.
  unfold page.upload_one.
  destruct (existsb _ _) eqn:E.
  - repeat split; [apply incl_refl | now apply in_ids].
  - cbn [fst page.data_source page.processed_file_ids].
    unfold page.process_data_and_update_state.
    cbn [fst page.data_source page.processed_file_ids]. repeat split.
    + apply incl_appl, incl_refl.
    + apply in_or_app. right. now left.
Qed.

Lemma uploads_keep (files : list page.UploadedFile) :
  forall acc,
    page.data_source (fst (fold_left upload_one files acc))
    = page.data_source (fst acc)
    /\ incl (page.processed_file_ids (fst acc))
            (page.processed_file_ids (fst (fold_left upload_one files acc)))
    /\ forall f, In f files ->
                 In (page.file_id f)
                    (page.processed_file_ids
                       (fst (fold_left upload_one files acc))).
Proof.
  induction files as [|file files IH]; intros acc; simpl.
  - repeat split; [apply incl_refl | tauto].
  - destruct (IH (upload_one acc file)) as (I1 & I2 & I3).
    destruct (upload_one_keeps acc file) as (H1 & H2 & H3).
    repeat split.
    + congruence.
    + eapply incl_tran; eassumption.
    + intros f [<-|Hf]; [apply I2, H3 | now apply I3].
Qed.

Lemma uploads_skip (files : list page.UploadedFile) :
  forall acc,
    (forall f, In f files ->
               In (page.file_id f) (page.processed_file_ids (fst acc))) ->
    fold_left upload_one files acc = acc.
Proof.
  induction files as [|file files IH]; intros acc H; simpl; [reflexivity|].
  assert (E : upload_one acc file = acc).
  { unfold page.upload_one.
    rewrite (proj2 (in_ids _ _) (H file (or_introl eq_refl))). reflexivity. }
  rewrite E. apply IH. intros f Hf. apply H. now right.
Qed.

(** X13.  A file is processed once: after [uploaded_file_callback] has run
    on some files, running it again on the same files changes nothing in
    the state and shows nothing, and the identifier of every file is among
    the processed ones. *)
Theorem uploaded_files_are_processed_once
        (st : page.SessionState) (files : list page.UploadedFile) :
  uploaded_file_callback (fst (uploaded_file_callback st files)) files
  = (fst (uploaded_file_callback st files), [])
  /\ (forall f, In f files ->
                In (page.file_id f)
                   (page.processed_file_ids
                      (fst (uploaded_file_callback st files))))
  /\ page.data_source (fst (uploaded_file_callback st files))
     = Some page.FILE.
Proof.
  unfold page.uploaded_file_callback.
  set (a := (page.mkState (page.datasets st) (page.cleansed_data st)
                          (page.data_dictionaries st) (Some page.FILE)
                          (page.processed_file_ids st),
             @nil page.notification)).
  destruct (uploads_keep files a) as (Hsrc & _ & Hids).
  set (r := fold_left upload_one files a) in *.
  unfold a in Hsrc. cbn [fst page.data_source] in Hsrc.
  repeat split; [|exact Hids | exact Hsrc].
  rewrite <- Hsrc.
  replace (page.mkState (page.datasets (fst r)) (page.cleansed_data (fst r))
                        (page.data_dictionaries (fst r))
                        (page.data_source (fst r))
                        (page.processed_file_ids (fst r)))
    with (fst r) by now destruct (fst r).
  apply uploads_skip. exact Hids.
Qed.

(** ** The cleaning report that is shown *)

Lemma find_cleaning_report_app (l1 l2 : list CleansedDataset.t) (name : str) :
  page.find_cleaning_report (l1 ++ l2) name
  = match page.find_cleaning_report l1 name with
    | Some report => Some report
    | None => page.find_cleaning_report l2 name
    end.
Proof.
  induction l1 as [|c l1 IH]; simpl; [reflexivity|].
  destruct (str_eqb (CleansedDataset.name c) name); [reflexivity | exact IH].
Qed.

Lemma find_cleaning_report_none (l : list CleansedDataset.t) (name : str) :
  ~ In name (List.map CleansedDataset.name l) ->
  page.find_cleaning_report l name = None.
Proof.
  induction l as [|c l IH]; simpl; intros H; [reflexivity|].
  destruct (str_eqb (CleansedDataset.name c) name) eqn:E.
  - apply str_eqb_eq in E. tauto.
  - apply IH. tauto.
Qed.

Lemma find_cleaning_report_unique (l : list CleansedDataset.t)
      (c : CleansedDataset.t) :
  NoDup (List.map CleansedDataset.name l) -> In c l ->
  page.find_cleaning_report l (CleansedDataset.name c)
  = Some (CleansedDataset.cleaning_report c).
Proof.
  induction l as [|x l IH]; simpl; intros Hnd Hin; [easy|].
  inversion Hnd as [|? ? Hx Hl]; subst.
  destruct Hin as [->|Hin]; [now rewrite str_eqb_refl|].
  destruct (str_eqb (CleansedDataset.name x) (CleansedDataset.name c)) eqn:E.
  - apply str_eqb_eq in E. exfalso. apply Hx. rewrite E. now apply in_map.
  - now apply IH.
Qed.

(** X14.  After an update from files or the catalog whose cleansing
    succeeds and keeps the names, the cleaning report found for each
    dataset of the update is the report of this cleansing, not one of an
    earlier load under the same name. *)
Theorem update_shows_the_new_cleaning_report
        (st : page.SessionState) (new : list AnalystDataset.t)
        (cleansed : list CleansedDataset.t) (c : CleansedDataset.t) :
  page.not_database (page.data_source st) = true ->
  cleanse_dataframes new = Ok cleansed ->
  List.map CleansedDataset.name cleansed = List.map AnalystDataset.name new ->
  NoDup (List.map AnalystDataset.name new) ->
  In c cleansed ->
  page.find_cleaning_report (page.cleansed_data (fst (process st new)))
                            (CleansedDataset.name c)
  = Some (CleansedDataset.cleaning_report c).
Proof.
  intros Hsrc Hc Hnames Hnd Hin.
  unfold page.process_data_and_update_state.
  cbn [fst page.cleansed_data]. rewrite Hsrc, Hc. cbn [fst].
  rewrite find_cleaning_report_app, find_cleaning_report_none.
  - apply find_cleaning_report_unique; [now rewrite Hnames | assumption].
  - intros H. apply kept_names in H. destruct H as [_ H]. apply H.
    rewrite <- Hnames. now apply in_map.
Qed.

End PageFacts.

Lemma keep_as_it_is_keeps_names : keeps_names keep_as_it_is.
Proof.
  intros l c H. inv H. rewrite map_map. reflexivity.
Qed.

Lemma update_replaces_witness :
  NoDup (List.map AnalystDataset.name
           (page.datasets
              (fst (page.process_data_and_update_state
                      keep_as_it_is no_dictionary loaded_once [two_sales]))))
  /\ page.datasets
       (fst (page.process_data_and_update_state
               keep_as_it_is no_dictionary loaded_once [two_sales]))
     = [two_sales].
Proof.
  split; [|reflexivity].
  apply (update_replaces_datasets_by_name
           keep_as_it_is no_dictionary loaded_once [two_sales]).
  - exact keep_as_it_is_keeps_names.
  - repeat constructor. simpl. tauto.
  - repeat constructor. simpl. tauto.
Defined.

Lemma update_shows_witness :
  page.find_cleaning_report
    (page.cleansed_data
       (fst (page.process_data_and_update_state
               keep_as_it_is no_dictionary loaded_once [two_sales])))
    (py "sales")
  = Some []
  /\ page.find_cleaning_report (page.cleansed_data loaded_once) (py "sales")
     = Some [amount_was_text].
Proof.
  split; [|reflexivity].
  apply (update_shows_the_new_cleaning_report
           keep_as_it_is no_dictionary loaded_once [two_sales]
           [CleansedDataset.mk two_sales []] (CleansedDataset.mk two_sales [])).
  - reflexivity.
  - reflexivity.
  - reflexivity.
  - repeat constructor. simpl. tauto.
  - now left.
Defined.

(** ** Updates that do not cleanse *)

Section UncleansedFacts.

Variable cleanse_dataframes :
  list AnalystDataset.t -> result (list CleansedDataset.t).
Variable get_dictionaries :
  list AnalystDataset.t -> result (list DataDictionary.t).

(** X16.  When the data come from the database, or when the cleanser
    raises, the update stores the new datasets as they were given, after
    the old ones under other names; the cleansed data only lose the entries
    under the new names, so no cleaning report is found for a new dataset,
    not even one of an earlier load under its name.  From the database no
    error is shown, whatever the cleanser would do; when the cleanser
    raises, its error is shown. *)
Theorem update_without_cleansing_stores_the_datasets_as_given
        (st : page.SessionState) (new : list AnalystDataset.t) :
  page.data_source st = Some page.DATABASE
  \/ (exists e, cleanse_dataframes new = Raise e) ->
  page.datasets
    (fst (page.process_data_and_update_state
            cleanse_dataframes get_dictionaries st new))
  = filter (fun ds => page.not_in (AnalystDataset.name ds)
                                  (List.map AnalystDataset.name new))
           (page.datasets st)
    ++ new
  /\ page.cleansed_data
       (fst (page.process_data_and_update_state
               cleanse_dataframes get_dictionaries st new))
     = filter (fun ds => page.not_in (CleansedDataset.name ds)
                                     (List.map AnalystDataset.name new))
              (page.cleansed_data st)
  /\ (forall d,
         In d new ->
         page.find_cleaning_report
           (page.cleansed_data
              (fst (page.process_data_and_update_state
                      cleanse_dataframes get_dictionaries st new)))
           (AnalystDataset.name d)
         = None)
  /\ (page.data_source st = Some page.DATABASE ->
      forall e,
        ~ In (page.Error e)
             (snd (page.process_data_and_update_state
                     cleanse_dataframes get_dictionaries st new)))
  /\ (forall e,
         page.data_source st <> Some page.DATABASE ->
         cleanse_dataframes new = Raise e ->
         In (page.Error e)
            (snd (page.process_data_and_update_state
                    cleanse_dataframes get_dictionaries st new))).
Proof.
  intros H.
  assert (Hc : page.cleansed_data
                 (fst (page.process_data_and_update_state
                         cleanse_dataframes get_dictionaries st new))
               = filter (fun ds => page.not_in (CleansedDataset.name ds)
                                               (List.map AnalystDataset.name new))
                        (page.cleansed_data st)).
  { unfold page.process_data_and_update_state. cbn [fst page.cleansed_data].
    destruct H as [-> | [e ->]]; [reflexivity|].
    now destruct (page.not_database (page.data_source st)). }
  split; [|split; [exact Hc | split; [|split]]].
  - unfold page.process_data_and_update_state. cbn [fst page.datasets].
    destruct H as [-> | [e ->]]; [reflexivity|].
    now destruct (page.not_database (page.data_source st)).
  - intros d Hd. rewrite Hc. apply find_cleaning_report_none.
    intros Hin. apply kept_names in Hin. destruct Hin as [_ Hin].
    apply Hin. now apply in_map.
  - intros Hdb e. unfold page.process_data_and_update_state.
    cbn [snd]. rewrite Hdb. cbn [page.not_database fst snd].
    rewrite !in_app_iff. intros [Hin | [[] | [Hin | Hin]]].
    + apply in_map_iff in Hin. destruct Hin as (x & Hx & _). discriminate.
    + destruct (get_dictionaries new); simpl in Hin;
        [destruct Hin | destruct Hin as [Hin | []]; discriminate].
    + destruct (get_dictionaries new) as [[|x l]|]; simpl in Hin;
        try (destruct Hin as [Hin | []]; discriminate); destruct Hin.
  - intros e Hsrc He. unfold page.process_data_and_update_state.
    cbn [snd]. rewrite He.
    assert (Hn : page.not_database (page.data_source st) = true).
    { destruct (page.data_source st) as [[| |]|]; try reflexivity.
      congruence. }
    rewrite Hn. cbn [snd]. rewrite !in_app_iff. right. left. now left.
Qed.

End UncleansedFacts.

Lemma update_without_cleansing_witness :
  page.datasets
    (fst (page.process_data_and_update_state
            keep_as_it_is no_dictionary loaded_from_database [two_sales]))
  = [two_sales]
  /\ page.find_cleaning_report
       (page.cleansed_data
          (fst (page.process_data_and_update_state
                  keep_as_it_is no_dictionary loaded_from_database [two_sales])))
       (py "sales")
     = None.
Proof.
  pose proof (update_without_cleansing_stores_the_datasets_as_given
                keep_as_it_is no_dictionary loaded_from_database [two_sales]
                (or_introl eq_refl)) as (Hd & _ & Hr & _).
  split; [exact Hd | apply (Hr two_sales); now left].
Defined.
